(** * try-nextjs: the product catalogue's domain, service and route layers

    A shallow embedding of the TypeScript sources: the [ProductCategory] and
    [Rating] value objects, the [Product] entity, the [ApiProductRepository],
    the [ProductService] use cases and the HTTP route handlers.

    Conventions.
    - A JavaScript [number] is an IEEE-754 binary64 value: Rocq's primitive
      [float]; [<], [>], [===] on numbers are [PrimFloat.ltb] and [PrimFloat.eqb].
    - A JavaScript string is a sequence of UTF-16 code units; [length] counts
      code units, white space is ECMAScript's WhiteSpace and LineTerminator,
      and [toLowerCase] is the Unicode default case conversion.
    - A value read from a JSON body is a [Js.value]: the handlers receive any
      JSON text, whatever the types they declare.
    - [throw] is the [Throw] result; a method that mutates [this] is a function
      from the state before to a result and the state after. *)

From Stdlib Require Import ZArith NArith Floats List Bool Lia.
From Stdlib.Strings Require Byte.
From stdpp Require Import base list.
Import ListNotations.

Local Open Scope bool_scope.

(* A decimal literal denotes the nearest binary64 value, as in JavaScript. *)
Set Warnings "-inexact-float".
(* [Js.value] is nested in lists: its induction principle is stated where
   it is needed. *)
Set Warnings "-register-all".

(** ** Strings *)

(** A UTF-16 code unit: a number below 65536. *)
Definition code_unit : Type := N.

Inductive string : Type :=
  | EmptyString
  | String (c : code_unit) (s : string).

Module String.
Local Open Scope N_scope.

(** [s.length]: the number of code units. *)
Fixpoint length (s : string) : nat :=
  match s with
  | EmptyString => O
  | String _ r => S (length r)
  end.

(** [s + t] *)
Fixpoint append (s t : string) : string :=
  match s with
  | EmptyString => t
  | String c r => String c (append r t)
  end.

(** [s === t] *)
Fixpoint eqb (s t : string) : bool :=
  match s, t with
  | EmptyString, EmptyString => true
  | String c r, String d r' => (c =? d) && eqb r r'
  | _, _ => false
  end.

(** [s.startsWith(p)] *)
Fixpoint prefix (p s : string) : bool :=
  match p, s with
  | EmptyString, _ => true
  | String c p', String d s' => (c =? d) && prefix p' s'
  | String _ _, EmptyString => false
  end.

Fixpoint get (n : nat) (s : string) : option code_unit :=
  match s, n with
  | EmptyString, _ => None
  | String c _, O => Some c
  | String _ r, S n' => get n' r
  end.

(** The [m] code units from position [n] on, or fewer at the end. *)
Fixpoint substring (n m : nat) (s : string) : string :=
  match n, m, s with
  | O, O, _ => EmptyString
  | O, S m', String c r => String c (substring O m' r)
  | S n', _, String _ r => substring n' m r
  | _, _, EmptyString => EmptyString
  end.

(** The code units of a string literal, which the file holds in UTF-8: a
    character beyond U+FFFF is a surrogate pair. *)
Definition low6 (b : Byte.byte) : N := Byte.to_N b mod 64.
Fixpoint of_utf8 (l : list Byte.byte) : string :=
  match l with
  | [] => EmptyString
  | b :: r =>
      let n := Byte.to_N b in
      match r with
      | b1 :: r1 =>
          if n <? 192 then String n (of_utf8 r)
          else if n <? 224 then String (n mod 32 * 64 + low6 b1) (of_utf8 r1)
          else
            match r1 with
            | b2 :: r2 =>
                if n <? 240 then
                  String (n mod 16 * 4096 + low6 b1 * 64 + low6 b2) (of_utf8 r2)
                else
                  match r2 with
                  | b3 :: r3 =>
                      let v := n mod 8 * 262144 + low6 b1 * 4096
                               + low6 b2 * 64 + low6 b3 - 65536 in
                      String (55296 + v / 1024)
                        (String (56320 + v mod 1024) (of_utf8 r3))
                  | [] => String n (of_utf8 r)
                  end
            | [] => String n (of_utf8 r)
            end
      | [] => String n EmptyString
      end
  end.
Definition byte (n : N) : Byte.byte := default Byte.x3f (Byte.of_N n).
Fixpoint to_utf8 (s : string) : list Byte.byte :=
  match s with
  | EmptyString => []
  | String c r =>
      if c <? 128 then byte c :: to_utf8 r
      else if c <? 2048 then byte (192 + c / 64) :: byte (128 + c mod 64) :: to_utf8 r
      else
        match r with
        | String d r' =>
            if (55296 <=? c) && (c <? 56320) && (56320 <=? d) && (d <? 57344) then
              let v := 65536 + (c - 55296) * 1024 + (d - 56320) in
              byte (240 + v / 262144) :: byte (128 + v / 4096 mod 64)
              :: byte (128 + v / 64 mod 64) :: byte (128 + v mod 64) :: to_utf8 r'
            else
              byte (224 + c / 4096) :: byte (128 + c / 64 mod 64)
              :: byte (128 + c mod 64) :: to_utf8 r
        | EmptyString =>
            [byte (224 + c / 4096); byte (128 + c / 64 mod 64); byte (128 + c mod 64)]
        end
  end.

End String.

Declare Scope string_scope.
Delimit Scope string_scope with string.
Bind Scope string_scope with string.
String Notation string String.of_utf8 String.to_utf8 : string_scope.
Infix "++" := String.append : string_scope.
Local Open Scope string_scope.

(** ** Unicode data (version 14.0) *)

Module Unicode.
Local Open Scope N_scope.

Definition within (c : N) (range : N * N) : bool :=
  (fst range <=? c) && (c <=? snd range).
Definition in_ranges (ranges : list (N * N)) (c : N) : bool :=
  existsb (within c) ranges.

(** ECMAScript's WhiteSpace (TAB, VT, FF, ZWNBSP and the space separators
    of category Zs) and LineTerminator (LF, CR, LS, PS). *)
Definition white_space : list (N * N) :=
  [ (9, 13); (32, 32); (160, 160); (5760, 5760); (8192, 8202); (8232, 8233);
    (8239, 8239); (8287, 8287); (12288, 12288); (65279, 65279) ].

(** The simple lowercase mappings of UnicodeData.txt, as
    [(first, last, step, image of first)]: the characters [first],
    [first + step], ..., [last] map to consecutive images. Capital sigma
    (U+03A3) and capital I with dot above (U+0130) are in SpecialCasing.txt
    and left out here. *)
Definition lowercase : list (N * N * N * N) :=
  [
    (65, 90, 1, 97); (192, 214, 1, 224); (216, 222, 1, 248); (256, 302, 2, 257);
    (306, 310, 2, 307); (313, 327, 2, 314); (330, 374, 2, 331); (376, 376, 1, 255);
    (377, 381, 2, 378); (385, 385, 1, 595); (386, 388, 2, 387); (390, 390, 1, 596);
    (391, 391, 1, 392); (393, 394, 1, 598); (395, 395, 1, 396); (398, 398, 1, 477);
    (399, 399, 1, 601); (400, 400, 1, 603); (401, 401, 1, 402); (403, 403, 1, 608);
    (404, 404, 1, 611); (406, 406, 1, 617); (407, 407, 1, 616); (408, 408, 1, 409);
    (412, 412, 1, 623); (413, 413, 1, 626); (415, 415, 1, 629); (416, 420, 2, 417);
    (422, 422, 1, 640); (423, 423, 1, 424); (425, 425, 1, 643); (428, 428, 1, 429);
    (430, 430, 1, 648); (431, 431, 1, 432); (433, 434, 1, 650); (435, 437, 2, 436);
    (439, 439, 1, 658); (440, 440, 1, 441); (444, 444, 1, 445); (452, 452, 1, 454);
    (453, 453, 1, 454); (455, 455, 1, 457); (456, 456, 1, 457); (458, 458, 1, 460);
    (459, 475, 2, 460); (478, 494, 2, 479); (497, 497, 1, 499); (498, 500, 2, 499);
    (502, 502, 1, 405); (503, 503, 1, 447); (504, 542, 2, 505); (544, 544, 1, 414);
    (546, 562, 2, 547); (570, 570, 1, 11365); (571, 571, 1, 572); (573, 573, 1, 410);
    (574, 574, 1, 11366); (577, 577, 1, 578); (579, 579, 1, 384); (580, 580, 1, 649);
    (581, 581, 1, 652); (582, 590, 2, 583); (880, 882, 2, 881); (886, 886, 1, 887);
    (895, 895, 1, 1011); (902, 902, 1, 940); (904, 906, 1, 941); (908, 908, 1, 972);
    (910, 911, 1, 973); (913, 929, 1, 945); (932, 939, 1, 964); (975, 975, 1, 983);
    (984, 1006, 2, 985); (1012, 1012, 1, 952); (1015, 1015, 1, 1016); (1017, 1017, 1, 1010);
    (1018, 1018, 1, 1019); (1021, 1023, 1, 891); (1024, 1039, 1, 1104); (1040, 1071, 1, 1072);
    (1120, 1152, 2, 1121); (1162, 1214, 2, 1163); (1216, 1216, 1, 1231); (1217, 1229, 2, 1218);
    (1232, 1326, 2, 1233); (1329, 1366, 1, 1377); (4256, 4293, 1, 11520); (4295, 4295, 1, 11559);
    (4301, 4301, 1, 11565); (5024, 5103, 1, 43888); (5104, 5109, 1, 5112); (7312, 7354, 1, 4304);
    (7357, 7359, 1, 4349); (7680, 7828, 2, 7681); (7838, 7838, 1, 223); (7840, 7934, 2, 7841);
    (7944, 7951, 1, 7936); (7960, 7965, 1, 7952); (7976, 7983, 1, 7968); (7992, 7999, 1, 7984);
    (8008, 8013, 1, 8000); (8025, 8031, 2, 8017); (8040, 8047, 1, 8032); (8072, 8079, 1, 8064);
    (8088, 8095, 1, 8080); (8104, 8111, 1, 8096); (8120, 8121, 1, 8112); (8122, 8123, 1, 8048);
    (8124, 8124, 1, 8115); (8136, 8139, 1, 8050); (8140, 8140, 1, 8131); (8152, 8153, 1, 8144);
    (8154, 8155, 1, 8054); (8168, 8169, 1, 8160); (8170, 8171, 1, 8058); (8172, 8172, 1, 8165);
    (8184, 8185, 1, 8056); (8186, 8187, 1, 8060); (8188, 8188, 1, 8179); (8486, 8486, 1, 969);
    (8490, 8490, 1, 107); (8491, 8491, 1, 229); (8498, 8498, 1, 8526); (8544, 8559, 1, 8560);
    (8579, 8579, 1, 8580); (9398, 9423, 1, 9424); (11264, 11311, 1, 11312); (11360, 11360, 1, 11361);
    (11362, 11362, 1, 619); (11363, 11363, 1, 7549); (11364, 11364, 1, 637); (11367, 11371, 2, 11368);
    (11373, 11373, 1, 593); (11374, 11374, 1, 625); (11375, 11375, 1, 592); (11376, 11376, 1, 594);
    (11378, 11378, 1, 11379); (11381, 11381, 1, 11382); (11390, 11391, 1, 575); (11392, 11490, 2, 11393);
    (11499, 11501, 2, 11500); (11506, 11506, 1, 11507); (42560, 42604, 2, 42561); (42624, 42650, 2, 42625);
    (42786, 42798, 2, 42787); (42802, 42862, 2, 42803); (42873, 42875, 2, 42874); (42877, 42877, 1, 7545);
    (42878, 42886, 2, 42879); (42891, 42891, 1, 42892); (42893, 42893, 1, 613); (42896, 42898, 2, 42897);
    (42902, 42920, 2, 42903); (42922, 42922, 1, 614); (42923, 42923, 1, 604); (42924, 42924, 1, 609);
    (42925, 42925, 1, 620); (42926, 42926, 1, 618); (42928, 42928, 1, 670); (42929, 42929, 1, 647);
    (42930, 42930, 1, 669); (42931, 42931, 1, 43859); (42932, 42946, 2, 42933); (42948, 42948, 1, 42900);
    (42949, 42949, 1, 642); (42950, 42950, 1, 7566); (42951, 42953, 2, 42952); (42960, 42960, 1, 42961);
    (42966, 42968, 2, 42967); (42997, 42997, 1, 42998); (65313, 65338, 1, 65345); (66560, 66599, 1, 66600);
    (66736, 66771, 1, 66776); (66928, 66938, 1, 66967); (66940, 66954, 1, 66979); (66956, 66962, 1, 66995);
    (66964, 66965, 1, 67003); (68736, 68786, 1, 68800); (71840, 71871, 1, 71872); (93760, 93791, 1, 93792);
    (125184, 125217, 1, 125218)
  ].

(** The characters with the property Case_Ignorable. *)
Definition case_ignorable : list (N * N) :=
  [
    (39, 39); (46, 46); (58, 58); (94, 94); (96, 96); (168, 168);
    (173, 173); (175, 175); (180, 180); (183, 184); (688, 879); (884, 885);
    (890, 890); (900, 901); (903, 903); (1155, 1161); (1369, 1369); (1375, 1375);
    (1425, 1469); (1471, 1471); (1473, 1474); (1476, 1477); (1479, 1479); (1524, 1524);
    (1536, 1541); (1552, 1562); (1564, 1564); (1600, 1600); (1611, 1631); (1648, 1648);
    (1750, 1757); (1759, 1768); (1770, 1773); (1807, 1807); (1809, 1809); (1840, 1866);
    (1958, 1968); (2027, 2037); (2042, 2042); (2045, 2045); (2070, 2093); (2137, 2139);
    (2184, 2184); (2192, 2193); (2200, 2207); (2249, 2306); (2362, 2362); (2364, 2364);
    (2369, 2376); (2381, 2381); (2385, 2391); (2402, 2403); (2417, 2417); (2433, 2433);
    (2492, 2492); (2497, 2500); (2509, 2509); (2530, 2531); (2558, 2558); (2561, 2562);
    (2620, 2620); (2625, 2626); (2631, 2632); (2635, 2637); (2641, 2641); (2672, 2673);
    (2677, 2677); (2689, 2690); (2748, 2748); (2753, 2757); (2759, 2760); (2765, 2765);
    (2786, 2787); (2810, 2815); (2817, 2817); (2876, 2876); (2879, 2879); (2881, 2884);
    (2893, 2893); (2901, 2902); (2914, 2915); (2946, 2946); (3008, 3008); (3021, 3021);
    (3072, 3072); (3076, 3076); (3132, 3132); (3134, 3136); (3142, 3144); (3146, 3149);
    (3157, 3158); (3170, 3171); (3201, 3201); (3260, 3260); (3263, 3263); (3270, 3270);
    (3276, 3277); (3298, 3299); (3328, 3329); (3387, 3388); (3393, 3396); (3405, 3405);
    (3426, 3427); (3457, 3457); (3530, 3530); (3538, 3540); (3542, 3542); (3633, 3633);
    (3636, 3642); (3654, 3662); (3761, 3761); (3764, 3772); (3782, 3782); (3784, 3789);
    (3864, 3865); (3893, 3893); (3895, 3895); (3897, 3897); (3953, 3966); (3968, 3972);
    (3974, 3975); (3981, 3991); (3993, 4028); (4038, 4038); (4141, 4144); (4146, 4151);
    (4153, 4154); (4157, 4158); (4184, 4185); (4190, 4192); (4209, 4212); (4226, 4226);
    (4229, 4230); (4237, 4237); (4253, 4253); (4348, 4348); (4957, 4959); (5906, 5908);
    (5938, 5939); (5970, 5971); (6002, 6003); (6068, 6069); (6071, 6077); (6086, 6086);
    (6089, 6099); (6103, 6103); (6109, 6109); (6155, 6159); (6211, 6211); (6277, 6278);
    (6313, 6313); (6432, 6434); (6439, 6440); (6450, 6450); (6457, 6459); (6679, 6680);
    (6683, 6683); (6742, 6742); (6744, 6750); (6752, 6752); (6754, 6754); (6757, 6764);
    (6771, 6780); (6783, 6783); (6823, 6823); (6832, 6862); (6912, 6915); (6964, 6964);
    (6966, 6970); (6972, 6972); (6978, 6978); (7019, 7027); (7040, 7041); (7074, 7077);
    (7080, 7081); (7083, 7085); (7142, 7142); (7144, 7145); (7149, 7149); (7151, 7153);
    (7212, 7219); (7222, 7223); (7288, 7293); (7376, 7378); (7380, 7392); (7394, 7400);
    (7405, 7405); (7412, 7412); (7416, 7417); (7468, 7530); (7544, 7544); (7579, 7679);
    (8125, 8125); (8127, 8129); (8141, 8143); (8157, 8159); (8173, 8175); (8189, 8190);
    (8203, 8207); (8216, 8217); (8228, 8228); (8231, 8231); (8234, 8238); (8288, 8292);
    (8294, 8303); (8305, 8305); (8319, 8319); (8336, 8348); (8400, 8432); (11388, 11389);
    (11503, 11505); (11631, 11631); (11647, 11647); (11744, 11775); (11823, 11823); (12293, 12293);
    (12330, 12333); (12337, 12341); (12347, 12347); (12441, 12446); (12540, 12542); (40981, 40981);
    (42232, 42237); (42508, 42508); (42607, 42610); (42612, 42621); (42623, 42623); (42652, 42655);
    (42736, 42737); (42752, 42785); (42864, 42864); (42888, 42890); (42994, 42996); (43000, 43001);
    (43010, 43010); (43014, 43014); (43019, 43019); (43045, 43046); (43052, 43052); (43204, 43205);
    (43232, 43249); (43263, 43263); (43302, 43309); (43335, 43345); (43392, 43394); (43443, 43443);
    (43446, 43449); (43452, 43453); (43471, 43471); (43493, 43494); (43561, 43566); (43569, 43570);
    (43573, 43574); (43587, 43587); (43596, 43596); (43632, 43632); (43644, 43644); (43696, 43696);
    (43698, 43700); (43703, 43704); (43710, 43711); (43713, 43713); (43741, 43741); (43756, 43757);
    (43763, 43764); (43766, 43766); (43867, 43871); (43881, 43883); (44005, 44005); (44008, 44008);
    (44013, 44013); (64286, 64286); (64434, 64450); (65024, 65039); (65043, 65043); (65056, 65071);
    (65106, 65106); (65109, 65109); (65279, 65279); (65287, 65287); (65294, 65294); (65306, 65306);
    (65342, 65342); (65344, 65344); (65392, 65392); (65438, 65439); (65507, 65507); (65529, 65531);
    (66045, 66045); (66272, 66272); (66422, 66426); (67456, 67461); (67463, 67504); (67506, 67514);
    (68097, 68099); (68101, 68102); (68108, 68111); (68152, 68154); (68159, 68159); (68325, 68326);
    (68900, 68903); (69291, 69292); (69446, 69456); (69506, 69509); (69633, 69633); (69688, 69702);
    (69744, 69744); (69747, 69748); (69759, 69761); (69811, 69814); (69817, 69818); (69821, 69821);
    (69826, 69826); (69837, 69837); (69888, 69890); (69927, 69931); (69933, 69940); (70003, 70003);
    (70016, 70017); (70070, 70078); (70089, 70092); (70095, 70095); (70191, 70193); (70196, 70196);
    (70198, 70199); (70206, 70206); (70367, 70367); (70371, 70378); (70400, 70401); (70459, 70460);
    (70464, 70464); (70502, 70508); (70512, 70516); (70712, 70719); (70722, 70724); (70726, 70726);
    (70750, 70750); (70835, 70840); (70842, 70842); (70847, 70848); (70850, 70851); (71090, 71093);
    (71100, 71101); (71103, 71104); (71132, 71133); (71219, 71226); (71229, 71229); (71231, 71232);
    (71339, 71339); (71341, 71341); (71344, 71349); (71351, 71351); (71453, 71455); (71458, 71461);
    (71463, 71467); (71727, 71735); (71737, 71738); (71995, 71996); (71998, 71998); (72003, 72003);
    (72148, 72151); (72154, 72155); (72160, 72160); (72193, 72202); (72243, 72248); (72251, 72254);
    (72263, 72263); (72273, 72278); (72281, 72283); (72330, 72342); (72344, 72345); (72752, 72758);
    (72760, 72765); (72767, 72767); (72850, 72871); (72874, 72880); (72882, 72883); (72885, 72886);
    (73009, 73014); (73018, 73018); (73020, 73021); (73023, 73029); (73031, 73031); (73104, 73105);
    (73109, 73109); (73111, 73111); (73459, 73460); (78896, 78904); (92912, 92916); (92976, 92982);
    (92992, 92995); (94031, 94031); (94095, 94111); (94176, 94177); (94179, 94180); (110576, 110579);
    (110581, 110587); (110589, 110590); (113821, 113822); (113824, 113827); (118528, 118573); (118576, 118598);
    (119143, 119145); (119155, 119170); (119173, 119179); (119210, 119213); (119362, 119364); (121344, 121398);
    (121403, 121452); (121461, 121461); (121476, 121476); (121499, 121503); (121505, 121519); (122880, 122886);
    (122888, 122904); (122907, 122913); (122915, 122916); (122918, 122922); (123184, 123197); (123566, 123566);
    (123628, 123631); (125136, 125142); (125252, 125259); (127995, 127999); (917505, 917505); (917536, 917631);
    (917760, 917999)
  ].

(** The characters with the property Cased that are not Case_Ignorable. *)
Definition cased : list (N * N) :=
  [
    (65, 90); (97, 122); (170, 170); (181, 181); (186, 186); (192, 214);
    (216, 246); (248, 442); (444, 447); (452, 659); (661, 687); (880, 883);
    (886, 887); (891, 893); (895, 895); (902, 902); (904, 906); (908, 908);
    (910, 929); (931, 1013); (1015, 1153); (1162, 1327); (1329, 1366); (1376, 1416);
    (4256, 4293); (4295, 4295); (4301, 4301); (4304, 4346); (4349, 4351); (5024, 5109);
    (5112, 5117); (7296, 7304); (7312, 7354); (7357, 7359); (7424, 7467); (7531, 7543);
    (7545, 7578); (7680, 7957); (7960, 7965); (7968, 8005); (8008, 8013); (8016, 8023);
    (8025, 8025); (8027, 8027); (8029, 8029); (8031, 8061); (8064, 8116); (8118, 8124);
    (8126, 8126); (8130, 8132); (8134, 8140); (8144, 8147); (8150, 8155); (8160, 8172);
    (8178, 8180); (8182, 8188); (8450, 8450); (8455, 8455); (8458, 8467); (8469, 8469);
    (8473, 8477); (8484, 8484); (8486, 8486); (8488, 8488); (8490, 8493); (8495, 8500);
    (8505, 8505); (8508, 8511); (8517, 8521); (8526, 8526); (8544, 8575); (8579, 8580);
    (9398, 9449); (11264, 11387); (11390, 11492); (11499, 11502); (11506, 11507); (11520, 11557);
    (11559, 11559); (11565, 11565); (42560, 42605); (42624, 42651); (42786, 42863); (42865, 42887);
    (42891, 42894); (42896, 42954); (42960, 42961); (42963, 42963); (42965, 42969); (42997, 42998);
    (43002, 43002); (43824, 43866); (43872, 43880); (43888, 43967); (64256, 64262); (64275, 64279);
    (65313, 65338); (65345, 65370); (66560, 66639); (66736, 66771); (66776, 66811); (66928, 66938);
    (66940, 66954); (66956, 66962); (66964, 66965); (66967, 66977); (66979, 66993); (66995, 67001);
    (67003, 67004); (68736, 68786); (68800, 68850); (71840, 71903); (93760, 93823); (119808, 119892);
    (119894, 119964); (119966, 119967); (119970, 119970); (119973, 119974); (119977, 119980); (119982, 119993);
    (119995, 119995); (119997, 120003); (120005, 120069); (120071, 120074); (120077, 120084); (120086, 120092);
    (120094, 120121); (120123, 120126); (120128, 120132); (120134, 120134); (120138, 120144); (120146, 120485);
    (120488, 120512); (120514, 120538); (120540, 120570); (120572, 120596); (120598, 120628); (120630, 120654);
    (120656, 120686); (120688, 120712); (120714, 120744); (120746, 120770); (120772, 120779); (122624, 122633);
    (122635, 122654); (125184, 125251); (127280, 127305); (127312, 127337); (127344, 127369)
  ].

Definition covers (c : N) (entry : N * N * N * N) : bool :=
  let '(first, last, step, _) := entry in
  (first <=? c) && (c <=? last) && ((c - first) mod step =? 0).
Definition simple_lowercase (c : N) : N :=
  match List.find (covers c) lowercase with
  | Some (first, _, _, image) => image + (c - first)
  | None => c
  end.

End Unicode.

(** ** JavaScript values and exceptions *)

Inductive JsError : Type :=
  | Error (message : string)
  | TypeError (message : string)
  | RangeError (message : string).

Definition message_of (e : JsError) : string :=
  match e with Error m | TypeError m | RangeError m => m end.

Inductive Res (A : Type) : Type :=
  | Ok (a : A)
  | Throw (e : JsError).
Arguments Ok {A} a.
Arguments Throw {A} e.

Definition number : Type := float.

Module Js.

(** [x < y] and [x > y] on numbers: false whenever an operand is NaN. *)
Definition lt (x y : number) : bool := PrimFloat.ltb x y.
Definition gt (x y : number) : bool := PrimFloat.ltb y x.

(** ToBoolean on a number: [0], [-0] and [NaN] are falsy. *)
Definition truthy_number (x : number) : bool :=
  negb (PrimFloat.eqb x 0%float || PrimFloat.is_nan x).

(** ToBoolean on a string: only the empty string is falsy. *)
Definition truthy_string (s : string) : bool :=
  match s with EmptyString => false | String _ _ => true end.

(** [Number.isInteger]: finite, and its value [m * 2^e] has no fractional
    part. *)
Definition SFisInteger (f : spec_float) : bool :=
  match f with
  | S754_zero _ => true
  | S754_finite _ m e =>
      if (0 <=? e)%Z then true else (Z.pos m mod 2 ^ (- e) =? 0)%Z
  | S754_infinity _ | S754_nan => false
  end.
Definition Number_isInteger (x : number) : bool := SFisInteger (Prim2SF x).

(** The code points of a string: a high surrogate followed by a low one is
    one code point, every other code unit is a code point by itself. *)
Definition isHighSurrogate (c : code_unit) : bool := (55296 <=? c)%N && (c <=? 56319)%N.
Definition isLowSurrogate (c : code_unit) : bool := (56320 <=? c)%N && (c <=? 57343)%N.
Fixpoint codePoints (s : string) : list N :=
  match s with
  | EmptyString => []
  | String c r =>
      match r with
      | String d r' =>
          if isHighSurrogate c && isLowSurrogate d
          then (65536 + (c - 55296) * 1024 + (d - 56320))%N :: codePoints r'
          else c :: codePoints r
      | EmptyString => [c]
      end
  end.
Fixpoint fromCodePoints (l : list N) : string :=
  match l with
  | [] => EmptyString
  | c :: r =>
      if (c <? 65536)%N then String c (fromCodePoints r)
      else String (55296 + (c - 65536) / 1024)%N
             (String (56320 + (c - 65536) mod 1024)%N (fromCodePoints r))
  end.

(** [String.prototype.toLowerCase]: every code point is replaced by its
    lowercase mapping. Capital sigma becomes the final sigma when a cased
    letter stands before it and none after it, case-ignorable characters
    skipped (the condition Final_Sigma). *)
Fixpoint casedLetterFollows (l : list N) : bool :=
  match l with
  | [] => false
  | c :: r =>
      if Unicode.in_ranges Unicode.case_ignorable c then casedLetterFollows r
      else Unicode.in_ranges Unicode.cased c
  end.
Definition lowerCodePoint (afterCased : bool) (c : N) (rest : list N) : list N :=
  if (c =? 931)%N then
    [if afterCased && negb (casedLetterFollows rest) then 962%N else 963%N]
  else if (c =? 304)%N then [105%N; 775%N]
  else [Unicode.simple_lowercase c].
Fixpoint lowerCodePoints (afterCased : bool) (l : list N) : list N :=
  match l with
  | [] => []
  | c :: r =>
      (lowerCodePoint afterCased c r
       ++ lowerCodePoints
            (if Unicode.in_ranges Unicode.case_ignorable c then afterCased
             else Unicode.in_ranges Unicode.cased c) r)%list
  end.
Definition toLowerCase (s : string) : string :=
  fromCodePoints (lowerCodePoints false (codePoints s)).

(** [String.prototype.trim]: white space is stripped at both ends. *)
Definition isWhiteSpace (c : code_unit) : bool :=
  Unicode.in_ranges Unicode.white_space c.
Fixpoint trimStart (s : string) : string :=
  match s with
  | EmptyString => EmptyString
  | String c r => if isWhiteSpace c then trimStart r else s
  end.
Fixpoint trimEnd (s : string) : string :=
  match s with
  | EmptyString => EmptyString
  | String c r =>
      match trimEnd r with
      | EmptyString => if isWhiteSpace c then EmptyString else String c EmptyString
      | r' => String c r'
      end
  end.
Definition trim (s : string) : string := trimEnd (trimStart s).

(** [Array.prototype.includes] and [Array.prototype.join] on strings. *)
Definition includes (l : list string) (x : string) : bool :=
  existsb (String.eqb x) l.
Fixpoint join (sep : string) (l : list string) : string :=
  match l with
  | [] => ""
  | [x] => x
  | x :: r => x ++ sep ++ join sep r
  end.

(** [!s || s.trim().length === 0], the emptiness test of the validators. *)
Definition blank (s : string) : bool :=
  negb (truthy_string s) || (String.length (trim s) =? 0)%nat.

(** What [JSON.parse] returns: the handlers declare the type of a request
    body but receive any of these. An object is its properties, each name
    once. *)
Inductive value : Type :=
  | JNull
  | JBoolean (b : bool)
  | JNumber (x : number)
  | JString (s : string)
  | JArray (elements : list value)
  | JObject (properties : list (string * value)).

(** ToBoolean; [undefined] is [None]. *)
Definition toBoolean (v : value) : bool :=
  match v with
  | JNull => false
  | JBoolean b => b
  | JNumber x => truthy_number x
  | JString s => truthy_string s
  | JArray _ | JObject _ => true
  end.
Definition truthy (v : option value) : bool :=
  match v with Some v => toBoolean v | None => false end.

(** An own property of an object. *)
Fixpoint property (key : string) (properties : list (string * value)) : option value :=
  match properties with
  | [] => None
  | (k, v) :: rest => if String.eqb k key then Some v else property key rest
  end.

(** [v.key], for a key that no prototype defines (the handlers read [name],
    [description], [price], [category] and [stockQuantity]): [undefined]
    unless [v] is an object with that property; a TypeError on [null]
    (the message is V8's). *)
Definition get (v : value) (key : string) : Res (option value) :=
  match v with
  | JNull =>
      Throw (TypeError ("Cannot read properties of null (reading '" ++ key ++ "')"))
  | JObject properties => Ok (property key properties)
  | _ => Ok None
  end.

End Js.

(** A string is a value. *)
Coercion Js.JString : string >-> Js.value.

(** ** value-objects/ProductCategory.ts *)

Module ProductCategory.

Record t : Type := mk { _value : string }.

Definition VALID_CATEGORIES : list string :=
  [ "electronics"; "clothing"; "books"; "home"; "sports";
    "toys"; "food"; "health"; "beauty"; "other" ].

Definition validateCategory (category : string) : Res unit :=
  if Js.blank category then Throw (Error "Category cannot be empty")
  else
    let normalizedCategory := Js.toLowerCase category in
    if negb (Js.includes VALID_CATEGORIES normalizedCategory) then
      Throw (Error ("Invalid category: " ++ category
                    ++ ". Valid categories are: "
                    ++ Js.join ", " VALID_CATEGORIES))
    else Ok tt.

(** [new ProductCategory(value)] *)
Definition new (value : string) : Res t :=
  match validateCategory value with
  | Throw e => Throw e
  | Ok _ => Ok {| _value := Js.toLowerCase value |}
  end.

(** The constructor called with a value that is no string, as a route
    handler does with a field of the request body: [!category] holds of a
    falsy value, and [category.trim()] throws on every other one (the
    message is V8's). *)
Definition new_untyped (value : Js.value) : Res t :=
  match value with
  | Js.JString value => new value
  | Js.JNull | Js.JBoolean _ | Js.JNumber _ | Js.JArray _ | Js.JObject _ =>
      if Js.toBoolean value then Throw (TypeError "category.trim is not a function")
      else Throw (Error "Category cannot be empty")
  end.

Definition value (c : t) : string := _value c.
Definition equals (c other : t) : bool := String.eqb (_value c) (value other).
Definition toString (c : t) : string := _value c.

(** The claim's wording: two strings match case-insensitively when they have
    the same length and agree character by character up to letter case. The
    letters concerned are those of the ten names: a capital A-Z stands for its
    small letter, and so does the Kelvin sign (U+212A) for k. *)
Definition capitals : string := "ABCDEFGHIJKLMNOPQRSTUVWXYZ".
Definition small_letters : string := "abcdefghijklmnopqrstuvwxyz".
Fixpoint small_letter_of (capitals smalls : string) (c : code_unit) : code_unit :=
  match capitals, smalls with
  | String capital capitals', String small smalls' =>
      if (c =? capital)%N then small else small_letter_of capitals' smalls' c
  | _, _ => c
  end.
Definition ignoring_case (c : code_unit) : code_unit :=
  if (c =? 8490)%N then 107%N else small_letter_of capitals small_letters c.
Fixpoint matches_ignoring_case (s c : string) : bool :=
  match s, c with
  | EmptyString, EmptyString => true
  | String a s', String b c' =>
      (ignoring_case a =? ignoring_case b)%N && matches_ignoring_case s' c'
  | _, _ => false
  end.

End ProductCategory.

(** ** value-objects/Rating.ts (backend-developer-1.md) *)

Module Rating.

Record t : Type := mk { _value : number }.

Definition MIN_RATING : number := 1%float.
Definition MAX_RATING : number := 5%float.

(** The template literal prints the two constants as [1] and [5]. *)
Definition validateRating (rating : number) : Res unit :=
  if negb (Js.Number_isInteger rating) then
    Throw (Error "Rating must be an integer")
  else if Js.lt rating MIN_RATING || Js.gt rating MAX_RATING then
    Throw (Error ("Rating must be between " ++ "1" ++ " and " ++ "5"))
  else Ok tt.

(** [new Rating(value)] *)
Definition new (value : number) : Res t :=
  match validateRating value with
  | Throw e => Throw e
  | Ok _ => Ok {| _value := value |}
  end.

Definition value (r : t) : number := _value r.
Definition equals (r other : t) : bool := PrimFloat.eqb (_value r) (value other).

End Rating.

(** ** Plain records at the boundaries (ProductDto.ts, Product.ts) *)

(** A [Date] holds a time value in milliseconds, or is an Invalid Date. *)
Inductive Date : Type :=
  | InvalidDate
  | TimeValue (t : Z).

(** The record [Product.toPrimitives] returns (interface [ProductDto]). The
    interfaces declare [description] a string; nothing ever inspects it but
    for its truthiness, and the route handlers pass the body's value on
    unchecked, so the field holds whatever value it was given. *)
Module ProductDto.
Record t : Type := mk {
  id : string;
  name : string;
  description : Js.value;
  price : number;
  category : string;
  inStock : bool;
  stockQuantity : number;
  createdAt : string;
  updatedAt : string
}.
End ProductDto.

(** The parameter of [Product.fromPrimitives]: the last three fields are
    optional ([None] is [undefined]). *)
Module ProductData.
Record t : Type := mk {
  id : string;
  name : string;
  description : Js.value;
  price : number;
  category : string;
  stockQuantity : option number;
  createdAt : option string;
  updatedAt : option string
}.

(** A [ProductDto] passed where a [ProductData] is expected: the same object,
    its [inStock] property is not read. *)
Definition of_dto (d : ProductDto.t) : t :=
  {| id := ProductDto.id d;
     name := ProductDto.name d;
     description := ProductDto.description d;
     price := ProductDto.price d;
     category := ProductDto.category d;
     stockQuantity := Some (ProductDto.stockQuantity d);
     createdAt := Some (ProductDto.createdAt d);
     updatedAt := Some (ProductDto.updatedAt d) |}.
End ProductData.

Module CreateProductDto.
Record t : Type := mk {
  id : option string;
  name : string;
  description : Js.value;
  price : number;
  category : string;
  stockQuantity : option number
}.
End CreateProductDto.

(** The object the POST handler passes as a [CreateProductDto]: [name],
    [description] and [category] are the body's values, whatever they are;
    it has no [id]. *)
Module UncheckedProductDto.
Record t : Type := mk {
  name : Js.value;
  description : Js.value;
  price : number;
  category : Js.value;
  stockQuantity : number
}.
End UncheckedProductDto.

Module UpdateProductDto.
Record t : Type := mk {
  name : option string;
  description : option Js.value;
  price : option number;
  category : option string;
  stockQuantity : option number
}.
End UpdateProductDto.

(** core/application/dtos/UserDto.ts *)
Module UserDto.
Record t : Type := mk {
  id : string;
  email : string;
  name : string;
  role : string;
  createdAt : string;
  updatedAt : string
}.
End UserDto.

Module AuthResponseDto.
Record t : Type := mk { user : UserDto.t; token : string }.
End AuthResponseDto.

(** What a route handler answers: [NextResponse.json(payload, {status})]. *)
Module Http.
Inductive Payload : Type :=
  | ErrorJson (error : string) (message : option string)
  | ProductJson (dto : ProductDto.t)
  | UserJson (dto : UserDto.t)
  | AuthJson (dto : AuthResponseDto.t).
Record Response : Type := mkResponse { status : Z; payload : Payload }.
Definition json (payload : Payload) (status : option Z) : Response :=
  {| status := default 200%Z status; payload := payload |}.
End Http.

(** What the handlers that read, update and delete products answer:
    [{ error, message }], [{ message }], a product record or an array of
    product records. *)
Module Reply.
Inductive Payload : Type :=
  | Failure (error : string) (message : option string)
  | Message (message : string)
  | OneProduct (dto : ProductDto.t)
  | Products (dtos : list ProductDto.t).
Record t : Type := mk { status : Z; payload : Payload }.
Definition json (payload : Payload) (status : option Z) : t :=
  {| status := default 200%Z status; payload := payload |}.
End Reply.

(** Regular expressions, matched by derivatives; [test] is the match of a
    pattern anchored at both ends. *)
Module Regex.
Inductive t : Type :=
  | Nothing
  | Empty
  | Class (accepts : code_unit -> bool)
  | Seq (a b : t)
  | Alt (a b : t)
  | Star (a : t).
Definition Plus (a : t) : t := Seq a (Star a).
Fixpoint nullable (r : t) : bool :=
  match r with
  | Nothing | Class _ => false
  | Empty | Star _ => true
  | Seq a b => nullable a && nullable b
  | Alt a b => nullable a || nullable b
  end.
Fixpoint derive (c : code_unit) (r : t) : t :=
  match r with
  | Nothing | Empty => Nothing
  | Class accepts => if accepts c then Empty else Nothing
  | Seq a b =>
      if nullable a then Alt (Seq (derive c a) b) (derive c b)
      else Seq (derive c a) b
  | Alt a b => Alt (derive c a) (derive c b)
  | Star a => Seq (derive c a) (Star a)
  end.
Fixpoint test (r : t) (s : string) : bool :=
  match s with
  | EmptyString => nullable r
  | String c rest => test (derive c r) rest
  end.
End Regex.

(** ** The runtime: clock, random identifiers, network *)

Module Fetch.

(** [fetch(url, {method, headers, body})]; the body is the record handed to
    [JSON.stringify]. *)
Record Request : Type := mkRequest {
  method : string;
  url : string;
  headers : list (string * string);
  body : option ProductDto.t
}.

Definition GET (url : string) : Request :=
  {| method := "GET"; url := url; headers := []; body := None |}.

(** What [response.json()] resolves to, read at the types the callers use. *)
Inductive Json : Type :=
  | JProduct (data : ProductData.t)
  | JProducts (items : list ProductData.t).

Record Response : Type := mkResponse {
  status : Z;
  statusText : string;
  json : Res Json
}.

Definition ok (r : Response) : bool :=
  (200 <=? status r)%Z && (status r <=? 299)%Z.

(** [fetch] rejects (a transport failure) or resolves to a response. *)
Inductive Outcome : Type :=
  | Rejected (e : JsError)
  | Resolved (r : Response).

End Fetch.

(** Everything the code reads from outside itself. [World] is the state of
    the outside; each operation may change it. *)
Class Runtime : Type := {
  World : Type;
  (** the time value [new Date()] reads *)
  Date_now : World -> Z * World;
  (** [crypto.randomUUID()] *)
  randomUUID : World -> string * World;
  (** [fetch(request)] *)
  fetch : Fetch.Request -> World -> Fetch.Outcome * World;
  (** [Date.prototype.toISOString] on a valid time value *)
  isoString : Z -> string;
  (** [new Date(string)] *)
  Date_parse : string -> Date;
  (** [Number(string)]: the number a string denotes, NaN when it denotes none *)
  StringToNumber : string -> number;
  (** [String(number)] *)
  NumberToString : number -> string;
  (** [window.location.origin]; [None] where [window] is undefined *)
  window_origin : option string
}.

(** [String(v)] and [Number(v)] on a value of a JSON body. An array is
    joined with commas, [null] elements giving the empty string; an object
    is "[object Object]", unless it has a property [toString] of its own,
    which is no function: the conversion then finds no method to call and
    throws (the message is V8's). *)
Section Conversions.
Context `{RT : Runtime}.

Fixpoint ToString (v : Js.value) : Res string :=
  match v with
  | Js.JNull => Ok "null"
  | Js.JBoolean b => Ok (if b then "true" else "false")
  | Js.JNumber x => Ok (NumberToString x)
  | Js.JString s => Ok s
  | Js.JArray elements =>
      (fix join (l : list Js.value) : Res string :=
         let element e :=
           match e with
           | Js.JNull => Ok ""
           | _ => ToString e
           end in
         match l with
         | [] => Ok ""
         | [e] => element e
         | e :: rest =>
             match element e with
             | Throw error => Throw error
             | Ok first =>
                 match join rest with
                 | Throw error => Throw error
                 | Ok others => Ok (first ++ "," ++ others)
                 end
             end
         end) elements
  | Js.JObject properties =>
      match Js.property "toString" properties with
      | Some _ => Throw (TypeError "Cannot convert object to primitive value")
      | None => Ok "[object Object]"
      end
  end.

Definition ToNumber (v : Js.value) : Res number :=
  match v with
  | Js.JNull => Ok 0%float
  | Js.JBoolean b => Ok (if b then 1%float else 0%float)
  | Js.JNumber x => Ok x
  | Js.JString s => Ok (StringToNumber s)
  | Js.JArray _ | Js.JObject _ =>
      match ToString v with
      | Throw error => Throw error
      | Ok s => Ok (StringToNumber s)
      end
  end.

End Conversions.

(** ** Objects, and the monad of effectful code *)

(** The private fields of a [Product] instance (entities/Product.ts). *)
Record ProductObject : Type := mkProduct {
  _id : string;
  _name : string;
  _description : Js.value;
  _price : number;
  _category : ProductCategory.t;
  _inStock : bool;
  _stockQuantity : number;
  _createdAt : Date;
  _updatedAt : Date
}.

(** The private fields of a [User] instance (entities/User.ts). *)
Record UserObject : Type := mkUser {
  user_id : string;
  user_email : string;
  user_name : string;
  user_role : string;
  user_createdAt : Date;
  user_updatedAt : Date
}.

(** An element of the login route's [mockUsers] array. *)
Record LoginUser : Type := mkLoginUser {
  login_id : string;
  login_email : string;
  login_password : string;
  login_name : string;
  login_role : string;
  login_createdAt : string;
  login_updatedAt : string
}.

(** A reference to a [Product] instance: its index in the heap. *)
Abbreviation ref := nat.

(** The state a computation runs in: the outside world, the [Product]
    instances allocated so far, the [mockProducts] array of the
    [ProductService] instance (an array of references), and the [mockUsers]
    arrays of the two auth route modules, each module having its own. *)
Record StateOf (W : Type) : Type := mkState {
  world : W;
  heap : list ProductObject;
  mockProducts : list ref;
  register_mockUsers : list UserObject;
  login_mockUsers : list LoginUser
}.
Arguments mkState {W} world heap mockProducts register_mockUsers login_mockUsers.
Arguments world {W} s.
Arguments heap {W} s.
Arguments mockProducts {W} s.
Arguments register_mockUsers {W} s.
Arguments login_mockUsers {W} s.

(** The state, for the world of the runtime at hand. *)
Abbreviation State := (StateOf World).

Section Effects.
Context `{RT : Runtime}.



Definition M (A : Type) : Type := State -> Res A * State.

Definition ret {A} (a : A) : M A := fun s => (Ok a, s).
Definition throw {A} (e : JsError) : M A := fun s => (Throw e, s).
Definition bind {A B} (m : M A) (f : A -> M B) : M B :=
  fun s => match m s with
           | (Ok a, s') => f a s'
           | (Throw e, s') => (Throw e, s')
           end.
(** [try { m } catch (e) { h e }] *)
Definition try_catch {A} (m : M A) (h : JsError -> M A) : M A :=
  fun s => match m s with
           | (Ok a, s') => (Ok a, s')
           | (Throw e, s') => h e s'
           end.
(** A pure computation that may throw. *)
Definition lift {A} (r : Res A) : M A := fun s => (r, s).

(** [console.error(...)]: writes to the log, which nothing reads. *)
Definition console_error (label : string) (e : JsError) : M unit := ret tt.

Definition with_world (s : State) (w : World) : State :=
  mkState w (heap s) (mockProducts s) (register_mockUsers s) (login_mockUsers s).
Definition with_heap (s : State) (h : list ProductObject) : State :=
  mkState (world s) h (mockProducts s) (register_mockUsers s) (login_mockUsers s).
Definition with_mockProducts (s : State) (l : list ref) : State :=
  mkState (world s) (heap s) l (register_mockUsers s) (login_mockUsers s).
Definition with_register_mockUsers (s : State) (l : list UserObject) : State :=
  mkState (world s) (heap s) (mockProducts s) l (login_mockUsers s).
Definition with_login_mockUsers (s : State) (l : list LoginUser) : State :=
  mkState (world s) (heap s) (mockProducts s) (register_mockUsers s) l.

(** [new Date()] *)
Definition newDate : M Date :=
  fun s => let (t, w) := Date_now (world s) in (Ok (TimeValue t), with_world s w).
(** [crypto.randomUUID()] *)
Definition crypto_randomUUID : M string :=
  fun s => let (u, w) := randomUUID (world s) in (Ok u, with_world s w).
(** [await fetch(request)] *)
Definition await_fetch (req : Fetch.Request) : M Fetch.Response :=
  fun s => match fetch req (world s) with
           | (Fetch.Rejected e, w) => (Throw e, with_world s w)
           | (Fetch.Resolved r, w) => (Ok r, with_world s w)
           end.
(** [date.toISOString()]: a RangeError on an Invalid Date. *)
Definition toISOString (d : Date) : M string :=
  match d with
  | InvalidDate => throw (RangeError "Invalid time value")
  | TimeValue t => ret (isoString t)
  end.

(** Allocation of an instance, and reads and writes through a reference. *)
Definition alloc (p : ProductObject) : M ref :=
  fun s => (Ok (length (heap s)), with_heap s (heap s ++ [p])).
Definition load (r : ref) : M ProductObject :=
  fun s => match heap s !! r with
           | Some p => (Ok p, s)
           | None => (Throw (TypeError "Cannot read properties of undefined"), s)
           end.
Definition modify (r : ref) (f : ProductObject -> ProductObject) : M unit :=
  fun s => match heap s !! r with
           | Some p => (Ok tt, with_heap s (<[r := f p]> (heap s)))
           | None => (Throw (TypeError "Cannot set properties of undefined"), s)
           end.
(** Array methods whose callback reads the heap: [map], [filter], [find]
    and [findIndex] ([None] where JavaScript gives [undefined] or [-1]). *)
Fixpoint mapM {A B} (f : A -> M B) (l : list A) : M (list B) :=
  match l with
  | [] => ret []
  | a :: rest =>
      bind (f a) (fun b => bind (mapM f rest) (fun bs => ret (b :: bs)))
  end.
Fixpoint filterM {A} (f : A -> M bool) (l : list A) : M (list A) :=
  match l with
  | [] => ret []
  | a :: rest =>
      bind (f a) (fun keep =>
      bind (filterM f rest) (fun kept => ret (if keep then a :: kept else kept)))
  end.
Fixpoint findM {A} (f : A -> M bool) (l : list A) : M (option A) :=
  match l with
  | [] => ret None
  | a :: rest => bind (f a) (fun found => if found then ret (Some a) else findM f rest)
  end.
Fixpoint findIndexM {A} (f : A -> M bool) (l : list A) (i : nat) : M (option nat) :=
  match l with
  | [] => ret None
  | a :: rest =>
      bind (f a) (fun found => if found then ret (Some i) else findIndexM f rest (S i))
  end.

Definition get_register_mockUsers : M (list UserObject) :=
  fun s => (Ok (register_mockUsers s), s).
Definition set_register_mockUsers (l : list UserObject) : M unit :=
  fun s => (Ok tt, with_register_mockUsers s l).
Definition get_login_mockUsers : M (list LoginUser) :=
  fun s => (Ok (login_mockUsers s), s).
Definition set_login_mockUsers (l : list LoginUser) : M unit :=
  fun s => (Ok tt, with_login_mockUsers s l).
Definition get_mockProducts : M (list ref) := fun s => (Ok (mockProducts s), s).
Definition set_mockProducts (l : list ref) : M unit :=
  fun s => (Ok tt, with_mockProducts s l).

End Effects.

Declare Scope js_scope.
Delimit Scope js_scope with js.
Notation "x <- m ;; k" := (bind m (fun x => k))
  (at level 100, m at next level, right associativity) : js_scope.
Notation "m ;; k" := (bind m (fun _ => k))
  (at level 100, right associativity) : js_scope.
Local Open Scope js_scope.

(** ** entities/Product.ts *)

Module Product.

Definition set_name (v : string) (p : ProductObject) : ProductObject :=
  mkProduct (_id p) v (_description p) (_price p) (_category p) (_inStock p)
            (_stockQuantity p) (_createdAt p) (_updatedAt p).
Definition set_description (v : Js.value) (p : ProductObject) : ProductObject :=
  mkProduct (_id p) (_name p) v (_price p) (_category p) (_inStock p)
            (_stockQuantity p) (_createdAt p) (_updatedAt p).
Definition set_price (v : number) (p : ProductObject) : ProductObject :=
  mkProduct (_id p) (_name p) (_description p) v (_category p) (_inStock p)
            (_stockQuantity p) (_createdAt p) (_updatedAt p).
Definition set_category (v : ProductCategory.t) (p : ProductObject) : ProductObject :=
  mkProduct (_id p) (_name p) (_description p) (_price p) v (_inStock p)
            (_stockQuantity p) (_createdAt p) (_updatedAt p).
Definition set_inStock (v : bool) (p : ProductObject) : ProductObject :=
  mkProduct (_id p) (_name p) (_description p) (_price p) (_category p) v
            (_stockQuantity p) (_createdAt p) (_updatedAt p).
Definition set_stockQuantity (v : number) (p : ProductObject) : ProductObject :=
  mkProduct (_id p) (_name p) (_description p) (_price p) (_category p) (_inStock p)
            v (_createdAt p) (_updatedAt p).
Definition set_updatedAt (v : Date) (p : ProductObject) : ProductObject :=
  mkProduct (_id p) (_name p) (_description p) (_price p) (_category p) (_inStock p)
            (_stockQuantity p) (_createdAt p) v.

Section Methods.
Context `{RT : Runtime}.

(** [this._field], and [this._field = v]. *)
Definition read {A} (field : ProductObject -> A) (this : ref) : M A :=
  p <- load this ;; ret (field p).
Definition write {A} (setter : A -> ProductObject -> ProductObject)
    (this : ref) (v : A) : M unit :=
  modify this (setter v).

Definition validateProduct (this : ref) : M unit :=
  id <- read _id this ;;
  if negb (Js.truthy_string id) then throw (Error "Product ID is required") else
  name <- read _name this ;;
  if Js.blank name then throw (Error "Product name cannot be empty") else
  price <- read _price this ;;
  if Js.lt price 0%float then throw (Error "Price cannot be negative") else
  stockQuantity <- read _stockQuantity this ;;
  if Js.lt stockQuantity 0%float then throw (Error "Stock quantity cannot be negative")
  else ret tt.

(** A default parameter: the default is evaluated when the argument is
    [undefined]. *)
Definition or_default {A} (arg : option A) (dflt : M A) : M A :=
  match arg with Some a => ret a | None => dflt end.

(** [new Product(id, name, description, price, category, stockQuantity = 0,
    createdAt = new Date(), updatedAt = new Date())] *)
Definition new (id name : string) (description : Js.value) (price : number)
    (category : ProductCategory.t) (stockQuantity : option number)
    (createdAt updatedAt : option Date) : M ref :=
  stockQuantity <- or_default stockQuantity (ret 0%float) ;;
  createdAt <- or_default createdAt newDate ;;
  updatedAt <- or_default updatedAt newDate ;;
  this <- alloc {| _id := id;
                   _name := name;
                   _description := description;
                   _price := price;
                   _category := category;
                   _stockQuantity := stockQuantity;
                   _inStock := Js.gt stockQuantity 0%float;
                   _createdAt := createdAt;
                   _updatedAt := updatedAt |} ;;
  validateProduct this ;;
  ret this.

(** Getters *)
Definition id (this : ref) : M string := read _id this.
Definition name (this : ref) : M string := read _name this.
Definition description (this : ref) : M Js.value := read _description this.
Definition price (this : ref) : M number := read _price this.
Definition category (this : ref) : M ProductCategory.t := read _category this.
Definition inStock (this : ref) : M bool := read _inStock this.
Definition stockQuantity (this : ref) : M number := read _stockQuantity this.
Definition createdAt (this : ref) : M Date := read _createdAt this.
Definition updatedAt (this : ref) : M Date := read _updatedAt this.

(** Business logic methods *)
Definition updateStock (this : ref) (quantity : number) : M unit :=
  if Js.lt quantity 0%float then throw (Error "Stock quantity cannot be negative") else
  write set_stockQuantity this quantity ;;
  write set_inStock this (Js.gt quantity 0%float) ;;
  now <- newDate ;;
  write set_updatedAt this now.

Definition updatePrice (this : ref) (price : number) : M unit :=
  if Js.lt price 0%float then throw (Error "Price cannot be negative") else
  write set_price this price ;;
  now <- newDate ;;
  write set_updatedAt this now.

Definition updateDetails (this : ref) (name : string) (description : Js.value)
    (category : ProductCategory.t) : M unit :=
  if Js.blank name then throw (Error "Product name cannot be empty") else
  write set_name this name ;;
  write set_description this description ;;
  write set_category this category ;;
  now <- newDate ;;
  write set_updatedAt this now.

(** [Product.create]: the timestamps take their defaults. *)
Definition create (id name : string) (description : Js.value) (price : number)
    (category : ProductCategory.t) (stockQuantity : option number) : M ref :=
  new id name description price category stockQuantity None None.

(** [Product.create] called with a [name] that is no string, as the POST
    handler may: the constructor evaluates its two date defaults and builds
    the instance, and [validateProduct] throws, at [!this._id], at
    [!this._name] or at [this._name.trim()] (the message is V8's). Nothing
    refers to the instance afterwards. *)
Definition create_untyped (id : string) (name description : Js.value)
    (price : number) (category : ProductCategory.t)
    (stockQuantity : option number) : M ref :=
  match name with
  | Js.JString name => create id name description price category stockQuantity
  | Js.JNull | Js.JBoolean _ | Js.JNumber _ | Js.JArray _ | Js.JObject _ =>
      newDate ;;
      newDate ;;
      if negb (Js.truthy_string id) then throw (Error "Product ID is required")
      else if negb (Js.toBoolean name) then throw (Error "Product name cannot be empty")
      else throw (TypeError "this._name.trim is not a function")
  end.

(** [a || 0] on an optional number, and [s ? new Date(s) : new Date()]. *)
Definition or_zero (a : option number) : number :=
  match a with
  | Some x => if Js.truthy_number x then x else 0%float
  | None => 0%float
  end.
Definition date_or_now (s : option string) : M Date :=
  match s with
  | Some str => if Js.truthy_string str then ret (Date_parse str) else newDate
  | None => newDate
  end.

Definition fromPrimitives (data : ProductData.t) : M ref :=
  category <- lift (ProductCategory.new (ProductData.category data)) ;;
  createdAt <- date_or_now (ProductData.createdAt data) ;;
  updatedAt <- date_or_now (ProductData.updatedAt data) ;;
  new (ProductData.id data) (ProductData.name data) (ProductData.description data)
      (ProductData.price data) category
      (Some (or_zero (ProductData.stockQuantity data)))
      (Some createdAt) (Some updatedAt).

Definition toPrimitives (this : ref) : M ProductDto.t :=
  p <- load this ;;
  createdAt <- toISOString (_createdAt p) ;;
  updatedAt <- toISOString (_updatedAt p) ;;
  ret {| ProductDto.id := _id p;
         ProductDto.name := _name p;
         ProductDto.description := _description p;
         ProductDto.price := _price p;
         ProductDto.category := ProductCategory.value (_category p);
         ProductDto.inStock := _inStock p;
         ProductDto.stockQuantity := _stockQuantity p;
         ProductDto.createdAt := createdAt;
         ProductDto.updatedAt := updatedAt |}.

End Methods.
End Product.

(** ** repositories/ProductRepository.ts: the interface *)

Module ProductRepository.
Record t `{RT : Runtime} : Type := mk {
  findById : string -> M (option ref);
  findAll : M (list ref);
  findByCategory : ProductCategory.t -> M (list ref);
  save : ref -> M unit;
  delete : string -> M unit
}.
End ProductRepository.

(** ** infrastructure/repositories/ApiProductRepository.ts

    The two copies of the class differ in the URL they send requests to:
    [this.apiUrl] in the first, [this.baseUrl] followed by [this.apiUrl] in
    the copy under nextjs-ddd-project. The first is the second with an empty
    [baseUrl]. *)

Module ApiProductRepository.

Record t : Type := mk { apiUrl : string; baseUrl : string }.

(** [constructor(apiUrl = '/api/products') { this.apiUrl = apiUrl; }] *)
Definition new (apiUrl : option string) : t :=
  {| apiUrl := default "/api/products" apiUrl; baseUrl := "" |}.

(** The constructor of the copy under nextjs-ddd-project. *)
Definition new_with_base `{RT : Runtime} (apiUrl : option string) : t :=
  let apiUrl := default "/api/products" apiUrl in
  if String.prefix "http" apiUrl then {| apiUrl := ""; baseUrl := apiUrl |}
  else {| apiUrl := apiUrl;
          baseUrl := match window_origin with
                     | Some origin => origin
                     | None => "http://localhost:3000"
                     end |}.

Definition endpoint (this : t) : string := baseUrl this ++ apiUrl this.

Section Methods.
Context `{RT : Runtime}.

(** [await response.json()] *)
Definition response_json (response : Fetch.Response) : M Fetch.Json :=
  lift (Fetch.json response).

(** [Product.fromPrimitives(data)]: on an array, [data.category] is
    [undefined] and the [ProductCategory] constructor throws. *)
Definition product_of_json (data : Fetch.Json) : M ref :=
  match data with
  | Fetch.JProduct d => Product.fromPrimitives d
  | Fetch.JProducts _ => throw (Error "Category cannot be empty")
  end.

(** [data.map((item) => Product.fromPrimitives(item))]: an object that is
    no array has no [map]. *)
Definition products_of_json (data : Fetch.Json) : M (list ref) :=
  match data with
  | Fetch.JProducts items => mapM Product.fromPrimitives items
  | Fetch.JProduct _ => throw (TypeError "data.map is not a function")
  end.

Definition findById (this : t) (id : string) : M (option ref) :=
  try_catch
    (response <- await_fetch (Fetch.GET (endpoint this ++ "/" ++ id)) ;;
     if negb (Fetch.ok response) then
       if (Fetch.status response =? 404)%Z then ret None
       else throw (Error ("Failed to fetch product: " ++ Fetch.statusText response))
     else
       data <- response_json response ;;
       product <- product_of_json data ;;
       ret (Some product))
    (fun error => console_error "Error fetching product:" error ;; ret None).

Definition findAll (this : t) : M (list ref) :=
  try_catch
    (response <- await_fetch (Fetch.GET (endpoint this)) ;;
     if negb (Fetch.ok response) then
       throw (Error ("Failed to fetch products: " ++ Fetch.statusText response))
     else
       data <- response_json response ;;
       products_of_json data)
    (fun error => console_error "Error fetching products:" error ;; ret []).

Definition findByCategory (this : t) (category : ProductCategory.t) : M (list ref) :=
  try_catch
    (response <- await_fetch
                   (Fetch.GET (endpoint this ++ "?category="
                               ++ ProductCategory.value category)) ;;
     if negb (Fetch.ok response) then
       throw (Error ("Failed to fetch products by category: "
                     ++ Fetch.statusText response))
     else
       data <- response_json response ;;
       products_of_json data)
    (fun error => console_error "Error fetching products by category:" error ;; ret []).

Definition save (this : t) (product : ref) : M unit :=
  try_catch
    (id <- Product.id product ;;
     existing <- findById this id ;;
     let method := match existing with Some _ => "PUT" | None => "POST" end in
     url <- (if String.eqb method "PUT"
             then id' <- Product.id product ;; ret (endpoint this ++ "/" ++ id')
             else ret (endpoint this)) ;;
     dto <- Product.toPrimitives product ;;
     response <- await_fetch
                   {| Fetch.method := method;
                      Fetch.url := url;
                      Fetch.headers := [("Content-Type", "application/json")];
                      Fetch.body := Some dto |} ;;
     if negb (Fetch.ok response) then
       throw (Error ("Failed to save product: " ++ Fetch.statusText response))
     else ret tt)
    (fun error => console_error "Error saving product:" error ;; throw error).

Definition delete (this : t) (id : string) : M unit :=
  try_catch
    (response <- await_fetch
                   {| Fetch.method := "DELETE";
                      Fetch.url := endpoint this ++ "/" ++ id;
                      Fetch.headers := [];
                      Fetch.body := None |} ;;
     if negb (Fetch.ok response) then
       throw (Error ("Failed to delete product: " ++ Fetch.statusText response))
     else ret tt)
    (fun error => console_error "Error deleting product:" error ;; throw error).

(** The class as an implementation of the interface. *)
Definition repository (this : t) : ProductRepository.t :=
  {| ProductRepository.findById := findById this;
     ProductRepository.findAll := findAll this;
     ProductRepository.findByCategory := findByCategory this;
     ProductRepository.save := save this;
     ProductRepository.delete := delete this |}.

End Methods.
End ApiProductRepository.

(** ** application/use-cases/ProductService.ts, with the mock data *)

Module ProductService.
Section Methods.
Context `{RT : Runtime}.
Variable productRepository : ProductRepository.t.

Definition initializeMockData : M unit :=
  c1 <- lift (ProductCategory.new "electronics") ;;
  p1 <- Product.create "1" "Smartphone"
          "A high-end smartphone with the latest features" 999.99%float c1
          (Some 50%float) ;;
  c2 <- lift (ProductCategory.new "electronics") ;;
  p2 <- Product.create "2" "Laptop" "Powerful laptop for work and gaming"
          1499.99%float c2 (Some 30%float) ;;
  c3 <- lift (ProductCategory.new "electronics") ;;
  p3 <- Product.create "3" "Headphones" "Noise-cancelling wireless headphones"
          299.99%float c3 (Some 100%float) ;;
  c4 <- lift (ProductCategory.new "clothing") ;;
  p4 <- Product.create "4" "T-shirt" "Comfortable cotton t-shirt"
          19.99%float c4 (Some 200%float) ;;
  c5 <- lift (ProductCategory.new "clothing") ;;
  p5 <- Product.create "5" "Jeans" "Classic blue jeans"
          49.99%float c5 (Some 150%float) ;;
  set_mockProducts [p1; p2; p3; p4; p5].

(** [new ProductService(productRepository)] *)
Definition new : M unit :=
  set_mockProducts [] ;;
  initializeMockData.

(** [this.mockProducts.find(p => p.id === id) || null] *)
Definition find_mock (id : string) : M (option ref) :=
  mocks <- get_mockProducts ;;
  findM (fun p => pid <- Product.id p ;; ret (String.eqb pid id)) mocks.

Definition getProductById (id : string) : M (option ref) :=
  try_catch
    (product <- ProductRepository.findById productRepository id ;;
     match product with
     | Some p => ret (Some p)
     | None => find_mock id
     end)
    (fun error =>
       console_error "Error fetching product from repository, using mock data:" error ;;
       find_mock id).

Definition getAllProducts : M (list ref) :=
  try_catch
    (products <- ProductRepository.findAll productRepository ;;
     if (0 <? length products)%nat then ret products
     else get_mockProducts)
    (fun error =>
       console_error "Error fetching products from repository, using mock data:" error ;;
       get_mockProducts).

(** The inner [try] either returns from the function ([Some]) or falls
    through to the mock data ([None]). *)
Definition getProductsByCategory (categoryName : string) : M (list ref) :=
  try_catch
    (category <- lift (ProductCategory.new categoryName) ;;
     returned <- try_catch
                   (products <- ProductRepository.findByCategory
                                  productRepository category ;;
                    if (0 <? length products)%nat then ret (Some products)
                    else ret None)
                   (fun repoError =>
                      console_error
                        "Error fetching products by category from repository:"
                        repoError ;;
                      ret None) ;;
     match returned with
     | Some products => ret products
     | None =>
         mocks <- get_mockProducts ;;
         filterM (fun p => c <- Product.category p ;;
                           ret (String.eqb (ProductCategory.value c)
                                           (ProductCategory.value category)))
                 mocks
     end)
    (fun error =>
       console_error "Error getting products by category:" error ;; ret []).

(** [a || b] where [a] is an optional string. *)
Definition or_else (a : option string) (b : M string) : M string :=
  match a with
  | Some v => if Js.truthy_string v then ret v else b
  | None => b
  end.
Definition truthy_opt (a : option string) : bool :=
  match a with Some v => Js.truthy_string v | None => false end.
(** [a || b] where [a] is an optional value. *)
Definition value_or_else (a : option Js.value) (b : M Js.value) : M Js.value :=
  if Js.truthy a then ret (default Js.JNull a) else b.

Definition createProduct (productDto : CreateProductDto.t) : M ref :=
  try_catch
    (category <- lift (ProductCategory.new (CreateProductDto.category productDto)) ;;
     id <- or_else (CreateProductDto.id productDto) crypto_randomUUID ;;
     product <- Product.create id
                  (CreateProductDto.name productDto)
                  (CreateProductDto.description productDto)
                  (CreateProductDto.price productDto)
                  category
                  (CreateProductDto.stockQuantity productDto) ;;
     try_catch
       (ProductRepository.save productRepository product)
       (fun repoError =>
          console_error "Error saving product to repository, using mock data:"
            repoError ;;
          mocks <- get_mockProducts ;;
          set_mockProducts (mocks ++ [product])) ;;
     ret product)
    (fun error => console_error "Error creating product:" error ;; throw error).

Definition updateProduct (id : string) (productDto : UpdateProductDto.t)
    : M (option ref) :=
  try_catch
    (existing <- getProductById id ;;
     match existing with
     | None => ret None
     | Some existingProduct =>
         (if truthy_opt (UpdateProductDto.name productDto)
             || Js.truthy (UpdateProductDto.description productDto)
             || truthy_opt (UpdateProductDto.category productDto)
          then
            category <- match UpdateProductDto.category productDto with
                        | Some c =>
                            if Js.truthy_string c then lift (ProductCategory.new c)
                            else Product.category existingProduct
                        | None => Product.category existingProduct
                        end ;;
            name <- or_else (UpdateProductDto.name productDto)
                      (Product.name existingProduct) ;;
            description <- value_or_else (UpdateProductDto.description productDto)
                             (Product.description existingProduct) ;;
            Product.updateDetails existingProduct name description category
          else ret tt) ;;
         match UpdateProductDto.price productDto with
         | Some price => Product.updatePrice existingProduct price
         | None => ret tt
         end ;;
         match UpdateProductDto.stockQuantity productDto with
         | Some stockQuantity => Product.updateStock existingProduct stockQuantity
         | None => ret tt
         end ;;
         try_catch
           (ProductRepository.save productRepository existingProduct)
           (fun repoError =>
              console_error "Error saving product to repository, updating mock data:"
                repoError ;;
              mocks <- get_mockProducts ;;
              index <- findIndexM (fun p => pid <- Product.id p ;;
                                            ret (String.eqb pid id)) mocks 0 ;;
              match index with
              | Some i => set_mockProducts (<[i := existingProduct]> mocks)
              | None => ret tt
              end) ;;
         ret (Some existingProduct)
     end)
    (fun error => console_error "Error updating product:" error ;; throw error).

Definition deleteProduct (id : string) : M bool :=
  try_catch
    (existing <- getProductById id ;;
     match existing with
     | None => ret false
     | Some _ =>
         try_catch
           (ProductRepository.delete productRepository id)
           (fun repoError =>
              console_error
                "Error deleting product from repository, updating mock data:"
                repoError ;;
              mocks <- get_mockProducts ;;
              kept <- filterM (fun p => pid <- Product.id p ;;
                                        ret (negb (String.eqb pid id))) mocks ;;
              set_mockProducts kept) ;;
         ret true
     end)
    (fun error => console_error "Error deleting product:" error ;; throw error).

End Methods.
End ProductService.

(** ** nextjs-ddd-project: application/use-cases/ProductService.ts *)

Module NextjsDddProductService.
Section Methods.
Context `{RT : Runtime}.
Variable productRepository : ProductRepository.t.

Definition getProductById (id : string) : M (option ref) :=
  ProductRepository.findById productRepository id.

Definition getAllProducts : M (list ref) :=
  ProductRepository.findAll productRepository.

(** The repository's promise is returned without [await]: only the
    [ProductCategory] constructor runs under the [try]. *)
Definition getProductsByCategory (categoryName : string) : M (list ref) :=
  constructed <- try_catch
                   (category <- lift (ProductCategory.new categoryName) ;;
                    ret (Some category))
                   (fun error =>
                      console_error "Error getting products by category:" error ;;
                      ret None) ;;
  match constructed with
  | Some category => ProductRepository.findByCategory productRepository category
  | None => ret []
  end.

(** The only caller is the POST handler, which passes the fields of the
    request body unchecked and no [id]. *)
Definition createProduct (productDto : UncheckedProductDto.t) : M ref :=
  try_catch
    (category <- lift (ProductCategory.new_untyped
                         (UncheckedProductDto.category productDto)) ;;
     id <- ProductService.or_else None crypto_randomUUID ;;
     product <- Product.create_untyped id
                  (UncheckedProductDto.name productDto)
                  (UncheckedProductDto.description productDto)
                  (UncheckedProductDto.price productDto)
                  category
                  (Some (UncheckedProductDto.stockQuantity productDto)) ;;
     ProductRepository.save productRepository product ;;
     ret product)
    (fun error => console_error "Error creating product:" error ;; throw error).

Definition updateProduct (id : string) (productDto : UpdateProductDto.t)
    : M (option ref) :=
  try_catch
    (existing <- ProductRepository.findById productRepository id ;;
     match existing with
     | None => ret None
     | Some existingProduct =>
         (if ProductService.truthy_opt (UpdateProductDto.name productDto)
             || Js.truthy (UpdateProductDto.description productDto)
             || ProductService.truthy_opt (UpdateProductDto.category productDto)
          then
            category <- match UpdateProductDto.category productDto with
                        | Some c =>
                            if Js.truthy_string c then lift (ProductCategory.new c)
                            else Product.category existingProduct
                        | None => Product.category existingProduct
                        end ;;
            name <- ProductService.or_else (UpdateProductDto.name productDto)
                      (Product.name existingProduct) ;;
            description <- ProductService.value_or_else
                             (UpdateProductDto.description productDto)
                             (Product.description existingProduct) ;;
            Product.updateDetails existingProduct name description category
          else ret tt) ;;
         match UpdateProductDto.price productDto with
         | Some price => Product.updatePrice existingProduct price
         | None => ret tt
         end ;;
         match UpdateProductDto.stockQuantity productDto with
         | Some stockQuantity => Product.updateStock existingProduct stockQuantity
         | None => ret tt
         end ;;
         ProductRepository.save productRepository existingProduct ;;
         ret (Some existingProduct)
     end)
    (fun error => console_error "Error updating product:" error ;; throw error).

Definition deleteProduct (id : string) : M bool :=
  try_catch
    (existing <- ProductRepository.findById productRepository id ;;
     match existing with
     | None => ret false
     | Some _ =>
         ProductRepository.delete productRepository id ;;
         ret true
     end)
    (fun error => console_error "Error deleting product:" error ;; throw error).

End Methods.
End NextjsDddProductService.

(** ** nextjs-ddd-project: app/api/products/route.ts *)

Module ProductsRoute.

Definition MOCK_API_URL : string := "https://api.example.com/products".

(** The body of a PUT request to /api/products/[id], read at the types of
    [UpdateProductDto]; [None] is a property the body does not have. *)
Record Body : Type := mkBody {
  name : option string;
  description : option string;
  price : option number;
  category : option string;
  stockQuantity : option number
}.

Section Handlers.
Context `{RT : Runtime}.

Definition productRepository : ApiProductRepository.t :=
  ApiProductRepository.new_with_base (Some MOCK_API_URL).
Definition productService : ProductRepository.t :=
  ApiProductRepository.repository productRepository.

(** [Number(x)] on a number (the PUT handler's body is read at its types). *)
Definition Number (x : number) : number := x.

(** [request_json] is what [await request.json()] gives: the parsed body,
    any JSON value, or the exception of a body that is no JSON. The three
    reads of the guard are done at once: only the first can throw, on a body
    that is [null]. *)
Definition POST (request_json : Res Js.value) : M Http.Response :=
  try_catch
    (body <- lift request_json ;;
     name <- lift (Js.get body "name") ;;
     price <- lift (Js.get body "price") ;;
     category <- lift (Js.get body "category") ;;
     match name, price, category with
     | Some name, Some price, Some category =>
         if negb (Js.toBoolean name) || negb (Js.toBoolean price)
            || negb (Js.toBoolean category)
         then ret (Http.json (Http.ErrorJson "Missing required fields" None)
                             (Some 400%Z))
         else
           description <- lift (Js.get body "description") ;;
           price <- lift (ToNumber price) ;;
           stockQuantity <- lift (Js.get body "stockQuantity") ;;
           stockQuantity <- match stockQuantity with
                            | Some q => lift (ToNumber q)
                            | None => ret 0%float
                            end ;;
           let productDto :=
             {| UncheckedProductDto.name := name;
                UncheckedProductDto.description :=
                  if Js.truthy description then default Js.JNull description
                  else Js.JString "";
                UncheckedProductDto.price := price;
                UncheckedProductDto.category := category;
                UncheckedProductDto.stockQuantity := stockQuantity |} in
           product <- NextjsDddProductService.createProduct productService
                        productDto ;;
           dto <- Product.toPrimitives product ;;
           ret (Http.json (Http.ProductJson dto) (Some 201%Z))
     | _, _, _ =>
         ret (Http.json (Http.ErrorJson "Missing required fields" None)
                        (Some 400%Z))
     end)
    (fun error =>
       console_error "Error creating product:" error ;;
       ret (Http.json (Http.ErrorJson "Failed to create product"
                                      (Some (message_of error)))
                      (Some 500%Z))).

(** [category] is [searchParams.get('category')]: the parameter's value, or
    [null] ([None]) when the query has none. *)
Definition GET (category : option string) : M Reply.t :=
  try_catch
    (products <- match category with
                 | Some c =>
                     if Js.truthy_string c
                     then NextjsDddProductService.getProductsByCategory
                            productService c
                     else NextjsDddProductService.getAllProducts productService
                 | None => NextjsDddProductService.getAllProducts productService
                 end ;;
     productDtos <- mapM Product.toPrimitives products ;;
     ret (Reply.json (Reply.Products productDtos) None))
    (fun error =>
       console_error "Error fetching products:" error ;;
       ret (Reply.json (Reply.Failure "Failed to fetch products"
                                      (Some (message_of error)))
                       (Some 500%Z))).

End Handlers.
End ProductsRoute.

(** ** app/api/products/[id]/route.ts

    The handlers call three methods of [productService], an instance of the
    [ProductService] class; the class has two copies, so the handlers are
    written against the three methods. *)

Module ProductIdRoute.

Record Service `{RT : Runtime} : Type := mkService {
  getProductById : string -> M (option ref);
  updateProduct : string -> UpdateProductDto.t -> M (option ref);
  deleteProduct : string -> M bool
}.

Section Handlers.
Context `{RT : Runtime}.

(** The two copies of the class, over a repository. *)
Definition with_mock_data (productRepository : ProductRepository.t) : Service :=
  {| getProductById := ProductService.getProductById productRepository;
     updateProduct := ProductService.updateProduct productRepository;
     deleteProduct := ProductService.deleteProduct productRepository |}.

Variable productService : Service.

Definition GET (id : string) : M Reply.t :=
  try_catch
    (product <- getProductById productService id ;;
     match product with
     | None => ret (Reply.json (Reply.Failure "Product not found" None) (Some 404%Z))
     | Some product =>
         dto <- Product.toPrimitives product ;;
         ret (Reply.json (Reply.OneProduct dto) None)
     end)
    (fun error =>
       console_error "Error fetching product" error ;;
       ret (Reply.json (Reply.Failure "Failed to fetch product"
                                      (Some (message_of error)))
                       (Some 500%Z))).

(** The body is read at the types of [UpdateProductDto]; on a number,
    [Number(x)] is [x]. *)
Definition PUT (id : string) (request_json : Res ProductsRoute.Body) : M Reply.t :=
  try_catch
    (body <- lift request_json ;;
     let updateDto :=
       {| UpdateProductDto.name := ProductsRoute.name body;
          UpdateProductDto.description :=
            match ProductsRoute.description body with
            | Some description => Some (Js.JString description)
            | None => None
            end;
          UpdateProductDto.price :=
            match ProductsRoute.price body with
            | Some price => Some (ProductsRoute.Number price)
            | None => None
            end;
          UpdateProductDto.category := ProductsRoute.category body;
          UpdateProductDto.stockQuantity :=
            match ProductsRoute.stockQuantity body with
            | Some q => Some (ProductsRoute.Number q)
            | None => None
            end |} in
     updatedProduct <- updateProduct productService id updateDto ;;
     match updatedProduct with
     | None => ret (Reply.json (Reply.Failure "Product not found" None) (Some 404%Z))
     | Some updatedProduct =>
         dto <- Product.toPrimitives updatedProduct ;;
         ret (Reply.json (Reply.OneProduct dto) None)
     end)
    (fun error =>
       console_error "Error updating product" error ;;
       ret (Reply.json (Reply.Failure "Failed to update product"
                                      (Some (message_of error)))
                       (Some 500%Z))).

Definition DELETE (id : string) : M Reply.t :=
  try_catch
    (deleted <- deleteProduct productService id ;;
     if negb deleted then
       ret (Reply.json (Reply.Failure "Product not found" None) (Some 404%Z))
     else
       ret (Reply.json (Reply.Message "Product deleted successfully") (Some 200%Z)))
    (fun error =>
       console_error "Error deleting product" error ;;
       ret (Reply.json (Reply.Failure "Failed to delete product"
                                      (Some (message_of error)))
                       (Some 500%Z))).

End Handlers.
End ProductIdRoute.

(** ** entities/User.ts (README) *)

Module User.

(** [/^[^\s@]+@[^\s@]+\.[^\s@]+$/] *)
Definition at_sign : code_unit := 64%N.
Definition full_stop : code_unit := 46%N.
Definition not_space_or_at (c : code_unit) : bool :=
  negb (Js.isWhiteSpace c || (c =? at_sign)%N).
Definition emailRegex : Regex.t :=
  Regex.Seq (Regex.Plus (Regex.Class not_space_or_at))
    (Regex.Seq (Regex.Class (N.eqb at_sign))
       (Regex.Seq (Regex.Plus (Regex.Class not_space_or_at))
          (Regex.Seq (Regex.Class (N.eqb full_stop))
             (Regex.Plus (Regex.Class not_space_or_at))))).

(** [emailRegex.test(email)]: [undefined] is tested as the string it
    converts to. *)
Definition validateEmail (email : option string) : bool :=
  Regex.test emailRegex (default "undefined" email).

Definition validateUser (id : string) (name email : option string) : Res unit :=
  if negb (Js.truthy_string id) then Throw (Error "User ID is required")
  else if match name with Some n => Js.blank n | None => true end then
    Throw (Error "Name cannot be empty")
  else if negb (validateEmail email) then Throw (Error "Invalid email format")
  else Ok tt.

Section Methods.
Context `{RT : Runtime}.

(** [new User(id, email, name, role = 'user', createdAt = new Date(),
    updatedAt = new Date())]; [email] and [name] come from a request body and
    may be [undefined]. An instance that passed [validateUser] has both. *)
Definition new (id : string) (email name : option string) (role : option string)
    (createdAt updatedAt : option Date) : M UserObject :=
  role <- Product.or_default role (ret "user") ;;
  createdAt <- Product.or_default createdAt newDate ;;
  updatedAt <- Product.or_default updatedAt newDate ;;
  lift (validateUser id name email) ;;
  ret {| user_id := id;
         user_email := default "" email;
         user_name := default "" name;
         user_role := role;
         user_createdAt := createdAt;
         user_updatedAt := updatedAt |}.

Definition create (id : string) (email name : option string) (role : option string)
    : M UserObject :=
  new id email name role None None.

(** The two mutators: the result is the instance after the call. *)
Definition updateDetails (this : UserObject) (name email : string) : M UserObject :=
  if Js.blank name then throw (Error "Name cannot be empty") else
  if negb (validateEmail (Some email)) then throw (Error "Invalid email format") else
  now <- newDate ;;
  ret {| user_id := user_id this;
         user_email := email;
         user_name := name;
         user_role := user_role this;
         user_createdAt := user_createdAt this;
         user_updatedAt := now |}.

Definition updateRole (this : UserObject) (role : string) : M UserObject :=
  if Js.blank role then throw (Error "Role cannot be empty") else
  now <- newDate ;;
  ret {| user_id := user_id this;
         user_email := user_email this;
         user_name := user_name this;
         user_role := role;
         user_createdAt := user_createdAt this;
         user_updatedAt := now |}.

Definition toPrimitives (this : UserObject) : M UserDto.t :=
  createdAt <- toISOString (user_createdAt this) ;;
  updatedAt <- toISOString (user_updatedAt this) ;;
  ret {| UserDto.id := user_id this;
         UserDto.email := user_email this;
         UserDto.name := user_name this;
         UserDto.role := user_role this;
         UserDto.createdAt := createdAt;
         UserDto.updatedAt := updatedAt |}.

End Methods.
End User.

(** ** entities/Review.ts (backend-developer-1.md) *)

(** The private fields of a [Review] instance. *)
Record ReviewObject : Type := mkReview {
  review_id : string;
  review_productId : string;
  review_rating : Rating.t;
  review_comment : string;
  review_authorName : string;
  review_createdAt : Date;
  review_updatedAt : Date
}.

(** The record [Review.toPrimitives] returns. *)
Module ReviewDto.
Record t : Type := mk {
  id : string;
  productId : string;
  rating : number;
  comment : string;
  authorName : string;
  createdAt : string;
  updatedAt : string
}.
End ReviewDto.

(** The parameter of [Review.fromPrimitives]. *)
Module ReviewData.
Record t : Type := mk {
  id : string;
  productId : string;
  rating : number;
  comment : string;
  authorName : string;
  createdAt : option string;
  updatedAt : option string
}.
Definition of_dto (d : ReviewDto.t) : t :=
  {| id := ReviewDto.id d;
     productId := ReviewDto.productId d;
     rating := ReviewDto.rating d;
     comment := ReviewDto.comment d;
     authorName := ReviewDto.authorName d;
     createdAt := Some (ReviewDto.createdAt d);
     updatedAt := Some (ReviewDto.updatedAt d) |}.
End ReviewData.

Module Review.

Definition MAX_COMMENT_LENGTH : nat := 1000.
Definition MAX_AUTHOR_NAME_LENGTH : nat := 100.

(** The template literals print the two constants as [1000] and [100]. *)
Definition validateComment (comment : string) : Res unit :=
  if Js.blank comment then Throw (Error "Comment cannot be empty")
  else if (MAX_COMMENT_LENGTH <? String.length comment)%nat then
    Throw (Error ("Comment cannot exceed " ++ "1000" ++ " characters"))
  else Ok tt.

Definition validateAuthorName (authorName : string) : Res unit :=
  if Js.blank authorName then Throw (Error "Author name cannot be empty")
  else if (MAX_AUTHOR_NAME_LENGTH <? String.length authorName)%nat then
    Throw (Error ("Author name cannot exceed " ++ "100" ++ " characters"))
  else Ok tt.

Definition validateReview (this : ReviewObject) : Res unit :=
  if negb (Js.truthy_string (review_id this)) then
    Throw (Error "Review ID is required")
  else if negb (Js.truthy_string (review_productId this)) then
    Throw (Error "Product ID is required")
  else
    match validateComment (review_comment this) with
    | Throw e => Throw e
    | Ok _ => validateAuthorName (review_authorName this)
    end.

Section Methods.
Context `{RT : Runtime}.

(** [new Review(id, productId, rating, comment, authorName,
    createdAt = new Date(), updatedAt = new Date())] *)
Definition new (id productId : string) (rating : Rating.t)
    (comment authorName : string) (createdAt updatedAt : option Date)
    : M ReviewObject :=
  createdAt <- Product.or_default createdAt newDate ;;
  updatedAt <- Product.or_default updatedAt newDate ;;
  let this := {| review_id := id;
                 review_productId := productId;
                 review_rating := rating;
                 review_comment := comment;
                 review_authorName := authorName;
                 review_createdAt := createdAt;
                 review_updatedAt := updatedAt |} in
  lift (validateReview this) ;;
  ret this.

(** The two mutators: the result is the instance after the call. *)
Definition updateComment (this : ReviewObject) (comment : string) : M ReviewObject :=
  lift (validateComment comment) ;;
  now <- newDate ;;
  ret {| review_id := review_id this;
         review_productId := review_productId this;
         review_rating := review_rating this;
         review_comment := comment;
         review_authorName := review_authorName this;
         review_createdAt := review_createdAt this;
         review_updatedAt := now |}.

Definition updateRating (this : ReviewObject) (rating : Rating.t) : M ReviewObject :=
  now <- newDate ;;
  ret {| review_id := review_id this;
         review_productId := review_productId this;
         review_rating := rating;
         review_comment := review_comment this;
         review_authorName := review_authorName this;
         review_createdAt := review_createdAt this;
         review_updatedAt := now |}.

(** [Review.create]: the [Rating] is constructed first, as an argument. *)
Definition create (id productId : string) (rating : number)
    (comment authorName : string) : M ReviewObject :=
  rating <- lift (Rating.new rating) ;;
  new id productId rating comment authorName None None.

Definition fromPrimitives (data : ReviewData.t) : M ReviewObject :=
  rating <- lift (Rating.new (ReviewData.rating data)) ;;
  createdAt <- Product.date_or_now (ReviewData.createdAt data) ;;
  updatedAt <- Product.date_or_now (ReviewData.updatedAt data) ;;
  new (ReviewData.id data) (ReviewData.productId data) rating
      (ReviewData.comment data) (ReviewData.authorName data)
      (Some createdAt) (Some updatedAt).

Definition toPrimitives (this : ReviewObject) : M ReviewDto.t :=
  createdAt <- toISOString (review_createdAt this) ;;
  updatedAt <- toISOString (review_updatedAt this) ;;
  ret {| ReviewDto.id := review_id this;
         ReviewDto.productId := review_productId this;
         ReviewDto.rating := Rating.value (review_rating this);
         ReviewDto.comment := review_comment this;
         ReviewDto.authorName := review_authorName this;
         ReviewDto.createdAt := createdAt;
         ReviewDto.updatedAt := updatedAt |}.

End Methods.
End Review.

(** [x === v] for a string [x] and a property [v] of a request body. *)
Definition strict_eq (x : string) (v : option string) : bool :=
  match v with Some y => String.eqb x y | None => false end.

(** ** app/api/auth/register/route.ts *)

Module RegisterRoute.

Record Body : Type := mkBody {
  name : option string;
  email : option string;
  password : option string
}.

Section Handlers.
Context `{RT : Runtime}.

(** [const mockUsers: User[] = [];] *)
Definition module_init : M unit := set_register_mockUsers [].

Definition POST (request_json : Res Body) : M Http.Response :=
  try_catch
    (body <- lift request_json ;;
     mockUsers <- get_register_mockUsers ;;
     if existsb (fun u => strict_eq (user_email u) (email body)) mockUsers then
       ret (Http.json (Http.ErrorJson "Email already registered" None) (Some 400%Z))
     else
       id <- crypto_randomUUID ;;
       user <- User.create id (email body) (name body) None ;;
       mockUsers <- get_register_mockUsers ;;
       set_register_mockUsers (mockUsers ++ [user]) ;;
       dto <- User.toPrimitives user ;;
       ret (Http.json (Http.UserJson dto) (Some 201%Z)))
    (fun error =>
       console_error "Registration error:" error ;;
       ret (Http.json (Http.ErrorJson "Internal server error" None) (Some 500%Z))).

End Handlers.
End RegisterRoute.

(** ** app/api/auth/login/route.ts *)

Module LoginRoute.

Record Body : Type := mkBody {
  email : option string;
  password : option string
}.

Section Handlers.
Context `{RT : Runtime}.

(** [const mockUsers = [{ id: '1', email: 'john@example.com', ... }];] *)
Definition module_init : M unit :=
  created <- newDate ;;
  createdAt <- toISOString created ;;
  updated <- newDate ;;
  updatedAt <- toISOString updated ;;
  set_login_mockUsers
    [ {| login_id := "1";
         login_email := "john@example.com";
         login_password := "password123";
         login_name := "John Doe";
         login_role := "user";
         login_createdAt := createdAt;
         login_updatedAt := updatedAt |} ].

Definition POST (request_json : Res Body) : M Http.Response :=
  try_catch
    (body <- lift request_json ;;
     mockUsers <- get_login_mockUsers ;;
     let user := List.find (fun u => strict_eq (login_email u) (email body))
                           mockUsers in
     match user with
     | Some user =>
         if negb (strict_eq (login_password user) (password body)) then
           ret (Http.json (Http.ErrorJson "Invalid credentials" None) (Some 401%Z))
         else
           ret (Http.json
                  (Http.AuthJson
                     {| AuthResponseDto.user :=
                          {| UserDto.id := login_id user;
                             UserDto.email := login_email user;
                             UserDto.name := login_name user;
                             UserDto.role := login_role user;
                             UserDto.createdAt := login_createdAt user;
                             UserDto.updatedAt := login_updatedAt user |};
                        AuthResponseDto.token := "mock-jwt-token" |})
                  None)
     | None =>
         ret (Http.json (Http.ErrorJson "Invalid credentials" None) (Some 401%Z))
     end)
    (fun error =>
       console_error "Login error:" error ;;
       ret (Http.json (Http.ErrorJson "Internal server error" None) (Some 500%Z))).

End Handlers.
End LoginRoute.

(** ** Simulated runtimes

    Instances of [Runtime] on which the code can be run: the clock is a
    counter of milliseconds, the server answers every request in a fixed way,
    and dates are written in the ISO-8601 format of ECMAScript (proleptic
    Gregorian calendar, UTC). [parse] reads back that format only, the one
    [toISOString] prints: every other string is read as an Invalid Date, where
    an engine's [Date.parse] accepts more forms. These instances serve to
    evaluate the code on concrete inputs; the theorems hold for every
    [Runtime] and assume of [Date_parse] only what they state. *)

Module Simulated.
Local Open Scope Z_scope.

Definition digit (n : Z) : code_unit := Z.to_N (48 + n mod 10).
Fixpoint pad (width : nat) (n : Z) (acc : string) : string :=
  match width with
  | O => acc
  | S w => pad w (n / 10) (String (digit n) acc)
  end.

(** Year, month and day of a day number counted from 1970-01-01. *)
Definition civil_from_days (z : Z) : Z * Z * Z :=
  let z := z + 719468 in
  let era := z / 146097 in
  let doe := z - era * 146097 in
  let yoe := (doe - doe / 1460 + doe / 36524 - doe / 146096) / 365 in
  let doy := doe - (365 * yoe + yoe / 4 - yoe / 100) in
  let mp := (5 * doy + 2) / 153 in
  let d := doy - (153 * mp + 2) / 5 + 1 in
  let m := if mp <? 10 then mp + 3 else mp - 9 in
  let y := yoe + era * 400 + (if m <=? 2 then 1 else 0) in
  (y, m, d).

Definition days_from_civil (y m d : Z) : Z :=
  let y := if m <=? 2 then y - 1 else y in
  let era := y / 400 in
  let yoe := y - era * 400 in
  let doy := (153 * (if 2 <? m then m - 3 else m + 9) + 2) / 5 + d - 1 in
  let doe := yoe * 365 + yoe / 4 - yoe / 100 + doy in
  era * 146097 + doe - 719468.

Definition toISO (t : Z) : string :=
  let ms := t mod 86400000 in
  let '(y, m, d) := civil_from_days (t / 86400000) in
  let year :=
    if (0 <=? y) && (y <=? 9999) then pad 4 y ""
    else ((if y <? 0 then "-" else "+") ++ pad 6 (Z.abs y) "")%string in
  (year ++ "-" ++ pad 2 m "" ++ "-" ++ pad 2 d ""
   ++ "T" ++ pad 2 (ms / 3600000) "" ++ ":" ++ pad 2 (ms / 60000 mod 60) ""
   ++ ":" ++ pad 2 (ms / 1000 mod 60) "" ++ "." ++ pad 3 (ms mod 1000) "" ++ "Z")%string.

Definition digit_value (c : code_unit) : option Z :=
  let n := Z.of_N c in
  if (48 <=? n) && (n <=? 57) then Some (n - 48) else None.
Fixpoint digits (s : string) (acc : Z) : option Z :=
  match s with
  | EmptyString => Some acc
  | String c r =>
      match digit_value c with
      | Some v => digits r (10 * acc + v)
      | None => None
      end
  end.
Definition field (s : string) (from len : nat) : option Z :=
  let f := String.substring from len s in
  if (String.length f =? len)%nat then digits f 0 else None.
Definition sep (s : string) (at_ : nat) (c : string) : bool :=
  String.eqb (String.substring at_ 1 s) c.

(** The date-time part [MM-DDTHH:mm:ss.sssZ] that follows [year-] at
    offset [o]. *)
Definition parse_after_year (s : string) (y : Z) (o : nat) : Date :=
  match field s o 2, field s (o + 3) 2, field s (o + 6) 2,
        field s (o + 9) 2, field s (o + 12) 2, field s (o + 15) 3 with
  | Some m, Some d, Some hh, Some mm, Some ss, Some ms =>
      if sep s (o + 2) "-" && sep s (o + 5) "T" && sep s (o + 8) ":"
         && sep s (o + 11) ":" && sep s (o + 14) "." && sep s (o + 18) "Z"
         && (String.length s =? o + 19)%nat
         && (1 <=? m) && (m <=? 12) && (1 <=? d) && (d <=? 31)
         && (hh <=? 23) && (mm <=? 59) && (ss <=? 59)
      then TimeValue (days_from_civil y m d * 86400000
                      + hh * 3600000 + mm * 60000 + ss * 1000 + ms)
      else InvalidDate
  | _, _, _, _, _, _ => InvalidDate
  end.

Definition parse (s : string) : Date :=
  match s with
  | String 43%N _ => (* + *)
      match field s 1 6 with
      | Some y => if sep s 7 "-" then parse_after_year s y 8 else InvalidDate
      | None => InvalidDate
      end
  | String 45%N _ => (* - *)
      match field s 1 6 with
      | Some y => if sep s 7 "-" then parse_after_year s (- y) 8 else InvalidDate
      | None => InvalidDate
      end
  | _ =>
      match field s 0 4 with
      | Some y => if sep s 4 "-" then parse_after_year s y 5 else InvalidDate
      | None => InvalidDate
      end
  end.

(** Numerals, as far as the examples go: a string of decimal digits with an
    optional sign and fraction is read exactly when its digits fit the
    mantissa (white space around it stripped, the empty string being 0); an
    integer below 10^21 is written in decimal digits. *)
Definition of_Z (z : Z) : number :=
  SF2Prim (binary_normalize FloatOps.prec FloatOps.emax z 0 false).
Fixpoint fraction (s : string) (m : Z) (k : nat) : option (Z * nat) :=
  match s with
  | EmptyString => Some (m, k)
  | String c r =>
      match digit_value c with
      | Some v => fraction r (10 * m + v) (S k)
      | None => None
      end
  end.
Fixpoint numeral (s : string) (m : Z) (seen : bool) : option (Z * nat) :=
  match s with
  | EmptyString => if seen then Some (m, O) else None
  | String c r =>
      if (c =? 46)%N then
        match r with
        | EmptyString => if seen then Some (m, O) else None
        | _ => fraction r m O
        end
      else
        match digit_value c with
        | Some v => numeral r (10 * m + v) true
        | None => None
        end
  end.
Definition unsigned (s : string) : number :=
  match numeral s 0 false with
  | Some (m, k) =>
      if (m <? 2 ^ 53) && (k <=? 22)%nat
      then PrimFloat.div (of_Z m) (of_Z (10 ^ Z.of_nat k))
      else nan
  | None => nan
  end.
Definition stringToNumber (s : string) : number :=
  match Js.trim s with
  | EmptyString => 0%float
  | String 45%N r => PrimFloat.opp (unsigned r)
  | String 43%N r => unsigned r
  | r => unsigned r
  end.
Fixpoint decimal (fuel : nat) (z : Z) (acc : string) : string :=
  match fuel with
  | O => acc
  | S fuel' =>
      let acc' := String (digit z) acc in
      if z <? 10 then acc' else decimal fuel' (z / 10) acc'
  end.
Definition numberToString (x : number) : string :=
  match Prim2SF x with
  | S754_zero _ => "0"
  | S754_nan => "NaN"
  | S754_infinity sign => if sign then "-Infinity" else "Infinity"
  | S754_finite sign m e =>
      let digits z :=
        if z <? 10 ^ 21 then ((if sign then "-" else "") ++ decimal 21 z "")%string
        else "NaN" in
      if 1024 <? e then "NaN"
      else if 0 <=? e then digits (Z.pos m * 2 ^ e)
      else if Z.pos m mod 2 ^ (- e) =? 0 then digits (Z.pos m / 2 ^ (- e))
      else "NaN"
  end.

(** The world is the clock: each reading advances it by a millisecond. *)
Definition with_server (respond : Fetch.Request -> Fetch.Outcome) : Runtime := {|
  World := Z;
  Date_now := fun w => (w, w + 1);
  randomUUID := fun w => ("123e4567-e89b-42d3-a456-426614174000"%string, w);
  fetch := fun req w => (respond req, w);
  isoString := toISO;
  Date_parse := parse;
  StringToNumber := stringToNumber;
  NumberToString := numberToString;
  window_origin := None
|}.

(** No network: every [fetch] rejects. *)
Definition offline : Runtime :=
  with_server (fun _ => Fetch.Rejected (TypeError "fetch failed")).

(** A server that answers every request with 200 OK and an empty list. *)
Definition accepting : Runtime :=
  with_server (fun _ => Fetch.Resolved
                          {| Fetch.status := 200;
                             Fetch.statusText := "OK";
                             Fetch.json := Ok (Fetch.JProducts []) |}).

(** A server that holds product records under [base]: a GET on [base]
    answers the list, a GET on [base/id] the record with that id or 404, and
    every other request is accepted. *)
Definition respond_with (base : string) (items : list ProductData.t)
    (req : Fetch.Request) : Fetch.Outcome :=
  let ok json := Fetch.Resolved {| Fetch.status := 200;
                                   Fetch.statusText := "OK";
                                   Fetch.json := json |} in
  if String.eqb (Fetch.method req) "GET" then
    if String.eqb (Fetch.url req) base then ok (Ok (Fetch.JProducts items))
    else
      match List.find (fun d => String.eqb (Fetch.url req)
                                  (base ++ "/" ++ ProductData.id d))%string items with
      | Some d => ok (Ok (Fetch.JProduct d))
      | None =>
          Fetch.Resolved
            {| Fetch.status := 404;
               Fetch.statusText := "Not Found";
               Fetch.json := Throw (Error "Unexpected end of JSON input") |}
      end
  else ok (Ok (Fetch.JProducts [])).

Definition serving (items : list ProductData.t) : Runtime :=
  with_server (respond_with "/api/products" items).

(** 2024-01-01T00:00:00.000Z, before any module is loaded. *)
Definition initial (RT : Runtime) (w : World) : State :=
  {| world := w; heap := []; mockProducts := [];
     register_mockUsers := []; login_mockUsers := [] |}.
Definition new_year_2024 : Z := 1704067200000.

End Simulated.

(** * Vocabulary of the properties *)

(** The checks of [validateProduct], on the fields of an instance. *)
Definition Product_check (p : ProductObject) : Res unit :=
  if negb (Js.truthy_string (_id p)) then Throw (Error "Product ID is required")
  else if Js.blank (_name p) then Throw (Error "Product name cannot be empty")
  else if Js.lt (_price p) 0%float then Throw (Error "Price cannot be negative")
  else if Js.lt (_stockQuantity p) 0%float then
    Throw (Error "Stock quantity cannot be negative")
  else Ok tt.

(** The instance the [Product] constructor builds from its arguments. *)
Definition new_object (id name : string) (description : Js.value) (price : number)
    (category : ProductCategory.t) (stockQuantity : number)
    (createdAt updatedAt : Date) : ProductObject :=
  {| _id := id; _name := name; _description := description; _price := price;
     _category := category; _stockQuantity := stockQuantity;
     _inStock := Js.gt stockQuantity 0%float;
     _createdAt := createdAt; _updatedAt := updatedAt |}.

Definition inStock_derived (p : ProductObject) : Prop :=
  _inStock p = Js.gt (_stockQuantity p) 0%float.

(** The public operations of the [Product] class, as a caller issues them. *)
Inductive ProductCall : Type :=
  | CallNew (id name : string) (description : Js.value) (price : number)
      (category : ProductCategory.t) (stockQuantity : option number)
      (createdAt updatedAt : option Date)
  | CallCreate (id name : string) (description : Js.value) (price : number)
      (category : ProductCategory.t) (stockQuantity : option number)
  | CallFromPrimitives (data : ProductData.t)
  | CallToPrimitives (this : ref)
  | CallGetter {A : Type} (field : ProductObject -> A) (this : ref)
  | CallUpdateStock (this : ref) (quantity : number)
  | CallUpdatePrice (this : ref) (price : number)
  | CallUpdateDetails (this : ref) (name : string) (description : Js.value)
      (category : ProductCategory.t).

Section Vocabulary.
Context `{RT : Runtime}.

(** The state after writing [p] at [this]. *)
Definition put (this : ref) (p : ProductObject) (s : State) : State :=
  with_heap s (<[this := p]> (heap s)).

(** One public operation, issued by a caller that discards the result. *)
Definition perform (c : ProductCall) : M unit :=
  match c with
  | CallNew id name description price category stockQuantity createdAt updatedAt =>
      _ <- Product.new id name description price category stockQuantity
             createdAt updatedAt ;; ret tt
  | CallCreate id name description price category stockQuantity =>
      _ <- Product.create id name description price category stockQuantity ;; ret tt
  | CallFromPrimitives data => _ <- Product.fromPrimitives data ;; ret tt
  | CallToPrimitives this => _ <- Product.toPrimitives this ;; ret tt
  | CallGetter field this => _ <- Product.read field this ;; ret tt
  | CallUpdateStock this quantity => Product.updateStock this quantity
  | CallUpdatePrice this price => Product.updatePrice this price
  | CallUpdateDetails this name description category =>
      Product.updateDetails this name description category
  end.

(** A sequence of operations; a caller that catches an exception goes on
    with the next one. *)
Fixpoint perform_all (calls : list ProductCall) (s : State) : State :=
  match calls with
  | [] => s
  | c :: rest => perform_all rest (snd (perform c s))
  end.

(** A timestamp string of a record is stable when reading it as a date and
    writing that date again gives the same string, as ECMAScript guarantees
    for every string [toISOString] returns. *)
Definition iso_stable (str : string) : Prop :=
  Js.truthy_string str = true
  /\ exists t, Date_parse str = TimeValue t /\ isoString t = str.

End Vocabulary.

(** A transport call fails when [fetch] rejects or resolves to a response
    that is neither ok nor a 404. *)
Definition failed (o : Fetch.Outcome) : Prop :=
  match o with
  | Fetch.Rejected _ => True
  | Fetch.Resolved r => Fetch.ok r = false /\ Fetch.status r <> 404%Z
  end.

(** A transport call is not answered ok when [fetch] rejects or resolves to
    a response whose [ok] is false, whatever its status (404 included). *)
Definition not_ok (o : Fetch.Outcome) : Prop :=
  match o with
  | Fetch.Rejected _ => True
  | Fetch.Resolved r => Fetch.ok r = false
  end.

(** The error a repository method raises for a failed call. *)
Definition failure_of (label : string) (o : Fetch.Outcome) : JsError :=
  match o with
  | Fetch.Rejected e => e
  | Fetch.Resolved r => Error (label ++ Fetch.statusText r)
  end.

Section TransportVocabulary.
Context `{RT : Runtime}.
(** Every transport call fails, whatever the request and the moment. *)
Definition transport_down : Prop := forall req w, failed (fst (fetch req w)).
End TransportVocabulary.

(** What a partial update may carry for [updateProduct] to apply it: a name
    that is not blank, a description that is not empty, a category the
    [ProductCategory] constructor accepts, a price and a stock quantity that
    are not negative. *)
Definition valid_update (dto : UpdateProductDto.t) : Prop :=
  (forall n, UpdateProductDto.name dto = Some n -> Js.blank n = false)
  /\ (forall d, UpdateProductDto.description dto = Some d -> Js.toBoolean d = true)
  /\ (forall c, UpdateProductDto.category dto = Some c ->
        exists cat, ProductCategory.new c = Ok cat)
  /\ (forall v, UpdateProductDto.price dto = Some v -> Js.lt v 0%float = false)
  /\ (forall q, UpdateProductDto.stockQuantity dto = Some q -> Js.lt q 0%float = false).

(** The part of it that [updateDetails] checks: the name, the description
    and the category. *)
Definition valid_details (dto : UpdateProductDto.t) : Prop :=
  (forall n, UpdateProductDto.name dto = Some n -> Js.blank n = false)
  /\ (forall d, UpdateProductDto.description dto = Some d -> Js.toBoolean d = true)
  /\ (forall c, UpdateProductDto.category dto = Some c ->
        exists cat, ProductCategory.new c = Ok cat).

Section ServiceVocabulary.
Context `{RT : Runtime}.

(** A computation keeps the instances when it leaves the [mockProducts]
    array and every allocated [Product] as they are (it may allocate). *)
Definition keeps_instances {A} (m : M A) : Prop :=
  forall s, mockProducts (snd (m s)) = mockProducts s
            /\ forall r p, heap s !! r = Some p -> heap (snd (m s)) !! r = Some p.

(** What a step of [updateProduct] leaves: the product rewritten in place,
    nothing else of the heap or of [mockProducts] touched. *)
Definition rewrites (this : ref) (p' : ProductObject) (s s' : State) : Prop :=
  exists w, s' = put this p' (with_world s w).

(** Every element of [mockProducts] refers to an instance. *)
Definition mocks_allocated (s : State) : Prop :=
  Forall (fun m => is_Some (heap s !! m)) (mockProducts s).

(** The four steps of [updateProduct] on the product found. *)
Definition details_step (existingProduct : ref) (productDto : UpdateProductDto.t)
    : M unit :=
  if ProductService.truthy_opt (UpdateProductDto.name productDto)
     || Js.truthy (UpdateProductDto.description productDto)
     || ProductService.truthy_opt (UpdateProductDto.category productDto)
  then
    category <- match UpdateProductDto.category productDto with
                | Some c =>
                    if Js.truthy_string c then lift (ProductCategory.new c)
                    else Product.category existingProduct
                | None => Product.category existingProduct
                end ;;
    name <- ProductService.or_else (UpdateProductDto.name productDto)
              (Product.name existingProduct) ;;
    description <- ProductService.value_or_else
                     (UpdateProductDto.description productDto)
                     (Product.description existingProduct) ;;
    Product.updateDetails existingProduct name description category
  else ret tt.

Definition price_step (existingProduct : ref) (productDto : UpdateProductDto.t)
    : M unit :=
  match UpdateProductDto.price productDto with
  | Some price => Product.updatePrice existingProduct price
  | None => ret tt
  end.

Definition stock_step (existingProduct : ref) (productDto : UpdateProductDto.t)
    : M unit :=
  match UpdateProductDto.stockQuantity productDto with
  | Some stockQuantity => Product.updateStock existingProduct stockQuantity
  | None => ret tt
  end.

Definition save_step (productRepository : ProductRepository.t) (id : string)
    (existingProduct : ref) : M unit :=
  try_catch
    (ProductRepository.save productRepository existingProduct)
    (fun repoError =>
       console_error "Error saving product to repository, updating mock data:"
         repoError ;;
       mocks <- get_mockProducts ;;
       index <- findIndexM (fun p => pid <- Product.id p ;;
                                     ret (String.eqb pid id)) mocks 0 ;;
       match index with
       | Some i => set_mockProducts (<[i := existingProduct]> mocks)
       | None => ret tt
       end).

End ServiceVocabulary.

Section UpdateVocabulary.

(** "Set if provided": what a partial update makes of a product's fields. *)
Definition with_details (dto : UpdateProductDto.t) (now : Date) (p : ProductObject)
    : ProductObject :=
  match UpdateProductDto.name dto, UpdateProductDto.description dto,
        UpdateProductDto.category dto with
  | None, None, None => p
  | name, description, category =>
      Product.set_updatedAt now
        (Product.set_category
           (match category with
            | Some c => ProductCategory.mk (Js.toLowerCase c)
            | None => _category p
            end)
           (Product.set_description (default (_description p) description)
              (Product.set_name (default (_name p) name) p)))
  end.

Definition with_price (dto : UpdateProductDto.t) (now : Date) (p : ProductObject)
    : ProductObject :=
  match UpdateProductDto.price dto with
  | Some v => Product.set_updatedAt now (Product.set_price v p)
  | None => p
  end.

Definition with_stock (dto : UpdateProductDto.t) (now : Date) (p : ProductObject)
    : ProductObject :=
  match UpdateProductDto.stockQuantity dto with
  | Some q =>
      Product.set_updatedAt now
        (Product.set_inStock (Js.gt q 0%float) (Product.set_stockQuantity q p))
  | None => p
  end.

(** The fields of [p'] are those of [p], except the ones the update carries
    (and [inStock], which follows the stock quantity; [updatedAt] is refreshed
    by every field applied). *)
Definition updated_by (dto : UpdateProductDto.t) (p p' : ProductObject) : Prop :=
  _id p' = _id p
  /\ _createdAt p' = _createdAt p
  /\ _name p' = default (_name p) (UpdateProductDto.name dto)
  /\ _description p' = default (_description p) (UpdateProductDto.description dto)
  /\ _category p' = match UpdateProductDto.category dto with
                    | Some c => ProductCategory.mk (Js.toLowerCase c)
                    | None => _category p
                    end
  /\ _price p' = default (_price p) (UpdateProductDto.price dto)
  /\ _stockQuantity p' = default (_stockQuantity p) (UpdateProductDto.stockQuantity dto)
  /\ _inStock p' = match UpdateProductDto.stockQuantity dto with
                   | Some q => Js.gt q 0%float
                   | None => _inStock p
                   end
  /\ (dto = UpdateProductDto.mk None None None None None -> p' = p).

(** The mutators [updateProduct] calls for an update, in this order:
    [updateDetails] when a name, a description or a category is provided,
    [updatePrice] when a price is, [updateStock] when a stock quantity is. *)
Definition details_provided (dto : UpdateProductDto.t) : bool :=
  match UpdateProductDto.name dto, UpdateProductDto.description dto,
        UpdateProductDto.category dto with
  | None, None, None => false
  | _, _, _ => true
  end.

Definition mutators (dto : UpdateProductDto.t) : nat :=
  (if details_provided dto then 1 else 0)
  + (match UpdateProductDto.price dto with Some _ => 1 | None => 0 end)
  + (match UpdateProductDto.stockQuantity dto with Some _ => 1 | None => 0 end).

Section UpdateClock.
Context `{RT : Runtime}.

(** The world after the clock was read [n] times. *)
Fixpoint clock_after (n : nat) (w : World) : World :=
  match n with
  | O => w
  | S k => clock_after k (snd (Date_now w))
  end.

(** [updatedAt] after the update: each mutator sets it to [new Date()], so it
    is the time the last mutator read, or the old value when no field is
    provided. The first mutator reads the clock of world [w]. *)
Definition updatedAt_after (dto : UpdateProductDto.t) (w : World) (p : ProductObject)
    : Date :=
  match mutators dto with
  | O => _updatedAt p
  | S k => TimeValue (fst (Date_now (clock_after k w)))
  end.

End UpdateClock.

End UpdateVocabulary.

Section CreateVocabulary.
Context `{RT : Runtime}.

(** The instance [createProduct] builds for the POST handler and the state
    when it is built: the identifier and then the two dates are read from the
    world. *)
Definition created (name : string) (description : Js.value) (price : number)
    (category : ProductCategory.t) (stockQuantity : number) (s : State)
    : ProductObject * State :=
  let (id, w1) := randomUUID (world s) in
  let (t1, w2) := Date_now w1 in
  let (t2, w3) := Date_now w2 in
  let p := new_object id name description price category stockQuantity
             (TimeValue t1) (TimeValue t2) in
  (p, with_heap (with_world s w3) (heap s ++ [p])).


End CreateVocabulary.
Section RouteVocabulary.
Context `{RT : Runtime}.

(** The state after a series of POST requests to /api/auth/register. *)
Fixpoint register_all (requests : list (Res RegisterRoute.Body)) (s : State) : State :=
  match requests with
  | [] => s
  | request_json :: rest => register_all rest (snd (RegisterRoute.POST request_json s))
  end.

(** A computation that leaves the login route's [mockUsers] as it is. *)
Definition keeps_login_store {A} (m : M A) : Prop :=
  forall s, login_mockUsers (snd (m s)) = login_mockUsers s.

End RouteVocabulary.

(** ** Records the server sends *)

(** The records [Product.fromPrimitives] accepts: a category the
    [ProductCategory] constructor takes, and fields that pass the checks of
    the entity. *)
Definition accepted_data (d : ProductData.t) : bool :=
  match ProductCategory.new (ProductData.category d) with
  | Throw _ => false
  | Ok _ =>
      Js.truthy_string (ProductData.id d)
      && negb (Js.blank (ProductData.name d))
      && negb (Js.lt (ProductData.price d) 0%float)
      && negb (Js.lt (Product.or_zero (ProductData.stockQuantity d)) 0%float)
  end.

(** The instance holds the fields of the record. *)
Definition holds_data (d : ProductData.t) (p : ProductObject) : Prop :=
  _id p = ProductData.id d
  /\ _name p = ProductData.name d
  /\ _description p = ProductData.description d
  /\ _price p = ProductData.price d
  /\ ProductCategory.value (_category p) = Js.toLowerCase (ProductData.category d)
  /\ _stockQuantity p = Product.or_zero (ProductData.stockQuantity d)
  /\ _inStock p = Js.gt (Product.or_zero (ProductData.stockQuantity d)) 0%float.

(** The record [toPrimitives] makes of an instance with valid dates. *)
Definition record_of `{RT : Runtime} (p : ProductObject) (c u : Z) : ProductDto.t :=
  {| ProductDto.id := _id p;
     ProductDto.name := _name p;
     ProductDto.description := _description p;
     ProductDto.price := _price p;
     ProductDto.category := ProductCategory.value (_category p);
     ProductDto.inStock := _inStock p;
     ProductDto.stockQuantity := _stockQuantity p;
     ProductDto.createdAt := isoString c;
     ProductDto.updatedAt := isoString u |}.

(** The request [save] sends for a product, after [findById] found it on the
    server or not. *)
Definition save_request (this : ApiProductRepository.t) (found : bool)
    (dto : ProductDto.t) : Fetch.Request :=
  {| Fetch.method := if found then "PUT" else "POST";
     Fetch.url := if found
                  then ApiProductRepository.endpoint this ++ "/" ++ ProductDto.id dto
                  else ApiProductRepository.endpoint this;
     Fetch.headers := [("Content-Type", "application/json")];
     Fetch.body := Some dto |}.

(** ** The mock list *)

(** The first element of a list of references whose instance has the id. *)
Definition has_id (h : list ProductObject) (id : string) (r : ref) : bool :=
  match h !! r with
  | Some p => String.eqb (_id p) id
  | None => false
  end.
Definition first_with_id (h : list ProductObject) (id : string) (l : list ref)
    : option ref :=
  List.find (has_id h id) l.

(** The elements of a list of references whose instance has the category. *)
Definition has_category (h : list ProductObject) (category : string) (r : ref) : bool :=
  match h !! r with
  | Some p => String.eqb (ProductCategory.value (_category p)) category
  | None => false
  end.

(** ** Strings *)

(** Every character of the string passes the test. *)
Fixpoint all_chars (f : code_unit -> bool) (s : string) : bool :=
  match s with
  | EmptyString => true
  | String c r => f c && all_chars f r
  end.

(** The small letters a-z; a function applied to every code unit; the string
    of a list of code units. *)
Definition small_letter (c : code_unit) : bool := (97 <=? c)%N && (c <=? 122)%N.
Fixpoint string_map (f : code_unit -> code_unit) (s : string) : string :=
  match s with
  | EmptyString => EmptyString
  | String c r => String (f c) (string_map f r)
  end.
Fixpoint of_units (l : list code_unit) : string :=
  match l with
  | [] => EmptyString
  | c :: r => String c (of_units r)
  end.

(** What the lowercase table says about the small letters a-z: no character
    but a capital A-Z and the Kelvin sign maps to one, and none of them is
    mapped. *)
Definition lowercase_entry_ok (entry : N * N * N * N) : bool :=
  let '(first, last, step, image) := entry in
  (((first =? 65) && (last =? 90) && (step =? 1) && (image =? 97))
   || ((first =? 8490) && (last =? 8490) && (image =? 107))
   || ((122 <? image) || (image + (last - first) <? 97)))%N
  && ((122 <? first) || (last <? 97))%N
  && ((first <? 65536) && (last <? 65536) && (image + (last - first) <? 65536)
      || (65536 <=? first) && (65536 <=? image))%N.

(** A string repeated; the grinning face U+1F600, a surrogate pair. *)
Fixpoint repeat_string (n : nat) (s : string) : string :=
  match n with
  | O => ""
  | S k => s ++ repeat_string k s
  end.
Definition grinning_face : string := String 55357%N (String 56832%N "").

(** ** Users and emails *)

(** The code units of a string. *)
Fixpoint code_units (s : string) : list code_unit :=
  match s with
  | EmptyString => []
  | String c r => c :: code_units r
  end.

(** White space for a regular expression's [\s]: TAB, LF, VT, FF, CR, the
    space, the no-break space, U+1680, U+2000 to U+200A, the line and
    paragraph separators, U+202F, U+205F, U+3000 and U+FEFF. *)
Definition spaces : list code_unit :=
  [ 9; 10; 11; 12; 13; 32; 160; 5760; 8192; 8193; 8194; 8195; 8196; 8197; 8198;
    8199; 8200; 8201; 8202; 8232; 8233; 8239; 8287; 12288; 65279 ]%N.

(** A part of an email address: not empty, without white space or "@"
    (code unit 64). *)
Definition email_part (s : string) : Prop :=
  s <> "" /\ forall c, In c (code_units s) -> ~ In c spaces /\ c <> 64%N.

(** An email address: a local part, "@", a domain, "." and a last part. *)
Definition email_address (email : string) : Prop :=
  exists local domain last,
    email = local ++ "@" ++ domain ++ "." ++ last
    /\ email_part local /\ email_part domain /\ email_part last.

(** The strings a regular expression denotes. *)
Inductive matches : Regex.t -> string -> Prop :=
  | matches_Empty : matches Regex.Empty ""
  | matches_Class (accepts : code_unit -> bool) (c : code_unit) :
      accepts c = true -> matches (Regex.Class accepts) (String c "")
  | matches_Seq (a b : Regex.t) (s1 s2 : string) :
      matches a s1 -> matches b s2 -> matches (Regex.Seq a b) (s1 ++ s2)
  | matches_Alt_l (a b : Regex.t) (s : string) :
      matches a s -> matches (Regex.Alt a b) s
  | matches_Alt_r (a b : Regex.t) (s : string) :
      matches b s -> matches (Regex.Alt a b) s
  | matches_Star_nil (a : Regex.t) : matches (Regex.Star a) ""
  | matches_Star_cons (a : Regex.t) (s1 s2 : string) :
      matches a s1 -> matches (Regex.Star a) s2 -> matches (Regex.Star a) (s1 ++ s2).

(** What the [User] constructor checks, on the fields of an instance. *)
Definition valid_user (u : UserObject) : Prop :=
  Js.truthy_string (user_id u) = true
  /\ Js.blank (user_name u) = false
  /\ User.validateEmail (Some (user_email u)) = true.

(** The two mutators of a [User], as a caller issues them. *)
Inductive UserCall : Type :=
  | CallUserUpdateDetails (name email : string)
  | CallUserUpdateRole (role : string).

Section UserVocabulary.
Context `{RT : Runtime}.

(** One call on an instance: the instance and the state after it; a call
    that throws leaves the instance as it was. *)
Definition user_perform (c : UserCall) (this : UserObject) (s : State)
    : UserObject * State :=
  let run := match c with
             | CallUserUpdateDetails name email => User.updateDetails this name email s
             | CallUserUpdateRole role => User.updateRole this role s
             end in
  match run with
  | (Ok this', s') => (this', s')
  | (Throw _, s') => (this, s')
  end.

Fixpoint user_perform_all (calls : list UserCall) (this : UserObject) (s : State)
    : UserObject * State :=
  match calls with
  | [] => (this, s)
  | c :: rest =>
      let (this', s') := user_perform c this s in user_perform_all rest this' s'
  end.

(** The user the register handler stores for a body, with the id and the two
    dates it read. *)
Definition registered_user (id : string) (body : RegisterRoute.Body) (t1 t2 : Z)
    : UserObject :=
  {| user_id := id;
     user_email := default "" (RegisterRoute.email body);
     user_name := default "" (RegisterRoute.name body);
     user_role := "user";
     user_createdAt := TimeValue t1;
     user_updatedAt := TimeValue t2 |}.

(** The record the register handler answers with. *)
Definition user_record (u : UserObject) (t1 t2 : Z) : UserDto.t :=
  {| UserDto.id := user_id u;
     UserDto.email := user_email u;
     UserDto.name := user_name u;
     UserDto.role := user_role u;
     UserDto.createdAt := isoString t1;
     UserDto.updatedAt := isoString t2 |}.

(** The register handler's store holds the email. *)
Definition email_taken (email : option string) (s : State) : bool :=
  existsb (fun u => strict_eq (user_email u) email) (register_mockUsers s).

End UserVocabulary.

(** ** Concrete inputs *)

Module Scenario.

Definition offline_start : StateOf Z :=
  Simulated.initial Simulated.offline Simulated.new_year_2024.
Definition accepting_start : StateOf Z :=
  Simulated.initial Simulated.accepting Simulated.new_year_2024.

Definition electronics : ProductCategory.t := ProductCategory.mk "electronics".

(** A phone in stock, then sold out, then a rejected stock update and a
    new price. *)
Definition phone_calls : list ProductCall :=
  [ CallCreate "1" "Phone" "" 999.99%float electronics (Some 5%float);
    CallUpdateStock 0 0%float;
    CallUpdateStock 0 (-1)%float;
    CallUpdatePrice 0 899%float ].

(** The state after [Product.create("1", "Phone", "", 999.99, electronics, 5)]. *)
Definition with_phone : StateOf Z :=
  snd (Product.create (RT := Simulated.offline) "1" "Phone" "" 999.99%float
         electronics (Some 5%float) offline_start).

(** The repository and the service of the products page: the default URL,
    and the mock data loaded. *)
Definition repository : @ProductRepository.t Simulated.offline :=
  ApiProductRepository.repository (ApiProductRepository.new None).
Definition with_service : StateOf Z :=
  snd (ProductService.new (RT := Simulated.offline) offline_start).

(** Both auth route modules loaded. *)
Definition with_auth : StateOf Z :=
  snd (RegisterRoute.module_init
         (snd (LoginRoute.module_init (RT := Simulated.offline) offline_start))).

Definition ann : Res RegisterRoute.Body :=
  Ok (RegisterRoute.mkBody (Some "Ann") (Some "ann@example.com") (Some "secret")).

(** The records of a small catalogue: the phone, and a kettle without
    stock quantity and dates. *)
Definition phone_record : ProductData.t :=
  ProductData.mk "1" "Phone" "" 999.99%float "electronics" (Some 5%float)
    (Some "2024-01-01T00:00:00.000Z") (Some "2024-01-01T00:00:00.001Z").
Definition kettle_record : ProductData.t :=
  ProductData.mk "7" "Kettle" "Boils water" 24.5%float "Home" None None None.
Definition catalogue : list ProductData.t := [phone_record; kettle_record].

(** A record whose [updatedAt] is no date. *)
Definition undated_record : ProductData.t :=
  ProductData.mk "8" "Lamp" "" 15%float "home" None None (Some "yesterday").

Definition catalogue_server : Runtime := Simulated.serving catalogue.
Definition catalogue_start : StateOf Z :=
  Simulated.initial catalogue_server Simulated.new_year_2024.

(** The state after [Product.create("1", "Phone", ...)], with the catalogue's
    server. *)
Definition catalogue_with_phone : StateOf Z :=
  snd (Product.create (RT := catalogue_server) "1" "Phone" ""
         999.99%float electronics (Some 5%float) catalogue_start).

(** Calls on the phone: two that are rejected, three that are not. *)
Definition more_phone_calls : list ProductCall :=
  [ CallUpdateStock 0 0%float;
    CallUpdateStock 0 (-1)%float;
    CallUpdatePrice 0 899%float;
    CallUpdateDetails 0 "" "no name" electronics;
    CallUpdateDetails 0 "Phone 2" "" electronics ].

(** A server that knows no product at the routes' URL (a GET of a product
    is answered 404, a POST is accepted), and one that answers 404 to every
    request. *)
Definition empty_server : Runtime :=
  Simulated.with_server (Simulated.respond_with ProductsRoute.MOCK_API_URL []).
Definition empty_start : StateOf Z :=
  Simulated.initial empty_server Simulated.new_year_2024.
Definition not_found_server : Runtime :=
  Simulated.with_server
    (fun _ => Fetch.Resolved
                {| Fetch.status := 404;
                   Fetch.statusText := "Not Found";
                   Fetch.json := Throw (Error "Unexpected end of JSON input") |}).
Definition not_found_start : StateOf Z :=
  Simulated.initial not_found_server Simulated.new_year_2024.


(** The phone after these calls. *)
Definition with_phone_updated : StateOf Z :=
  perform_all (RT := Simulated.offline) more_phone_calls with_phone.

Definition lamp : CreateProductDto.t :=
  CreateProductDto.mk (Some "9") "Lamp" "" 15%float "home" None.

(** A user, and calls on it: the first is rejected. *)
Definition user_calls : list UserCall :=
  [ CallUserUpdateDetails "" "ann@example.com";
    CallUserUpdateDetails "Ann B" "ann.b@example.org";
    CallUserUpdateRole "admin" ].

Definition review : ReviewObject :=
  mkReview "123" "456" (Rating.mk 4%float) "Great product!" "John Doe"
    (TimeValue Simulated.new_year_2024) (TimeValue (Simulated.new_year_2024 + 1)).

End Scenario.

(** * Properties *)

(** ** Strings *)

Lemma String_eqb_eq (s t : string) : String.eqb s t = true <-> s = t.
Proof.
  revert t. induction s as [|c s IH]; intros [|d t]; simpl; try (split; congruence).
  rewrite andb_true_iff, IH, N.eqb_eq. split.
  - intros [-> ->]. reflexivity.
  - intros [= -> ->]. now split.
Qed.

Lemma String_eqb_refl (s : string) : String.eqb s s = true.
Proof. now apply String_eqb_eq. Qed.

Lemma String_eqb_neq (s t : string) : String.eqb s t = false <-> s <> t.
Proof.
  rewrite <- String_eqb_eq. destruct (String.eqb s t); split; congruence.
Qed.

Lemma string_ind2 (P : string -> Prop) :
  P "" -> (forall c, P (String c "")) ->
  (forall c d r, P r -> P (String d r) -> P (String c (String d r))) ->
  forall s, P s.
Proof.
  intros H0 H1 H2 s.
  assert (H : P s /\ forall c, P (String c s)); [|exact (proj1 H)].
  induction s as [|d r [IH1 IH2]]; split; auto.
Qed.

(** ** White space and letter case *)

Lemma in_ranges_spec (ranges : list (N * N)) (c : N) :
  Unicode.in_ranges ranges c = true
  <-> exists a b, In (a, b) ranges /\ (a <= c <= b)%N.
Proof.
  unfold Unicode.in_ranges. rewrite existsb_exists. split.
  - intros [[a b] [Hin H]]. exists a, b. split; [assumption|].
    unfold Unicode.within in H. simpl in H.
    apply andb_true_iff in H as [H1 H2].
    apply N.leb_le in H1, H2. lia.
  - intros (a & b & Hin & H). exists (a, b). split; [assumption|].
    unfold Unicode.within. simpl. apply andb_true_iff.
    split; apply N.leb_le; lia.
Qed.

(** The white space characters are these, and none of them is a letter. *)
Lemma isWhiteSpace_spec (c : code_unit) :
  Js.isWhiteSpace c = true
  <-> In c [9; 10; 11; 12; 13; 32; 160; 5760; 8192; 8193; 8194; 8195; 8196; 8197;
            8198; 8199; 8200; 8201; 8202; 8232; 8233; 8239; 8287; 12288; 65279]%N.
Proof.
  unfold Js.isWhiteSpace. rewrite in_ranges_spec. split.
  - intros (a & b & Hin & H). simpl in Hin.
    repeat (destruct Hin as [[= <- <-]|Hin]; [simpl; lia|]). destruct Hin.
  - intros H. simpl in H.
    repeat (destruct H as [<-|H];
            [first [ exists 9%N, 13%N; split; [simpl; tauto|lia]
                   | exists 32%N, 32%N; split; [simpl; tauto|lia]
                   | exists 160%N, 160%N; split; [simpl; tauto|lia]
                   | exists 5760%N, 5760%N; split; [simpl; tauto|lia]
                   | exists 8192%N, 8202%N; split; [simpl; tauto|lia]
                   | exists 8232%N, 8233%N; split; [simpl; tauto|lia]
                   | exists 8239%N, 8239%N; split; [simpl; tauto|lia]
                   | exists 8287%N, 8287%N; split; [simpl; tauto|lia]
                   | exists 12288%N, 12288%N; split; [simpl; tauto|lia]
                   | exists 65279%N, 65279%N; split; [simpl; tauto|lia] ]|]).
    destruct H.
Qed.

Lemma ignoring_case_eq (c : code_unit) :
  ProductCategory.ignoring_case c
  = if (c =? 8490)%N then 107%N
    else if (65 <=? c)%N && (c <=? 90)%N then (c + 32)%N else c.
Proof.
  unfold ProductCategory.ignoring_case.
  destruct (c =? 8490)%N; [reflexivity|].
  unfold ProductCategory.capitals, ProductCategory.small_letters.
  cbn [ProductCategory.small_letter_of].
  repeat match goal with
         | |- context [(c =? ?k)%N] =>
             destruct (N.eqb_spec c k); [subst; reflexivity|]
         end.
  destruct (N.leb_spec 65 c), (N.leb_spec c 90); simpl; try reflexivity. lia.
Qed.

Lemma lowercase_table_ok : forallb lowercase_entry_ok Unicode.lowercase = true.
Proof. vm_compute. reflexivity. Qed.

Lemma simple_lowercase_cases (c : N) :
  (Unicode.simple_lowercase c = c
   /\ List.find (Unicode.covers c) Unicode.lowercase = None)
  \/ exists first last step image,
       In (first, last, step, image) Unicode.lowercase
       /\ lowercase_entry_ok (first, last, step, image) = true
       /\ (first <= c <= last)%N
       /\ Unicode.simple_lowercase c = (image + (c - first))%N.
Proof.
  unfold Unicode.simple_lowercase.
  destruct (List.find (Unicode.covers c) Unicode.lowercase) as [[[[a b] st] t]|] eqn:E.
  - right. apply find_some in E as [Hin Hc]. exists a, b, st, t.
    split; [assumption|]. split.
    + pose proof lowercase_table_ok as H. rewrite forallb_forall in H. now apply H.
    + unfold Unicode.covers in Hc.
      apply andb_true_iff in Hc as [Hc _]. apply andb_true_iff in Hc as [H1 H2].
      apply N.leb_le in H1, H2. split; [lia|reflexivity].
  - left. now split.
Qed.

Lemma simple_lowercase_capital (c : N) :
  (65 <= c <= 90)%N -> Unicode.simple_lowercase c = (c + 32)%N.
Proof.
  intros H. unfold Unicode.simple_lowercase.
  change Unicode.lowercase with ((65, 90, 1, 97)%N :: tl Unicode.lowercase).
  cbn [List.find]. unfold Unicode.covers at 1.
  destruct (N.leb_spec 65 c); [|lia]. destruct (N.leb_spec c 90); [|lia].
  rewrite N.mod_1_r. cbn [andb N.eqb]. lia.
Qed.

Lemma small_letter_spec (c : code_unit) :
  small_letter c = true <-> (97 <= c <= 122)%N.
Proof.
  unfold small_letter. rewrite andb_true_iff, !N.leb_le. reflexivity.
Qed.

(** A character's lowercase mapping is the small letter [v] exactly when the
    character is [v] up to case. *)
Lemma simple_lowercase_small (c v : N) :
  small_letter v = true ->
  Unicode.simple_lowercase c = v <-> ProductCategory.ignoring_case c = v.
Proof.
  intros Hv. apply small_letter_spec in Hv. rewrite ignoring_case_eq.
  destruct (N.eqb_spec c 8490) as [->|Hk]; [now vm_compute|].
  destruct ((65 <=? c) && (c <=? 90))%N eqn:E.
  - apply andb_true_iff in E as [E1 E2]. apply N.leb_le in E1, E2.
    rewrite simple_lowercase_capital by lia. reflexivity.
  - assert (Hc : ~ (65 <= c <= 90)%N).
    { intros [H1 H2]. apply N.leb_le in H1, H2. rewrite H1, H2 in E. discriminate E. }
    destruct (simple_lowercase_cases c)
      as [[-> _]|(a & b & st & t & _ & Hok & Hr & ->)]; [reflexivity|].
    unfold lowercase_entry_ok in Hok.
    repeat (apply andb_true_iff in Hok as [Hok ?]).
    repeat match goal with
           | H : (_ || _) = true |- _ => apply orb_true_iff in H
           | H : (_ && _) = true |- _ => apply andb_true_iff in H
           | H : (_ =? _)%N = true |- _ => apply N.eqb_eq in H
           | H : (_ <? _)%N = true |- _ => apply N.ltb_lt in H
           | H : (_ <=? _)%N = true |- _ => apply N.leb_le in H
           | H : _ /\ _ |- _ => destruct H
           | H : _ \/ _ |- _ => destruct H
           end; lia.
Qed.

Lemma ignoring_case_small (c v : N) :
  small_letter v = true -> ProductCategory.ignoring_case c = v ->
  (c < 55296)%N.
Proof.
  intros Hv. apply small_letter_spec in Hv. rewrite ignoring_case_eq.
  destruct (N.eqb_spec c 8490); [lia|].
  destruct (N.leb_spec 65 c), (N.leb_spec c 90); cbn [andb]; lia.
Qed.

Lemma simple_lowercase_astral (c : N) :
  (65536 <= Unicode.simple_lowercase c)%N -> (65536 <= c)%N.
Proof.
  destruct (simple_lowercase_cases c)
    as [[-> _]|(a & b & st & t & _ & Hok & Hr & ->)]; [trivial|].
  unfold lowercase_entry_ok in Hok.
  repeat (apply andb_true_iff in Hok as [Hok ?]).
  repeat match goal with
         | H : (_ || _) = true |- _ => apply orb_true_iff in H
         | H : (_ && _) = true |- _ => apply andb_true_iff in H
         | H : (_ =? _)%N = true |- _ => apply N.eqb_eq in H
         | H : (_ <? _)%N = true |- _ => apply N.ltb_lt in H
         | H : (_ <=? _)%N = true |- _ => apply N.leb_le in H
         | H : _ /\ _ |- _ => destruct H
         | H : _ \/ _ |- _ => destruct H
         end; lia.
Qed.

(** Lower-casing code points gives a word of small letters exactly when the
    code points are that word up to case. *)
Lemma lowerCodePoints_small (l : list N) (after : bool) (c : string) :
  all_chars small_letter c = true ->
  Js.fromCodePoints (Js.lowerCodePoints after l) = c
  <-> of_units (map ProductCategory.ignoring_case l) = c.
Proof.
  revert after c. induction l as [|a l IH]; intros after c Hc; [reflexivity|].
  cbn [Js.lowerCodePoints map of_units].
  generalize (if Unicode.in_ranges Unicode.case_ignorable a then after
              else Unicode.in_ranges Unicode.cased a).
  intros after'. unfold Js.lowerCodePoint.
  destruct c as [|v c'].
  { split; [|discriminate]. intros H.
    destruct (a =? 931)%N; [|destruct (a =? 304)%N];
      cbn [app Js.fromCodePoints] in H;
      repeat match type of H with
             | context [if ?b then _ else _] => destruct b
             end; discriminate H. }
  cbn [all_chars] in Hc. apply andb_true_iff in Hc as [Hv Hc'].
  pose proof (proj1 (small_letter_spec v) Hv) as Hv'.
  destruct (N.eqb_spec a 931) as [->|Hs].
  { cbn [app Js.fromCodePoints]. split.
    - destruct (after && _); cbn; intros [= H _]; lia.
    - intros [= H _]. vm_compute in H. lia. }
  destruct (N.eqb_spec a 304) as [->|Hi].
  { cbn [app Js.fromCodePoints]. cbn. split.
    - intros [= H1 H2]. destruct c' as [|w c'']; [destruct (Js.lowerCodePoints _ _)|].
      + cbn in H2. discriminate.
      + cbn in H2. destruct (_ <? _)%N; discriminate.
      + cbn [all_chars] in Hc'. apply andb_true_iff in Hc' as [Hw _].
        apply small_letter_spec in Hw. injection H2 as H2 _. lia.
    - intros [= H _]. vm_compute in H. lia. }
  cbn [app Js.fromCodePoints].
  destruct (N.ltb_spec (Unicode.simple_lowercase a) 65536) as [Hlt|Hge].
  - split.
    + intros [= H1 H2]. f_equal.
      * now apply simple_lowercase_small.
      * now apply (IH after' c' Hc').
    + intros [= H1 H2]. f_equal.
      * now apply simple_lowercase_small.
      * now apply (IH after' c' Hc').
  - split.
    + generalize ((Unicode.simple_lowercase a - 65536) / 1024)%N.
      intros q [= H _]. lia.
    + intros [= H _]. apply (simple_lowercase_small a v Hv) in H. lia.
Qed.

Lemma codePoints_small (s c : string) :
  all_chars small_letter c = true ->
  of_units (map ProductCategory.ignoring_case (Js.codePoints s)) = c
  <-> string_map ProductCategory.ignoring_case s = c.
Proof.
  revert c. induction s as [|a|a d r IHr IHd] using string_ind2; intros c Hc;
    [reflexivity|reflexivity|].
  cbn [Js.codePoints].
  destruct (Js.isHighSurrogate a && Js.isLowSurrogate d) eqn:E.
  - apply andb_true_iff in E as [Ea _]. unfold Js.isHighSurrogate in Ea.
    apply andb_true_iff in Ea as [Ea _]. apply N.leb_le in Ea.
    cbn [map of_units string_map]. destruct c as [|v c']; [split; discriminate|].
    cbn [all_chars] in Hc. apply andb_true_iff in Hc as [Hv _].
    split; intros [= H _]; apply (ignoring_case_small _ _ Hv) in H; lia.
  - cbn [map of_units]. cbn [string_map]. destruct c as [|v c']; [split; discriminate|].
    cbn [all_chars] in Hc. apply andb_true_iff in Hc as [_ Hc'].
    specialize (IHd c' Hc'). cbn [string_map] in IHd.
    split; intros [= H1 H2]; f_equal; try assumption; now apply IHd.
Qed.

(** [toLowerCase] gives a word of small letters exactly when the string is
    that word up to case. *)
Lemma toLowerCase_small (s c : string) :
  all_chars small_letter c = true ->
  Js.toLowerCase s = c <-> string_map ProductCategory.ignoring_case s = c.
Proof.
  intros Hc. unfold Js.toLowerCase.
  now rewrite (lowerCodePoints_small _ _ _ Hc), (codePoints_small _ _ Hc).
Qed.

Lemma string_map_small (c : string) :
  all_chars small_letter c = true ->
  string_map ProductCategory.ignoring_case c = c.
Proof.
  induction c as [|v c IH]; [reflexivity|]. cbn [all_chars string_map].
  intros H. apply andb_true_iff in H as [Hv Hc]. rewrite (IH Hc). f_equal.
  apply small_letter_spec in Hv. rewrite ignoring_case_eq.
  destruct (N.eqb_spec v 8490); [lia|].
  destruct (N.leb_spec 65 v), (N.leb_spec v 90); cbn [andb]; lia.
Qed.

Lemma matches_ignoring_case_spec (s c : string) :
  ProductCategory.matches_ignoring_case s c = true
  <-> string_map ProductCategory.ignoring_case s
      = string_map ProductCategory.ignoring_case c.
Proof.
  revert c. induction s as [|a s IH]; intros [|b c]; simpl; try (split; congruence).
  rewrite andb_true_iff, IH, N.eqb_eq. split.
  - intros [-> ->]. reflexivity.
  - intros [= H1 H2]. now split.
Qed.

Lemma VALID_CATEGORIES_small (c : string) :
  In c ProductCategory.VALID_CATEGORIES -> all_chars small_letter c = true.
Proof.
  unfold ProductCategory.VALID_CATEGORIES. simpl.
  intros H. repeat (destruct H as [<-|H]; [reflexivity|]). destruct H.
Qed.

(** ** ProductCategory *)

Lemma trimEnd_nonspace (a : code_unit) (r : string) :
  Js.isWhiteSpace a = false -> Js.trimEnd (String a r) <> EmptyString.
Proof.
  intros Ha. cbn [Js.trimEnd]. destruct (Js.trimEnd r); [rewrite Ha|]; discriminate.
Qed.

Lemma blank_spec (s : string) :
  Js.blank s = true <-> Js.trim s = EmptyString.
Proof.
  unfold Js.blank. destruct s as [|a r]; [split; reflexivity|].
  cbn [Js.truthy_string negb orb].
  destruct (Js.trim (String a r)); simpl; split; congruence.
Qed.

(** A string whose first character is no white space is not blank. *)
Lemma not_blank_first (a : code_unit) (r : string) :
  Js.isWhiteSpace a = false -> Js.blank (String a r) = false.
Proof.
  intros Ha. apply not_true_iff_false. rewrite blank_spec. unfold Js.trim.
  cbn [Js.trimStart]. rewrite Ha. now apply trimEnd_nonspace.
Qed.

Lemma letter_not_space (a v : code_unit) :
  small_letter v = true -> ProductCategory.ignoring_case a = v ->
  Js.isWhiteSpace a = false.
Proof.
  intros Hv H. apply not_true_iff_false. rewrite isWhiteSpace_spec. intros Hin.
  apply small_letter_spec in Hv. rewrite ignoring_case_eq in H.
  simpl in Hin.
  repeat (destruct Hin as [<-|Hin]; [vm_compute in H; lia|]). destruct Hin.
Qed.

Lemma includes_In (l : list string) (x : string) :
  Js.includes l x = true <-> In x l.
Proof.
  unfold Js.includes. rewrite existsb_exists. split.
  - intros [y [Hy Hxy]]. apply String_eqb_eq in Hxy. now subst.
  - intros H. exists x. split; [assumption|apply String_eqb_refl].
Qed.

Lemma VALID_CATEGORIES_lowercase (c : string) :
  In c ProductCategory.VALID_CATEGORIES -> Js.toLowerCase c = c.
Proof.
  unfold ProductCategory.VALID_CATEGORIES. simpl.
  intros H. repeat (destruct H as [<-|H]; [vm_compute; reflexivity|]). destruct H.
Qed.

(** The strings that lower-case to one of the ten names are the strings that
    match it up to case. *)
Lemma toLowerCase_VALID (s c : string) :
  In c ProductCategory.VALID_CATEGORIES ->
  Js.toLowerCase s = c <-> ProductCategory.matches_ignoring_case s c = true.
Proof.
  intros Hc. pose proof (VALID_CATEGORIES_small c Hc) as Hs.
  now rewrite (toLowerCase_small s c Hs), matches_ignoring_case_spec,
    (string_map_small c Hs).
Qed.

Lemma VALID_CATEGORIES_not_blank (s : string) :
  In (Js.toLowerCase s) ProductCategory.VALID_CATEGORIES -> Js.blank s = false.
Proof.
  intros H. pose proof (VALID_CATEGORIES_small _ H) as Hs.
  pose proof (proj1 (toLowerCase_small s _ Hs) eq_refl) as Hm.
  destruct s as [|a r].
  { exfalso. revert H. vm_compute. intuition discriminate. }
  cbn [string_map] in Hm. destruct (Js.toLowerCase (String a r)) as [|v c]; [discriminate|].
  injection Hm as Ha _. cbn [all_chars] in Hs. apply andb_true_iff in Hs as [Hv _].
  apply not_blank_first. exact (letter_not_space a v Hv Ha).
Qed.

(** The outcome of the constructor, by the membership test of the
    lower-cased input. *)
Lemma ProductCategory_new_cases (s : string) :
  (In (Js.toLowerCase s) ProductCategory.VALID_CATEGORIES
   /\ ProductCategory.new s = Ok (ProductCategory.mk (Js.toLowerCase s)))
  \/ (~ In (Js.toLowerCase s) ProductCategory.VALID_CATEGORIES
      /\ exists msg,
          ProductCategory.new s = Throw (Error msg)
          /\ (msg = "Category cannot be empty"
              \/ msg = "Invalid category: " ++ s ++ ". Valid categories are: "
                       ++ "electronics, clothing, books, home, sports, toys, food, health, beauty, other")).
Proof.
  destruct (Js.includes ProductCategory.VALID_CATEGORIES (Js.toLowerCase s)) eqn:E.
  - left. pose proof (proj1 (includes_In _ _) E) as HIn. split; [assumption|].
    unfold ProductCategory.new, ProductCategory.validateCategory.
    now rewrite (VALID_CATEGORIES_not_blank s HIn), E.
  - right. split.
    + intros HIn. apply includes_In in HIn. congruence.
    + unfold ProductCategory.new, ProductCategory.validateCategory.
      destruct (Js.blank s); [eexists; split; [reflexivity|now left]|].
      rewrite E. change (negb false) with true. cbv iota.
      eexists; split; [reflexivity|right; reflexivity].
Qed.

(** C8. [new ProductCategory(s)] succeeds exactly when [s] matches one of the
    ten categories up to letter case, and then stores that category (the
    lower-cased input); for every other string it throws an [Error] whose
    message names the violated rule. So "Electronics", "BOOKS" and the
    spelling of books with the Kelvin sign for its k are accepted and stored
    in small letters, while "gadgets", a name with a space after it, the empty
    string and a string of white space are rejected. *)
Theorem ProductCategory_accepts_exactly_the_ten (s : string) :
  (forall v, ProductCategory.new s = Ok v <->
     exists c, In c ProductCategory.VALID_CATEGORIES
               /\ ProductCategory.matches_ignoring_case s c = true
               /\ v = ProductCategory.mk c)
  /\ (forall v, ProductCategory.new s = Ok v ->
        ProductCategory.value v = Js.toLowerCase s)
  /\ ((forall c, In c ProductCategory.VALID_CATEGORIES ->
         ProductCategory.matches_ignoring_case s c = false) ->
      exists msg,
        ProductCategory.new s = Throw (Error msg)
        /\ (msg = "Category cannot be empty"
            \/ msg = "Invalid category: " ++ s ++ ". Valid categories are: "
                     ++ "electronics, clothing, books, home, sports, toys, food, health, beauty, other"))
  /\ ProductCategory.new "Electronics" = Ok (ProductCategory.mk "electronics")
  /\ ProductCategory.new "BOOKS" = Ok (ProductCategory.mk "books")
  /\ ProductCategory.new ("boo" ++ String 8490%N "s") = Ok (ProductCategory.mk "books")
  /\ ProductCategory.new "gadgets"
     = Throw (Error "Invalid category: gadgets. Valid categories are: electronics, clothing, books, home, sports, toys, food, health, beauty, other")
  /\ ProductCategory.new "books "
     = Throw (Error "Invalid category: books . Valid categories are: electronics, clothing, books, home, sports, toys, food, health, beauty, other")
  /\ ProductCategory.new "" = Throw (Error "Category cannot be empty")
  /\ ProductCategory.new (String 160%N (String 8232%N " "))
     = Throw (Error "Category cannot be empty").
Proof.
  split; [|split; [|split; [|repeat split; vm_compute; reflexivity]]].
  - intros v. destruct (ProductCategory_new_cases s) as [[HIn Hnew]|[HnIn [msg [Hnew _]]]];
      rewrite Hnew; split.
    + intros [= <-]. exists (Js.toLowerCase s). split; [assumption|].
      split; [|reflexivity]. now apply toLowerCase_VALID.
    + intros (c & Hc & Hm & ->). apply (toLowerCase_VALID s c Hc) in Hm. now rewrite Hm.
    + discriminate.
    + intros (c & Hc & Hm & ->). exfalso. apply HnIn.
      apply (toLowerCase_VALID s c Hc) in Hm. now rewrite Hm.
  - intros v Hv. destruct (ProductCategory_new_cases s) as [[_ Hnew]|[_ [msg [Hnew _]]]];
      rewrite Hnew in Hv; [now injection Hv as <-|discriminate Hv].
  - intros Hno. destruct (ProductCategory_new_cases s) as [[HIn _]|[_ H]]; [|exact H].
    specialize (Hno _ HIn). apply not_true_iff_false in Hno. exfalso. apply Hno.
    now apply toLowerCase_VALID.
Qed.

(** ** Rating *)

Section RatingProperties.
Local Open Scope Z_scope.

(** [Number.isInteger] on a finite non-zero value [m * 2^e]: some integer
    [z] is that value. *)
Lemma SFisInteger_finite (s : bool) (m : positive) (e : Z) :
  Js.SFisInteger (S754_finite s m e) = true
  <-> exists z : Z, (0 <= e /\ z = Z.pos m * 2 ^ e) \/ (e < 0 /\ Z.pos m = z * 2 ^ (- e)).
Proof.
  unfold Js.SFisInteger. destruct (Z.leb_spec 0 e) as [He|He].
  - split; [intros _; exists (Z.pos m * 2 ^ e); left; now split|reflexivity].
  - rewrite Z.eqb_eq. assert (0 < 2 ^ (- e)) by (apply Z.pow_pos_nonneg; lia).
    split.
    + intros Hm. apply Z.mod_divide in Hm; [|lia]. destruct Hm as [z Hz].
      exists z. right. now split.
    + intros [z [[Hz _]|[_ Hz]]]; [lia|]. apply Z.mod_divide; [lia|]. now exists z.
Qed.

Lemma digits2_pos_bounds (m : positive) :
  2 ^ (Z.pos (digits2_pos m) - 1) <= Z.pos m < 2 ^ Z.pos (digits2_pos m).
Proof.
  induction m as [m IH|m IH|]; simpl digits2_pos.
  - rewrite Pos2Z.inj_succ. replace (Z.succ (Z.pos (digits2_pos m)) - 1) with (Z.succ (Z.pos (digits2_pos m) - 1)) by lia.
    rewrite !Z.pow_succ_r by lia. lia.
  - rewrite Pos2Z.inj_succ. replace (Z.succ (Z.pos (digits2_pos m)) - 1) with (Z.succ (Z.pos (digits2_pos m) - 1)) by lia.
    rewrite !Z.pow_succ_r by lia. lia.
  - simpl. lia.
Qed.

Lemma compare_cont_Eq (m n : positive) : Pos.compare_cont Eq m n = (Z.pos m ?= Z.pos n).
Proof. reflexivity. Qed.


Lemma Rating_range_finite (m : positive) (e : Z) :
  valid_binary (S754_finite false m e) = true ->
  Js.SFisInteger (S754_finite false m e) = true ->
  SFltb (S754_finite false m e) (Prim2SF 1) = false ->
  SFltb (Prim2SF 5) (S754_finite false m e) = false ->
  In (S754_finite false m e) [Prim2SF 1; Prim2SF 2; Prim2SF 3; Prim2SF 4; Prim2SF 5].
Proof.
  intros Hv Hi H1 H5.
  assert (E1 : Prim2SF 1 = S754_finite false 4503599627370496 (-52)) by (vm_compute; reflexivity).
  assert (E5 : Prim2SF 5 = S754_finite false 5629499534213120 (-50)) by (vm_compute; reflexivity).
  rewrite E1 in H1. rewrite E5 in H5. clear E1 E5.
  unfold SFltb, SFcompare in H1, H5. rewrite compare_cont_Eq in H1, H5.
  assert (Hlo : -52 < e \/ (e = -52 /\ 4503599627370496 <= Z.pos m)).
  { destruct (Z.compare_spec e (-52)) as [->|Hlt|Hgt]; [|discriminate H1|lia].
    right. split; [reflexivity|].
    destruct (Z.compare_spec (Z.pos m) 4503599627370496); [lia|discriminate H1|lia]. }
  assert (Hhi : e < -50 \/ (e = -50 /\ Z.pos m <= 5629499534213120)).
  { destruct (Z.compare_spec (-50) e) as [<-|Hlt|Hgt]; [|discriminate H5|lia].
    right. split; [reflexivity|].
    destruct (Z.compare_spec 5629499534213120 (Z.pos m)); [lia|discriminate H5|lia]. }
  clear H1 H5.
  assert (Hd : Z.pos (digits2_pos m) = 53).
  { unfold SpecFloat.valid_binary, bounded, canonical_mantissa, fexp, SpecFloat.emin in Hv.
    apply andb_true_iff in Hv. destruct Hv as [Hc _].
    apply Z.eqb_eq in Hc. unfold prec, emax in Hc. lia. }
  pose proof (digits2_pos_bounds m) as Hm. rewrite Hd in Hm.
  change (2 ^ (53 - 1)) with 4503599627370496 in Hm.
  change (2 ^ 53) with 9007199254740992 in Hm.
  unfold Js.SFisInteger in Hi.
  assert (He : e = -52 \/ e = -51 \/ e = -50) by lia.
  destruct He as [->|[->| ->]]; simpl in Hi; apply Z.eqb_eq in Hi;
    apply Z.mod_divide in Hi; try lia; destruct Hi as [q Hq].
  - assert (q = 1) by lia. subst q.
    assert (m = 4503599627370496%positive) by lia. subst m.
    left. vm_compute. reflexivity.
  - assert (q = 2 \/ q = 3) as [-> | ->] by lia.
    + assert (m = 4503599627370496%positive) by lia. subst m.
      right; left. vm_compute. reflexivity.
    + assert (m = 6755399441055744%positive) by lia. subst m.
      right; right; left. vm_compute. reflexivity.
  - assert (q = 4 \/ q = 5) as [-> | ->] by lia.
    + assert (m = 4503599627370496%positive) by lia. subst m.
      do 3 right; left. vm_compute. reflexivity.
    + assert (m = 5629499534213120%positive) by lia. subst m.
      do 4 right; left. vm_compute. reflexivity.
Qed.

End RatingProperties.

Section RatingConstruction.
Local Open Scope float_scope.

Lemma Rating_range (x : number) :
  Js.Number_isInteger x = true -> Js.lt x 1 = false -> Js.gt x 5 = false ->
  In x [1; 2; 3; 4; 5].
Proof.
  unfold Js.Number_isInteger, Js.lt, Js.gt. rewrite !ltb_spec.
  intros Hi H1 H5. pose proof (Prim2SF_valid x) as Hv.
  assert (H : In (Prim2SF x) [Prim2SF 1; Prim2SF 2; Prim2SF 3; Prim2SF 4; Prim2SF 5]).
  { destruct (Prim2SF x) as [s|s| |s m e].
    - vm_compute in H1. discriminate H1.
    - destruct s; [vm_compute in H1; discriminate H1|vm_compute in H5; discriminate H5].
    - discriminate Hi.
    - destruct s; [vm_compute in H1; discriminate H1|].
      now apply Rating_range_finite. }
  simpl in H |- *.
  repeat (destruct H as [H|H]; [apply Prim2SF_inj in H; subst x; tauto|]).
  destruct H.
Qed.

(** C9. [new Rating(x)] succeeds exactly for the numbers 1, 2, 3, 4, 5 and
    keeps the value; every other number throws: one that is no integer with
    "Rating must be an integer", an integer out of range (0 and 6 among them)
    with "Rating must be between 1 and 5". *)
Theorem Rating_accepts_exactly_1_to_5 (x : number) :
  ((exists r, Rating.new x = Ok r) <-> In x [1; 2; 3; 4; 5])
  /\ (forall r, Rating.new x = Ok r -> Rating.value r = x)
  /\ (Js.Number_isInteger x = false ->
      Rating.new x = Throw (Error "Rating must be an integer"))
  /\ (Js.Number_isInteger x = true -> ~ In x [1; 2; 3; 4; 5] ->
      Rating.new x = Throw (Error "Rating must be between 1 and 5"))
  /\ Rating.new 0 = Throw (Error "Rating must be between 1 and 5")
  /\ Rating.new 6 = Throw (Error "Rating must be between 1 and 5")
  /\ Rating.new 3.5 = Throw (Error "Rating must be an integer").
Proof.
  assert (Hin : In x [1; 2; 3; 4; 5] -> Rating.new x = Ok (Rating.mk x)).
  { simpl. intros H.
    repeat (destruct H as [<-|H]; [vm_compute; reflexivity|]). destruct H. }
  assert (Hcases : Rating.new x = Ok (Rating.mk x) /\ In x [1; 2; 3; 4; 5]
          \/ Js.Number_isInteger x = false
             /\ Rating.new x = Throw (Error "Rating must be an integer")
          \/ Js.Number_isInteger x = true
             /\ Rating.new x = Throw (Error "Rating must be between 1 and 5")).
  { unfold Rating.new, Rating.validateRating, Rating.MIN_RATING, Rating.MAX_RATING.
    destruct (Js.Number_isInteger x) eqn:Hi; simpl negb; cbv iota; [|now right; left].
    destruct (Js.lt x 1) eqn:H1; simpl orb; cbv iota; [now right; right|].
    destruct (Js.gt x 5) eqn:H5; [now right; right|].
    left. split; [reflexivity|]. now apply Rating_range. }
  split; [|split; [|split; [|split]]].
  - split; [|intros H; rewrite (Hin H); now eexists].
    intros [r Hr]. destruct Hcases as [[_ H]|[[_ H]|[_ H]]]; [assumption| |]; congruence.
  - intros r Hr. destruct Hcases as [[H _]|[[_ H]|[_ H]]]; rewrite H in Hr;
      [now injection Hr as <-|discriminate Hr|discriminate Hr].
  - intros Hi. destruct Hcases as [[H HIn]|[[_ H]|[Hi' _]]]; [|assumption|congruence].
    exfalso. simpl in HIn.
    repeat (destruct HIn as [<-|HIn]; [vm_compute in Hi; discriminate Hi|]). destruct HIn.
  - intros Hi Hn. destruct Hcases as [[_ HIn]|[[Hi' _]|[_ H]]]; [tauto|congruence|assumption].
  - repeat split; vm_compute; reflexivity.
Qed.

End RatingConstruction.

(** ** Product: how each method runs *)



Section ProductRuns.
Context `{RT : Runtime}.


Lemma load_Some (this : ref) (p : ProductObject) (s : State) :
  heap s !! this = Some p -> load this s = (Ok p, s).
Proof. intros H. unfold load. now rewrite H. Qed.

Lemma read_Some {A} (field : ProductObject -> A) (this : ref) (p : ProductObject) (s : State) :
  heap s !! this = Some p -> Product.read field this s = (Ok (field p), s).
Proof. intros H. unfold Product.read, bind. now rewrite (load_Some _ _ _ H). Qed.

Lemma read_None {A} (field : ProductObject -> A) (this : ref) (s : State) :
  heap s !! this = None -> snd (Product.read field this s) = s.
Proof. intros H. unfold Product.read, bind, load. now rewrite H. Qed.

Lemma write_Some {A} (setter : A -> ProductObject -> ProductObject) (this : ref)
    (v : A) (p : ProductObject) (s : State) :
  heap s !! this = Some p ->
  Product.write setter this v s = (Ok tt, put this (setter v p) s).
Proof. intros H. unfold Product.write, modify. now rewrite H. Qed.

Lemma write_None {A} (setter : A -> ProductObject -> ProductObject) (this : ref)
    (v : A) (s : State) :
  heap s !! this = None -> snd (Product.write setter this v s) = s.
Proof. intros H. unfold Product.write, modify. now rewrite H. Qed.

Lemma heap_put (this : ref) (p q : ProductObject) (s : State) :
  heap s !! this = Some q -> heap (put this p s) !! this = Some p.
Proof.
  intros H. unfold put. simpl. apply list_lookup_insert_eq.
  now apply lookup_lt_Some in H.
Qed.

Lemma heap_put_ne (this r : ref) (p : ProductObject) (s : State) :
  this <> r -> heap (put this p s) !! r = heap s !! r.
Proof. intros H. unfold put. simpl. now apply list_lookup_insert_ne. Qed.

Lemma put_put (this : ref) (p q : ProductObject) (s : State) :
  put this q (put this p s) = put this q s.
Proof. unfold put, with_heap. simpl. now rewrite list_insert_insert_eq. Qed.

Lemma newDate_run (s : State) :
  newDate s = (Ok (TimeValue (fst (Date_now (world s)))),
               with_world s (snd (Date_now (world s)))).
Proof. unfold newDate. now destruct (Date_now (world s)). Qed.

(** [this._updatedAt = new Date()], the last step of every mutator. *)
Lemma stamp_run (this : ref) (p q : ProductObject) (s : State) :
  heap s !! this = Some q ->
  (now <- newDate ;; Product.write Product.set_updatedAt this now) (put this p s) =
  (Ok tt, put this (Product.set_updatedAt (TimeValue (fst (Date_now (world s)))) p)
              (with_world s (snd (Date_now (world s))))).
Proof.
  intros Hq. unfold bind. rewrite newDate_run.
  change (world (put this p s)) with (world s).
  change (with_world (put this p s) ?w) with (put this p (with_world s w)).
  erewrite write_Some by (apply (heap_put _ _ q); exact Hq).
  now rewrite put_put.
Qed.

Lemma updateStock_run (this : ref) (quantity : number) (p : ProductObject) (s : State) :
  heap s !! this = Some p -> Js.lt quantity 0%float = false ->
  Product.updateStock this quantity s =
  (Ok tt,
   put this (Product.set_updatedAt (TimeValue (fst (Date_now (world s))))
              (Product.set_inStock (Js.gt quantity 0%float)
                 (Product.set_stockQuantity quantity p)))
       (with_world s (snd (Date_now (world s))))).
Proof.
  intros Hp Hq. unfold Product.updateStock. rewrite Hq. unfold bind at 1.
  rewrite (write_Some _ _ _ _ _ Hp). unfold bind at 1.
  rewrite (write_Some _ _ _ _ _ (heap_put _ _ _ _ Hp)), put_put.
  now apply stamp_run with (q := p).
Qed.

Lemma updatePrice_run (this : ref) (price : number) (p : ProductObject) (s : State) :
  heap s !! this = Some p -> Js.lt price 0%float = false ->
  Product.updatePrice this price s =
  (Ok tt,
   put this (Product.set_updatedAt (TimeValue (fst (Date_now (world s))))
              (Product.set_price price p))
       (with_world s (snd (Date_now (world s))))).
Proof.
  intros Hp Hq. unfold Product.updatePrice. rewrite Hq. unfold bind at 1.
  rewrite (write_Some _ _ _ _ _ Hp).
  now apply stamp_run with (q := p).
Qed.

Lemma updateDetails_run (this : ref) (name : string) (description : Js.value)
    (category : ProductCategory.t) (p : ProductObject) (s : State) :
  heap s !! this = Some p -> Js.blank name = false ->
  Product.updateDetails this name description category s =
  (Ok tt,
   put this (Product.set_updatedAt (TimeValue (fst (Date_now (world s))))
              (Product.set_category category
                 (Product.set_description description
                    (Product.set_name name p))))
       (with_world s (snd (Date_now (world s))))).
Proof.
  intros Hp Hq. unfold Product.updateDetails. rewrite Hq. unfold bind at 1.
  rewrite (write_Some _ _ _ _ _ Hp). unfold bind at 1.
  rewrite (write_Some _ _ _ _ _ (heap_put _ _ _ _ Hp)), put_put. unfold bind at 1.
  rewrite (write_Some _ _ _ _ _ (heap_put _ _ _ _ Hp)), put_put.
  now apply stamp_run with (q := p).
Qed.

(** A mutator called through a reference to no instance changes nothing. *)
Lemma mutators_dangling (this : ref) (s : State) :
  heap s !! this = None ->
  (forall q, snd (Product.updateStock this q s) = s)
  /\ (forall v, snd (Product.updatePrice this v s) = s)
  /\ (forall n d c, snd (Product.updateDetails this n d c s) = s).
Proof.
  intros H. unfold Product.updateStock, Product.updatePrice, Product.updateDetails.
  repeat split; intros.
  - destruct (Js.lt q 0%float); [reflexivity|].
    unfold bind at 1, Product.write, modify. now rewrite H.
  - destruct (Js.lt v 0%float); [reflexivity|].
    unfold bind at 1, Product.write, modify. now rewrite H.
  - destruct (Js.blank n); [reflexivity|].
    unfold bind at 1, Product.write, modify. now rewrite H.
Qed.

Lemma validateProduct_run (this : ref) (p : ProductObject) (s : State) :
  heap s !! this = Some p ->
  Product.validateProduct this s = (lift (Product_check p)) s.
Proof.
  intros Hp. unfold Product.validateProduct, Product_check, lift.
  unfold bind at 1. rewrite (read_Some _ _ _ _ Hp).
  destruct (negb (Js.truthy_string (_id p))); [reflexivity|].
  unfold bind at 1. rewrite (read_Some _ _ _ _ Hp).
  destruct (Js.blank (_name p)); [reflexivity|].
  unfold bind at 1. rewrite (read_Some _ _ _ _ Hp).
  destruct (Js.lt (_price p) 0%float); [reflexivity|].
  unfold bind at 1. rewrite (read_Some _ _ _ _ Hp).
  destruct (Js.lt (_stockQuantity p) 0%float); reflexivity.
Qed.


Lemma alloc_run (p : ProductObject) (s : State) :
  alloc p s = (Ok (length (heap s)), with_heap s (heap s ++ [p]))
  /\ heap (with_heap s (heap s ++ [p])) !! length (heap s) = Some p.
Proof.
  split; [reflexivity|]. simpl.
  rewrite lookup_app_r by lia. now rewrite Nat.sub_diag.
Qed.

Lemma new_run (id name : string) (description : Js.value) (price : number)
    (category : ProductCategory.t) (stockQuantity : option number)
    (createdAt updatedAt : option Date) (s : State) :
  exists (w : World) (c u : Date),
    let p := new_object id name description price category
               (default 0%float stockQuantity) c u in
    let s' := with_heap (with_world s w) (heap s ++ [p]) in
    (forall d, createdAt = Some d -> c = d)
    /\ (forall d, updatedAt = Some d -> u = d)
    /\ (createdAt <> None -> updatedAt <> None -> w = world s)
    /\ Product.new id name description price category stockQuantity
         createdAt updatedAt s
       = (match Product_check p with
          | Ok _ => Ok (length (heap s))
          | Throw e => Throw e
          end, s').
Proof.
  unfold Product.new.
  assert (Hst : forall k : number -> M ref,
     (x <- Product.or_default stockQuantity (ret 0%float) ;; k x) s
     = k (default 0%float stockQuantity) s).
  { intros k. destruct stockQuantity; reflexivity. }
  rewrite Hst. clear Hst.
  assert (Hd : forall (o : option Date) (s0 : State), exists w d,
     Product.or_default o newDate s0 = (Ok d, with_world s0 w)
     /\ (forall x, o = Some x -> d = x) /\ (o <> None -> w = world s0)).
  { intros [x|] s0.
    - exists (world s0), x. repeat split; [now destruct s0|congruence].
    - exists (snd (Date_now (world s0))), (TimeValue (fst (Date_now (world s0)))).
      repeat split; [apply newDate_run|discriminate|congruence]. }
  destruct (Hd createdAt s) as (w1 & c & E1 & Hc & Hw1).
  destruct (Hd updatedAt (with_world s w1)) as (w2 & u & E2 & Hu & Hw2).
  exists w2, c, u. cbv zeta. split; [exact Hc|]. split; [exact Hu|].
  split; [intros H1 H2; rewrite (Hw2 H2); simpl; now apply Hw1|].
  unfold bind at 1. rewrite E1. unfold bind at 1. rewrite E2.
  unfold bind at 1.
  destruct (alloc_run (new_object id name description price category
                (default 0%float stockQuantity) c u)
              (with_world (with_world s w1) w2)) as [Ea Hl].
  unfold new_object in Ea, Hl |- *. rewrite Ea. unfold bind at 1.
  rewrite (validateProduct_run _ _ _ Hl). unfold lift.
  match goal with |- context [Product_check ?p] => destruct (Product_check p) end;
    reflexivity.
Qed.

End ProductRuns.

(** ** Product: [inStock] and failed stock updates *)

Section ProductInvariant.
Context `{RT : Runtime}.


Lemma snd_discard {A} (m : M A) (s : State) :
  snd ((_ <- m ;; ret tt) s) = snd (m s).
Proof. unfold bind, ret. now destruct (m s) as [[a|e] s']. Qed.

Lemma date_or_now_run (o : option string) (s : State) :
  exists d w, Product.date_or_now o s = (Ok d, with_world s w)
              /\ (forall str, o = Some str -> Js.truthy_string str = true ->
                    d = Date_parse str /\ w = world s).
Proof.
  unfold Product.date_or_now.
  destruct o as [str|]; [destruct (Js.truthy_string str) eqn:E|].
  - exists (Date_parse str), (world s). split; [now destruct s|].
    intros ? [= <-] _. now split.
  - eexists _, _. split; [apply newDate_run|]. intros ? [= <-]. congruence.
  - eexists _, _. split; [apply newDate_run|]. discriminate.
Qed.

Lemma new_keeps_derived id name description price category stockQuantity
    createdAt updatedAt (s : State) :
  Forall inStock_derived (heap s) ->
  Forall inStock_derived
    (heap (snd (Product.new id name description price category stockQuantity
                  createdAt updatedAt s))).
Proof.
  intros H.
  destruct (new_run id name description price category stockQuantity
              createdAt updatedAt s) as (w & c & u & _ & _ & _ & E).
  cbv zeta in E. rewrite E. simpl. apply Forall_app. split; [exact H|].
  constructor; [reflexivity|constructor].
Qed.

Lemma put_keeps_derived (this : ref) (p : ProductObject) (s : State) (w : World) :
  inStock_derived p -> Forall inStock_derived (heap s) ->
  Forall inStock_derived (heap (put this p (with_world s w))).
Proof. intros Hp H. unfold put. simpl. now apply Forall_insert. Qed.

Lemma perform_keeps_derived (c : ProductCall) (s : State) :
  Forall inStock_derived (heap s) ->
  Forall inStock_derived (heap (snd (perform c s))).
Proof.
  intros H. destruct c; simpl perform; rewrite ?snd_discard.
  - now apply new_keeps_derived.
  - now apply new_keeps_derived.
  - unfold Product.fromPrimitives. unfold bind at 1, lift.
    destruct (ProductCategory.new (ProductData.category data)) as [cat|e]; [|exact H].
    unfold bind at 1.
    destruct (date_or_now_run (ProductData.createdAt data) s) as (d1 & w1 & E1 & _).
    rewrite E1. unfold bind at 1.
    destruct (date_or_now_run (ProductData.updatedAt data) (with_world s w1))
      as (d2 & w2 & E2 & _).
    rewrite E2. now apply new_keeps_derived.
  - unfold Product.toPrimitives, bind, load.
    destruct (heap s !! this); [|exact H].
    destruct (_createdAt p); [exact H|]. destruct (_updatedAt p); exact H.
  - destruct (heap s !! this) as [p|] eqn:E.
    + now rewrite (read_Some _ _ _ _ E).
    + now rewrite (read_None _ _ _ E).
  - destruct (heap s !! this) as [p|] eqn:E.
    + destruct (Js.lt quantity 0%float) eqn:Hq.
      * unfold Product.updateStock. now rewrite Hq.
      * rewrite (updateStock_run _ _ _ _ E Hq). apply put_keeps_derived; [reflexivity|exact H].
    + now rewrite (proj1 (mutators_dangling _ _ E)).
  - destruct (heap s !! this) as [p|] eqn:E.
    + destruct (Js.lt price 0%float) eqn:Hq.
      * unfold Product.updatePrice. now rewrite Hq.
      * rewrite (updatePrice_run _ _ _ _ E Hq). apply put_keeps_derived; [|exact H].
        exact (proj1 (Forall_lookup _ _) H _ _ E).
    + now rewrite (proj1 (proj2 (mutators_dangling _ _ E))).
  - destruct (heap s !! this) as [p|] eqn:E.
    + destruct (Js.blank name) eqn:Hq.
      * unfold Product.updateDetails. now rewrite Hq.
      * rewrite (updateDetails_run _ _ _ _ _ _ E Hq). apply put_keeps_derived; [|exact H].
        exact (proj1 (Forall_lookup _ _) H _ _ E).
    + now rewrite (proj2 (proj2 (mutators_dangling _ _ E))).
Qed.

(** C1. After any sequence of public operations on products (constructions,
    getters, conversions and the three mutators, failed calls included), every
    instance has [inStock] equal to [stockQuantity > 0], provided the instances
    the sequence started from did. *)
Theorem inStock_always_derived (calls : list ProductCall) (s : State) :
  (forall p, In p (heap s) -> inStock_derived p) ->
  forall this p, heap (perform_all calls s) !! this = Some p ->
    _inStock p = Js.gt (_stockQuantity p) 0%float.
Proof.
  intros H0 this p Hp.
  assert (H : Forall inStock_derived (heap (perform_all calls s))).
  { apply List.Forall_forall in H0. revert s H0 Hp. clear.
    induction calls as [|c rest IH]; intros s H0; simpl; [intros _; exact H0|].
    intros Hp. apply IH; [now apply perform_keeps_derived|exact Hp]. }
  exact (proj1 (Forall_lookup _ _) H _ _ Hp).
Qed.

(** C7. [updateStock] with a negative quantity throws "Stock quantity cannot be
    negative" and leaves the whole state as it was: no field of the product,
    nor of any other instance, is written before the throw. *)
Theorem updateStock_negative_throws_unchanged (this : ref) (quantity : number)
    (s : State) :
  Js.lt quantity 0%float = true ->
  Product.updateStock this quantity s
  = (Throw (Error "Stock quantity cannot be negative"), s).
Proof. intros H. unfold Product.updateStock. now rewrite H. Qed.

End ProductInvariant.

(** ** Product: from primitives and back *)

Section ProductRoundTrip.
Context `{RT : Runtime}.

Lemma falsy_numbers (q : number) :
  Js.truthy_number q = false -> q = 0%float \/ q = (-0)%float \/ q = nan.
Proof.
  unfold Js.truthy_number. intros H.
  apply negb_false_iff in H. apply orb_true_iff in H. destruct H as [H|H];
    [|unfold PrimFloat.is_nan in H; apply negb_true_iff in H];
    rewrite FloatAxioms.eqb_spec in H.
  - assert (Hz : exists sg, Prim2SF q = S754_zero sg).
    { change (Prim2SF 0%float) with (S754_zero false) in H.
      destruct (Prim2SF q) as [sg|[]| |[] m e]; try discriminate H. now exists sg. }
    destruct Hz as [[] Hz]; [right; left|left]; apply Prim2SF_inj; rewrite Hz; reflexivity.
  - right; right. apply Prim2SF_inj.
    change (Prim2SF nan) with S754_nan.
    destruct (Prim2SF q) as [sg|sg| |sg m e]; try reflexivity; exfalso.
    + discriminate H.
    + destruct sg; discriminate H.
    + unfold SFeqb, SFcompare in H. rewrite Z.compare_refl in H.
      rewrite Pos.compare_cont_refl in H. destruct sg; discriminate H.
Qed.

Lemma or_zero_id (q : number) :
  q <> nan -> q <> (-0)%float -> Product.or_zero (Some q) = q.
Proof.
  intros H1 H2. unfold Product.or_zero.
  destruct (Js.truthy_number q) eqn:E; [reflexivity|].
  destruct (falsy_numbers q E) as [->|[->| ->]]; [reflexivity|contradiction|contradiction].
Qed.

Lemma ProductCategory_new_value (c : string) (cat : ProductCategory.t) :
  ProductCategory.new c = Ok cat ->
  ProductCategory.new (ProductCategory.value cat) = Ok cat.
Proof.
  intros H. destruct (ProductCategory_new_cases c) as [[HIn E]|[_ [msg [E _]]]];
    rewrite E in H; [|discriminate H]. injection H as <-. simpl.
  pose proof (VALID_CATEGORIES_lowercase _ HIn) as Hl.
  destruct (ProductCategory_new_cases (Js.toLowerCase c)) as [[_ E']|[HnIn _]].
  - now rewrite E', Hl.
  - exfalso. apply HnIn. now rewrite Hl.
Qed.

Lemma toPrimitives_run (this : ref) (p : ProductObject) (s : State) :
  heap s !! this = Some p ->
  Product.toPrimitives this s =
  (match _createdAt p, _updatedAt p with
   | TimeValue c, TimeValue u =>
       Ok {| ProductDto.id := _id p;
             ProductDto.name := _name p;
             ProductDto.description := _description p;
             ProductDto.price := _price p;
             ProductDto.category := ProductCategory.value (_category p);
             ProductDto.inStock := _inStock p;
             ProductDto.stockQuantity := _stockQuantity p;
             ProductDto.createdAt := isoString c;
             ProductDto.updatedAt := isoString u |}
   | _, _ => Throw (RangeError "Invalid time value")
   end, s).
Proof.
  intros H. unfold Product.toPrimitives. unfold bind at 1.
  rewrite (load_Some _ _ _ H).
  destruct (_createdAt p); [reflexivity|]. destruct (_updatedAt p); reflexivity.
Qed.

(** C2 (as amended). Any product instance that passes the constructor's
    checks, with [inStock] derived from its stock quantity and a category the
    [ProductCategory] constructor made (as every instance the constructor,
    [create], [fromPrimitives] and the mutators leave), whose [toPrimitives()]
    returns (both timestamps are valid dates) and whose stock quantity is
    neither NaN nor [-0], goes through [fromPrimitives] and back to the same
    record, timestamps included, when the record's two timestamp strings are
    stable. [fromPrimitives] returns a new instance that holds the fields of
    the first, which is left as it was. *)
Theorem fromPrimitives_toPrimitives_roundtrip
    (this : ref) (p : ProductObject) (c : string) (dto : ProductDto.t)
    (s s' : State) :
  heap s !! this = Some p ->
  Product_check p = Ok tt -> inStock_derived p ->
  ProductCategory.new c = Ok (_category p) ->
  Product.toPrimitives this s = (Ok dto, s') ->
  _stockQuantity p <> nan -> _stockQuantity p <> (-0)%float ->
  iso_stable (ProductDto.createdAt dto) ->
  iso_stable (ProductDto.updatedAt dto) ->
  exists that s1 q,
    Product.fromPrimitives (ProductData.of_dto dto) s' = (Ok that, s1)
    /\ heap s' !! that = None
    /\ heap s1 !! that = Some q
    /\ heap s1 !! this = Some p
    /\ _id q = _id p /\ _name q = _name p /\ _description q = _description p
    /\ _price q = _price p /\ _category q = _category p
    /\ _stockQuantity q = _stockQuantity p /\ _inStock q = _inStock p
    /\ Product.toPrimitives that s1 = (Ok dto, s1).
Proof.
  intros Hp Hchk Hin Hcat Hto Hnan Hneg [Hc1 (tc & Hc2 & Hc3)] [Hu1 (tu & Hu2 & Hu3)].
  rewrite (toPrimitives_run _ _ _ Hp) in Hto.
  destruct (_createdAt p) as [|c0] eqn:Ec; [discriminate Hto|].
  destruct (_updatedAt p) as [|u0] eqn:Eu; [discriminate Hto|].
  injection Hto as <- <-. simpl in Hc1, Hc2, Hc3, Hu1, Hu2, Hu3.
  unfold Product.fromPrimitives, ProductData.of_dto.
  cbn [ProductData.category ProductData.createdAt ProductData.updatedAt
       ProductData.id ProductData.name ProductData.description ProductData.price
       ProductData.stockQuantity ProductDto.category ProductDto.createdAt
       ProductDto.updatedAt ProductDto.id ProductDto.name ProductDto.description
       ProductDto.price ProductDto.stockQuantity].
  unfold bind at 1, lift. rewrite (ProductCategory_new_value _ _ Hcat).
  unfold Product.date_or_now. rewrite Hc1, Hu1, Hc2, Hu2.
  unfold bind at 1, ret at 1. unfold bind at 1, ret at 1.
  rewrite (or_zero_id _ Hnan Hneg).
  destruct (new_run (_id p) (_name p) (_description p) (_price p) (_category p)
              (Some (_stockQuantity p)) (Some (TimeValue tc)) (Some (TimeValue tu)) s)
    as (w' & dc' & du' & Hdc & Hdu & _ & E).
  cbv zeta in E. rewrite (Hdc _ eq_refl), (Hdu _ eq_refl) in E. simpl default in E.
  change (Product_check (new_object (_id p) (_name p) (_description p) (_price p)
                           (_category p) (_stockQuantity p)
                           (TimeValue tc) (TimeValue tu)))
    with (Product_check p) in E.
  rewrite Hchk in E. eexists _, _, _. split; [exact E|].
  split; [apply lookup_ge_None_2; lia|].
  split; [simpl; rewrite lookup_app_r by lia; now rewrite Nat.sub_diag|].
  split; [simpl; rewrite lookup_app_l by (now apply lookup_lt_Some in Hp); exact Hp|].
  repeat (split; [reflexivity|]).
  split; [symmetry; exact Hin|].
  erewrite toPrimitives_run.
  2:{ simpl. rewrite lookup_app_r by lia. now rewrite Nat.sub_diag. }
  simpl. rewrite Hc3, Hu3. unfold inStock_derived in Hin. now rewrite <- Hin.
Qed.

End ProductRoundTrip.

(** ** The monad: how [bind] and [try_catch] run *)

Section MonadRuns.
Context `{RT : Runtime}.

Lemma bind_Ok {A B} (m : M A) (f : A -> M B) (s s' : State) (a : A) :
  m s = (Ok a, s') -> bind m f s = f a s'.
Proof. intros H. unfold bind. now rewrite H. Qed.

Lemma bind_Throw {A B} (m : M A) (f : A -> M B) (s s' : State) (e : JsError) :
  m s = (Throw e, s') -> bind m f s = (Throw e, s').
Proof. intros H. unfold bind. now rewrite H. Qed.

Lemma try_Ok {A} (m : M A) (h : JsError -> M A) (s s' : State) (a : A) :
  m s = (Ok a, s') -> try_catch m h s = (Ok a, s').
Proof. intros H. unfold try_catch. now rewrite H. Qed.

Lemma try_Throw {A} (m : M A) (h : JsError -> M A) (s s' : State) (e : JsError) :
  m s = (Throw e, s') -> try_catch m h s = h e s'.
Proof. intros H. unfold try_catch. now rewrite H. Qed.

(** [catch (error) { console.error(...); throw error; }] changes nothing. *)
Lemma try_rethrow {A} (m : M A) (label : string) (s : State) :
  try_catch m (fun error => console_error label error ;; throw error) s = m s.
Proof. unfold try_catch. now destruct (m s) as [[a|e] s']. Qed.

Lemma await_fetch_run (req : Fetch.Request) (s : State) :
  await_fetch req s =
  (match fst (fetch req (world s)) with
   | Fetch.Rejected e => Throw e
   | Fetch.Resolved r => Ok r
   end, with_world s (snd (fetch req (world s)))).
Proof. unfold await_fetch. now destruct (fetch req (world s)) as [[e|r] w]. Qed.

End MonadRuns.

(** ** ApiProductRepository: transport failures *)

Section RepositoryFailures.
Context `{RT : Runtime}.

(** A read whose request fails: the exception is caught and the method
    returns [fallback]. *)
Lemma failed_read_swallowed {A} (req : Fetch.Request) (label : string)
    (k : Fetch.Response -> M A) (unless404 : option A) (fallback : A)
    (log : string) (s : State) :
  failed (fst (fetch req (world s))) ->
  try_catch
    (response <- await_fetch req ;;
     if negb (Fetch.ok response) then
       match unless404 with
       | Some a => if (Fetch.status response =? 404)%Z then ret a
                   else throw (Error (label ++ Fetch.statusText response))
       | None => throw (Error (label ++ Fetch.statusText response))
       end
     else k response)
    (fun error => console_error log error ;; ret fallback) s
  = (Ok fallback, with_world s (snd (fetch req (world s)))).
Proof.
  intros Hf. unfold try_catch, bind at 1. rewrite await_fetch_run.
  destruct (fst (fetch req (world s))) as [e|r]; [reflexivity|].
  destruct Hf as [Hok H404]. rewrite Hok. simpl negb. cbv iota.
  apply Z.eqb_neq in H404. destruct unless404; [rewrite H404|]; reflexivity.
Qed.

Lemma findById_failed (this : ApiProductRepository.t) (id : string) (s : State) :
  failed (fst (fetch (Fetch.GET (ApiProductRepository.endpoint this ++ "/" ++ id))
                (world s))) ->
  ApiProductRepository.findById this id s
  = (Ok None,
     with_world s (snd (fetch (Fetch.GET (ApiProductRepository.endpoint this
                                          ++ "/" ++ id)) (world s)))).
Proof.
  intros Hf. unfold ApiProductRepository.findById.
  exact (failed_read_swallowed _ "Failed to fetch product: " _ (Some None) None _ s Hf).
Qed.

Lemma findAll_failed (this : ApiProductRepository.t) (s : State) :
  failed (fst (fetch (Fetch.GET (ApiProductRepository.endpoint this)) (world s))) ->
  ApiProductRepository.findAll this s
  = (Ok [],
     with_world s (snd (fetch (Fetch.GET (ApiProductRepository.endpoint this))
                         (world s)))).
Proof.
  intros Hf. unfold ApiProductRepository.findAll.
  exact (failed_read_swallowed _ "Failed to fetch products: " _ None [] _ s Hf).
Qed.

Lemma findByCategory_failed (this : ApiProductRepository.t)
    (category : ProductCategory.t) (s : State) :
  let req := Fetch.GET (ApiProductRepository.endpoint this ++ "?category="
                        ++ ProductCategory.value category) in
  failed (fst (fetch req (world s))) ->
  ApiProductRepository.findByCategory this category s
  = (Ok [], with_world s (snd (fetch req (world s)))).
Proof.
  intros req Hf. unfold ApiProductRepository.findByCategory.
  exact (failed_read_swallowed _ "Failed to fetch products by category: " _ None [] _ s Hf).
Qed.

Lemma delete_failed (this : ApiProductRepository.t) (id : string) (s : State) :
  let req := {| Fetch.method := "DELETE";
                Fetch.url := ApiProductRepository.endpoint this ++ "/" ++ id;
                Fetch.headers := [];
                Fetch.body := None |} in
  failed (fst (fetch req (world s))) ->
  ApiProductRepository.delete this id s
  = (Throw (failure_of "Failed to delete product: " (fst (fetch req (world s)))),
     with_world s (snd (fetch req (world s)))).
Proof.
  intros req Hf. unfold ApiProductRepository.delete. rewrite try_rethrow.
  unfold bind. fold req. rewrite await_fetch_run.
  destruct (fst (fetch req (world s))) as [e|r]; [reflexivity|].
  destruct Hf as [Hok _]. now rewrite Hok.
Qed.

Lemma save_failed (this : ApiProductRepository.t) (product : ref) (s : State) :
  transport_down ->
  exists e s', ApiProductRepository.save this product s = (Throw e, s').
Proof.
  intros Hdown. unfold ApiProductRepository.save. rewrite try_rethrow.
  unfold Product.id. destruct (heap s !! product) as [p|] eqn:Hp.
  - rewrite (bind_Ok _ _ _ _ _ (read_Some _ _ _ _ Hp)).
    rewrite (bind_Ok _ _ _ _ _ (findById_failed this (_id p) s (Hdown _ _))).
    simpl String.eqb. cbv iota. unfold bind at 1, ret at 1.
    match goal with |- context [with_world s ?w] => set (s1 := with_world s w) end.
    assert (Hp1 : heap s1 !! product = Some p) by exact Hp.
    unfold bind at 1. rewrite (toPrimitives_run _ _ _ Hp1).
    destruct (_createdAt p); [eexists _, _; reflexivity|].
    destruct (_updatedAt p); [eexists _, _; reflexivity|].
    unfold bind. rewrite await_fetch_run.
    match goal with |- context [fetch ?r (world s1)] =>
      pose proof (Hdown r (world s1)) as Hf; destruct (fst (fetch r (world s1))) as [e|r']
    end; [eexists _, _; reflexivity|].
    destruct Hf as [Hok _]. rewrite Hok. eexists _, _; reflexivity.
  - unfold bind at 1, Product.read, bind, load. rewrite Hp. eexists _, _; reflexivity.
Qed.

End RepositoryFailures.

(** ** ProductService: how [createProduct] and [updateProduct] start *)

Section ServiceValidation.
Context `{RT : Runtime}.
Variable productRepository : ProductRepository.t.

Lemma updateProduct_steps (id : string) (productDto : UpdateProductDto.t) :
  ProductService.updateProduct productRepository id productDto =
  try_catch
    (existing <- ProductService.getProductById productRepository id ;;
     match existing with
     | None => ret None
     | Some existingProduct =>
         details_step existingProduct productDto ;;
         price_step existingProduct productDto ;;
         stock_step existingProduct productDto ;;
         save_step productRepository id existingProduct ;;
         ret (Some existingProduct)
     end)
    (fun error => console_error "Error updating product:" error ;; throw error).
Proof. reflexivity. Qed.

Lemma or_else_id (a : option string) (s : State) :
  exists w, ProductService.or_else a crypto_randomUUID s
            = (Ok (match a with
                   | Some v => if Js.truthy_string v then v
                               else fst (randomUUID (world s))
                   | None => fst (randomUUID (world s))
                   end), with_world s w)
            /\ ((exists v, a = Some v /\ Js.truthy_string v = true) -> w = world s).
Proof.
  assert (Hu : crypto_randomUUID s
               = (Ok (fst (randomUUID (world s))), with_world s (snd (randomUUID (world s))))).
  { unfold crypto_randomUUID. now destruct (randomUUID (world s)). }
  unfold ProductService.or_else.
  destruct a as [v|]; [destruct (Js.truthy_string v) eqn:E|].
  - exists (world s). split; [now destruct s|reflexivity].
  - eexists. split; [exact Hu|]. intros (v' & [= <-] & Hv). congruence.
  - eexists. split; [exact Hu|]. intros (v' & [=] & _).
Qed.

End ServiceValidation.

(** ** ProductService: updates *)

Section ServiceUpdate.
Context `{RT : Runtime}.
Variable productRepository : ProductRepository.t.

Lemma put_same (this : ref) (p : ProductObject) (s : State) :
  heap s !! this = Some p -> put this p s = s.
Proof.
  intros H. unfold put, with_heap. rewrite (list_insert_id _ _ _ H). now destruct s.
Qed.

Lemma rewrites_lookup (this : ref) (p p' : ProductObject) (s s' : State) :
  heap s !! this = Some p -> rewrites this p' s s' ->
  heap s' !! this = Some p' /\ mockProducts s' = mockProducts s
  /\ length (heap s') = length (heap s).
Proof.
  intros Hp [w ->]. split; [now apply (heap_put _ _ p)|]. split; [reflexivity|].
  unfold put. simpl. apply length_insert.
Qed.

Lemma rewrites_same (this : ref) (p : ProductObject) (s : State) :
  heap s !! this = Some p -> rewrites this p s s.
Proof.
  intros H. exists (world s). rewrite <- (put_same _ _ _ H) at 1.
  unfold put, with_heap, with_world. now destruct s.
Qed.

Lemma valid_truthy (n : string) : Js.blank n = false -> Js.truthy_string n = true.
Proof. unfold Js.blank. destruct n; [discriminate|reflexivity]. Qed.

Lemma accepted_truthy (c : string) (cat : ProductCategory.t) :
  ProductCategory.new c = Ok cat ->
  Js.truthy_string c = true /\ cat = ProductCategory.mk (Js.toLowerCase c).
Proof.
  intros H. destruct (ProductCategory_new_cases c) as [[HIn E]|[_ [msg [E _]]]];
    rewrite E in H; [|discriminate H]. injection H as <-.
  split; [|reflexivity]. apply valid_truthy. now apply VALID_CATEGORIES_not_blank.
Qed.

Lemma or_else_getter (a : option string) (field : ProductObject -> string)
    (this : ref) (p : ProductObject) (s : State) :
  heap s !! this = Some p ->
  (forall v, a = Some v -> Js.truthy_string v = true) ->
  ProductService.or_else a (Product.read field this) s = (Ok (default (field p) a), s).
Proof.
  intros Hp Ha. unfold ProductService.or_else. destruct a as [v|].
  - now rewrite (Ha v eq_refl).
  - simpl. now apply read_Some.
Qed.

Lemma value_or_else_getter (a : option Js.value) (this : ref) (p : ProductObject)
    (s : State) :
  heap s !! this = Some p ->
  (forall v, a = Some v -> Js.toBoolean v = true) ->
  ProductService.value_or_else a (Product.read _description this) s
  = (Ok (default (_description p) a), s).
Proof.
  intros Hp Ha. unfold ProductService.value_or_else. destruct a as [v|].
  - cbn [Js.truthy]. now rewrite (Ha v eq_refl).
  - simpl. now apply read_Some.
Qed.

Lemma valid_update_details (dto : UpdateProductDto.t) :
  valid_update dto -> valid_details dto.
Proof. intros (Hn & Hd & Hc & _ & _). now repeat split. Qed.

Lemma details_step_valid (this : ref) (dto : UpdateProductDto.t) (p : ProductObject)
    (s : State) :
  heap s !! this = Some p -> Js.blank (_name p) = false -> valid_details dto ->
  exists s',
    details_step this dto s = (Ok tt, s')
    /\ rewrites this (with_details dto (TimeValue (fst (Date_now (world s)))) p) s s'
    /\ world s' = if details_provided dto then snd (Date_now (world s)) else world s.
Proof.
  intros Hp Hname (Hn & Hd & Hc). unfold details_provided.
  assert (Hn' : forall v, UpdateProductDto.name dto = Some v -> Js.truthy_string v = true)
    by (intros v Hv; apply valid_truthy, (Hn v Hv)).
  unfold details_step, with_details.
  pose proof (or_else_getter (UpdateProductDto.name dto) _name this p s Hp Hn') as En.
  pose proof (value_or_else_getter (UpdateProductDto.description dto)
                this p s Hp Hd) as Ed.
  assert (Ec : match UpdateProductDto.category dto with
               | Some c => if Js.truthy_string c then lift (ProductCategory.new c)
                           else Product.category this
               | None => Product.category this
               end s
               = (Ok match UpdateProductDto.category dto with
                     | Some c => ProductCategory.mk (Js.toLowerCase c)
                     | None => _category p
                     end, s)).
  { destruct (UpdateProductDto.category dto) as [c|].
    - destruct (Hc c eq_refl) as [cat Hcat].
      destruct (accepted_truthy c cat Hcat) as [Ht ->]. rewrite Ht. unfold lift.
      now rewrite Hcat.
    - now apply read_Some. }
  assert (Hblank : Js.blank (default (_name p) (UpdateProductDto.name dto)) = false).
  { destruct (UpdateProductDto.name dto) as [n|]; [now apply Hn|exact Hname]. }
  assert (Hrun : forall b : bool,
    (if b then
       category <- match UpdateProductDto.category dto with
                   | Some c => if Js.truthy_string c then lift (ProductCategory.new c)
                               else Product.category this
                   | None => Product.category this
                   end ;;
       name <- ProductService.or_else (UpdateProductDto.name dto) (Product.name this) ;;
       description <- ProductService.value_or_else (UpdateProductDto.description dto)
                        (Product.description this) ;;
       Product.updateDetails this name description category
     else ret tt) s
    = if b then
        (Ok tt,
         put this
           (Product.set_updatedAt (TimeValue (fst (Date_now (world s))))
              (Product.set_category
                 (match UpdateProductDto.category dto with
                  | Some c => ProductCategory.mk (Js.toLowerCase c)
                  | None => _category p
                  end)
                 (Product.set_description
                    (default (_description p) (UpdateProductDto.description dto))
                    (Product.set_name (default (_name p) (UpdateProductDto.name dto)) p))))
           (with_world s (snd (Date_now (world s)))))
      else (Ok tt, s)).
  { intros [|]; [|reflexivity].
    rewrite (bind_Ok _ _ _ _ _ Ec). unfold Product.name.
    rewrite (bind_Ok _ _ _ _ _ En). unfold Product.description.
    rewrite (bind_Ok _ _ _ _ _ Ed).
    now apply updateDetails_run. }
  rewrite Hrun. clear Hrun En Ed Ec Hblank.
  destruct (UpdateProductDto.name dto) as [n|];
    destruct (UpdateProductDto.description dto) as [d|];
    destruct (UpdateProductDto.category dto) as [c|];
    cbn [ProductService.truthy_opt Js.truthy];
    rewrite ?(Hn' _ eq_refl), ?(Hd _ eq_refl);
    try (destruct (Hc _ eq_refl) as [cat Hcat];
         rewrite (proj1 (accepted_truthy _ _ Hcat)));
    cbn [orb];
    (eexists; split; [reflexivity|]; split; [|reflexivity]);
    first [now apply rewrites_same | now eexists].
Qed.

Lemma details_step_run (this : ref) (dto : UpdateProductDto.t) (p : ProductObject)
    (s : State) :
  heap s !! this = Some p -> Js.blank (_name p) = false -> valid_update dto ->
  exists s',
    details_step this dto s = (Ok tt, s')
    /\ rewrites this (with_details dto (TimeValue (fst (Date_now (world s)))) p) s s'.
Proof.
  intros Hp Hname Hdto.
  destruct (details_step_valid this dto p s Hp Hname (valid_update_details dto Hdto))
    as (s' & E & R & _).
  now exists s'.
Qed.



Lemma price_step_valid (this : ref) (dto : UpdateProductDto.t) (p : ProductObject)
    (s : State) :
  heap s !! this = Some p ->
  (forall v, UpdateProductDto.price dto = Some v -> Js.lt v 0%float = false) ->
  exists s',
    price_step this dto s = (Ok tt, s')
    /\ rewrites this (with_price dto (TimeValue (fst (Date_now (world s)))) p) s s'
    /\ world s' = match UpdateProductDto.price dto with
                  | Some _ => snd (Date_now (world s))
                  | None => world s
                  end.
Proof.
  intros Hp Hv. unfold price_step, with_price.
  destruct (UpdateProductDto.price dto) as [v|].
  - rewrite (updatePrice_run _ _ _ _ Hp (Hv v eq_refl)).
    eexists. split; [reflexivity|]. split; [now eexists|reflexivity].
  - eexists. split; [reflexivity|]. split; [now apply rewrites_same|reflexivity].
Qed.

Lemma price_step_run (this : ref) (dto : UpdateProductDto.t) (p : ProductObject)
    (s : State) :
  heap s !! this = Some p -> valid_update dto ->
  exists s',
    price_step this dto s = (Ok tt, s')
    /\ rewrites this (with_price dto (TimeValue (fst (Date_now (world s)))) p) s s'.
Proof.
  intros Hp (_ & _ & _ & Hv & _).
  destruct (price_step_valid this dto p s Hp Hv) as (s' & E & R & _). now exists s'.
Qed.


Lemma stock_step_valid (this : ref) (dto : UpdateProductDto.t) (p : ProductObject)
    (s : State) :
  heap s !! this = Some p ->
  (forall q, UpdateProductDto.stockQuantity dto = Some q -> Js.lt q 0%float = false) ->
  exists s',
    stock_step this dto s = (Ok tt, s')
    /\ rewrites this (with_stock dto (TimeValue (fst (Date_now (world s)))) p) s s'
    /\ world s' = match UpdateProductDto.stockQuantity dto with
                  | Some _ => snd (Date_now (world s))
                  | None => world s
                  end.
Proof.
  intros Hp Hq. unfold stock_step, with_stock.
  destruct (UpdateProductDto.stockQuantity dto) as [q|].
  - rewrite (updateStock_run _ _ _ _ Hp (Hq q eq_refl)).
    eexists. split; [reflexivity|]. split; [now eexists|reflexivity].
  - eexists. split; [reflexivity|]. split; [now apply rewrites_same|reflexivity].
Qed.

Lemma stock_step_run (this : ref) (dto : UpdateProductDto.t) (p : ProductObject)
    (s : State) :
  heap s !! this = Some p -> valid_update dto ->
  exists s',
    stock_step this dto s = (Ok tt, s')
    /\ rewrites this (with_stock dto (TimeValue (fst (Date_now (world s)))) p) s s'.
Proof.
  intros Hp (_ & _ & _ & _ & Hq).
  destruct (stock_step_valid this dto p s Hp Hq) as (s' & E & R & _). now exists s'.
Qed.


Lemma findIndex_by_id (id : string) (l : list ref) (i : nat) (s : State) :
  Forall (fun m => is_Some (heap s !! m)) l ->
  exists o, findIndexM (fun p => pid <- Product.id p ;; ret (String.eqb pid id)) l i s
            = (Ok o, s).
Proof.
  revert i. induction l as [|m l IH]; intros i Hl; simpl.
  - now eexists.
  - apply Forall_cons in Hl. destruct Hl as [[p Hp] Hl]. unfold Product.id.
    rewrite (bind_Ok _ _ _ _ _ (bind_Ok _ _ _ _ _ (read_Some _ _ _ _ Hp))).
    unfold ret at 1. destruct (String.eqb (_id p) id); [now eexists|now apply IH].
Qed.

Lemma rewrites_allocated (this : ref) (p p' : ProductObject) (s s' : State) :
  heap s !! this = Some p -> rewrites this p' s s' ->
  mocks_allocated s -> mocks_allocated s'.
Proof.
  intros Hp Hr. destruct (rewrites_lookup _ _ _ _ _ Hp Hr) as (_ & Hm & Hlen).
  unfold mocks_allocated. rewrite Hm. intros H. eapply Forall_impl; [exact H|].
  intros m Hs. apply lookup_lt_is_Some. rewrite Hlen. now apply lookup_lt_is_Some.
Qed.

Lemma save_step_run (id : string) (this : ref) (p : ProductObject) (s : State) :
  keeps_instances (ProductRepository.save productRepository this) ->
  heap s !! this = Some p -> mocks_allocated s ->
  exists s', save_step productRepository id this s = (Ok tt, s')
             /\ heap s' !! this = Some p.
Proof.
  intros Hkeep Hp Hm. unfold save_step, try_catch.
  destruct (Hkeep s) as [Hmocks Hheap].
  destruct (ProductRepository.save productRepository this s) as [[[]|e] s1];
    simpl in Hmocks, Hheap.
  - eexists. split; [reflexivity|now apply Hheap].
  - unfold console_error. unfold bind at 1, ret at 1.
    unfold bind at 1, get_mockProducts.
    assert (Hm1 : Forall (fun m => is_Some (heap s1 !! m)) (mockProducts s1)).
    { rewrite Hmocks. eapply Forall_impl; [exact Hm|]. intros m [q Hq].
      exists q. now apply Hheap. }
    destruct (findIndex_by_id id (mockProducts s1) 0 s1 Hm1) as [o Eo].
    rewrite (bind_Ok _ _ _ _ _ Eo).
    destruct o as [i|]; eexists; (split; [reflexivity|]); now apply Hheap.
Qed.

Lemma updated_by_steps (dto : UpdateProductDto.t) (t1 t2 t3 : Date) (p : ProductObject) :
  updated_by dto p (with_stock dto t3 (with_price dto t2 (with_details dto t1 p))).
Proof.
  destruct dto as [[n|] [d|] [v|] [c|] [q|]];
    unfold updated_by, with_stock, with_price, with_details; simpl;
    repeat split; try reflexivity; try discriminate.
Qed.

Lemma updatedAt_steps (dto : UpdateProductDto.t) (w : World) (p : ProductObject) :
  let w1 := if details_provided dto then snd (Date_now w) else w in
  let w2 := match UpdateProductDto.price dto with
            | Some _ => snd (Date_now w1)
            | None => w1
            end in
  _updatedAt (with_stock dto (TimeValue (fst (Date_now w2)))
                (with_price dto (TimeValue (fst (Date_now w1)))
                   (with_details dto (TimeValue (fst (Date_now w))) p)))
  = updatedAt_after dto w p.
Proof.
  destruct dto as [[n|] [d|] [v|] [c|] [q|]]; reflexivity.
Qed.


(** C6 (as amended). For an id that [getProductById] resolves to a valid
    product and a partial update whose provided fields are valid,
    [updateProduct] applies exactly the provided fields, leaves the others
    (and [id], [createdAt]) as they were, and returns the product, whether or
    not the repository accepts the save. [updatedAt] is the time the last
    mutator called read from the clock ([updateDetails], [updatePrice],
    [updateStock], one for each group of fields provided), and stays as it
    was when the update provides no field. For an id that resolves to no
    product [updateProduct] returns [null]. *)
Theorem updateProduct_sets_provided_fields (id : string) (dto : UpdateProductDto.t)
    (s s1 : State) :
  (forall existing p,
     ProductService.getProductById productRepository id s = (Ok (Some existing), s1) ->
     heap s1 !! existing = Some p ->
     Product_check p = Ok tt ->
     mocks_allocated s1 ->
     keeps_instances (ProductRepository.save productRepository existing) ->
     valid_update dto ->
     exists s2 p',
       ProductService.updateProduct productRepository id dto s = (Ok (Some existing), s2)
       /\ heap s2 !! existing = Some p'
       /\ updated_by dto p p'
       /\ _updatedAt p' = updatedAt_after dto (world s1) p)
  /\ (ProductService.getProductById productRepository id s = (Ok None, s1) ->
      ProductService.updateProduct productRepository id dto s = (Ok None, s1)).
Proof.
  split.
  - intros existing p Hget Hp Hchk Hm Hkeep Hdto.
    assert (Hname : Js.blank (_name p) = false).
    { unfold Product_check in Hchk.
      destruct (negb (Js.truthy_string (_id p))); [discriminate Hchk|].
      now destruct (Js.blank (_name p)). }
    rewrite updateProduct_steps, try_rethrow, (bind_Ok _ _ _ _ _ Hget).
    destruct (details_step_valid existing dto p s1 Hp Hname
                (valid_update_details dto Hdto)) as (sa & Ea & Ra & Wa).
    destruct (rewrites_lookup _ _ _ _ _ Hp Ra) as (Hpa & _ & _).
    pose proof (rewrites_allocated _ _ _ _ _ Hp Ra Hm) as Hma.
    destruct Hdto as (_ & _ & _ & Hv & Hq).
    destruct (price_step_valid existing dto _ sa Hpa Hv) as (sb & Eb & Rb & Wb).
    destruct (rewrites_lookup _ _ _ _ _ Hpa Rb) as (Hpb & _ & _).
    pose proof (rewrites_allocated _ _ _ _ _ Hpa Rb Hma) as Hmb.
    destruct (stock_step_valid existing dto _ sb Hpb Hq) as (sc & Ec & Rc & _).
    destruct (rewrites_lookup _ _ _ _ _ Hpb Rc) as (Hpc & _ & _).
    pose proof (rewrites_allocated _ _ _ _ _ Hpb Rc Hmb) as Hmc.
    destruct (save_step_run id existing _ sc Hkeep Hpc Hmc) as (sd & Ed & Hpd).
    rewrite (bind_Ok _ _ _ _ _ Ea), (bind_Ok _ _ _ _ _ Eb), (bind_Ok _ _ _ _ _ Ec),
      (bind_Ok _ _ _ _ _ Ed).
    eexists _, _. split; [reflexivity|]. split; [exact Hpd|].
    split; [apply updated_by_steps|].
    rewrite Wb, Wa. apply updatedAt_steps.
  - intros Hget. rewrite updateProduct_steps, try_rethrow. now rewrite (bind_Ok _ _ _ _ _ Hget).
Qed.

End ServiceUpdate.

(** ** ApiProductRepository keeps the instances *)

Section RepositoryKeeps.
Context `{RT : Runtime}.

Lemma keeps_ret {A} (a : A) : keeps_instances (ret a).
Proof. intros s. now split. Qed.

Lemma keeps_throw {A} (e : JsError) : keeps_instances (@throw _ A e).
Proof. intros s. now split. Qed.

Lemma keeps_lift {A} (r : Res A) : keeps_instances (lift r).
Proof. intros s. now split. Qed.

Lemma keeps_bind {A B} (m : M A) (f : A -> M B) :
  keeps_instances m -> (forall a, keeps_instances (f a)) -> keeps_instances (bind m f).
Proof.
  intros Hm Hf s. unfold bind. specialize (Hm s).
  destruct (m s) as [[a|e] s1]; simpl in Hm; [|exact Hm].
  specialize (Hf a s1). destruct Hm as [Hm1 Hm2], Hf as [Hf1 Hf2].
  split; [congruence|]. intros r p Hr. now apply Hf2, Hm2.
Qed.

Lemma keeps_try {A} (m : M A) (h : JsError -> M A) :
  keeps_instances m -> (forall e, keeps_instances (h e)) ->
  keeps_instances (try_catch m h).
Proof.
  intros Hm Hh s. unfold try_catch. specialize (Hm s).
  destruct (m s) as [[a|e] s1]; simpl in Hm; [exact Hm|].
  specialize (Hh e s1). destruct Hm as [Hm1 Hm2], Hh as [Hh1 Hh2].
  split; [congruence|]. intros r p Hr. now apply Hh2, Hm2.
Qed.

Lemma keeps_world {A} (m : M A) :
  (forall s, exists w, snd (m s) = with_world s w) -> keeps_instances m.
Proof. intros H s. destruct (H s) as [w ->]. now split. Qed.

Lemma keeps_newDate : keeps_instances newDate.
Proof. apply keeps_world. intros s. rewrite newDate_run. now eexists. Qed.

Lemma keeps_await_fetch (req : Fetch.Request) : keeps_instances (await_fetch req).
Proof. apply keeps_world. intros s. rewrite await_fetch_run. now eexists. Qed.

Lemma keeps_toISOString (d : Date) : keeps_instances (toISOString d).
Proof. destruct d; [apply keeps_throw|apply keeps_ret]. Qed.

Lemma keeps_load (r : ref) : keeps_instances (load r).
Proof. intros s. unfold load. now destruct (heap s !! r). Qed.

Lemma keeps_new id name description price category stockQuantity createdAt updatedAt :
  keeps_instances (Product.new id name description price category stockQuantity
                     createdAt updatedAt).
Proof.
  intros s.
  destruct (new_run id name description price category stockQuantity createdAt
              updatedAt s) as (w & c & u & _ & _ & _ & E).
  cbv zeta in E. rewrite E. simpl. split; [reflexivity|].
  intros r p Hr. now apply lookup_app_l_Some.
Qed.

Lemma keeps_date_or_now (o : option string) : keeps_instances (Product.date_or_now o).
Proof.
  unfold Product.date_or_now. destruct o as [str|]; [destruct (Js.truthy_string str)|];
    first [apply keeps_ret | apply keeps_newDate].
Qed.

Lemma keeps_fromPrimitives (data : ProductData.t) :
  keeps_instances (Product.fromPrimitives data).
Proof.
  unfold Product.fromPrimitives.
  apply keeps_bind; [apply keeps_lift|intros category].
  apply keeps_bind; [apply keeps_date_or_now|intros createdAt].
  apply keeps_bind; [apply keeps_date_or_now|intros updatedAt].
  apply keeps_new.
Qed.

Lemma keeps_toPrimitives (this : ref) : keeps_instances (Product.toPrimitives this).
Proof.
  unfold Product.toPrimitives.
  apply keeps_bind; [apply keeps_load|intros p].
  apply keeps_bind; [apply keeps_toISOString|intros createdAt].
  apply keeps_bind; [apply keeps_toISOString|intros updatedAt].
  apply keeps_ret.
Qed.

Lemma keeps_read {A} (field : ProductObject -> A) (this : ref) :
  keeps_instances (Product.read field this).
Proof.
  unfold Product.read. apply keeps_bind; [apply keeps_load|intros p; apply keeps_ret].
Qed.

Lemma keeps_findById (this : ApiProductRepository.t) (id : string) :
  keeps_instances (ApiProductRepository.findById this id).
Proof.
  unfold ApiProductRepository.findById.
  apply keeps_try; [|intros e; apply keeps_bind; intros; apply keeps_ret].
  apply keeps_bind; [apply keeps_await_fetch|intros response].
  destruct (negb (Fetch.ok response)).
  - destruct (Fetch.status response =? 404)%Z; [apply keeps_ret|apply keeps_throw].
  - apply keeps_bind; [apply keeps_lift|intros data].
    apply keeps_bind; [|intros; apply keeps_ret].
    destruct data; [apply keeps_fromPrimitives|apply keeps_throw].
Qed.

(** [save] allocates at most the instance its [findById] builds: the
    [mockProducts] array and the instances that exist stay as they are. *)
Lemma keeps_save (this : ApiProductRepository.t) (product : ref) :
  keeps_instances (ApiProductRepository.save this product).
Proof.
  unfold ApiProductRepository.save.
  apply keeps_try; [|intros e; apply keeps_bind; intros; [apply keeps_ret|apply keeps_throw]].
  apply keeps_bind; [apply keeps_read|intros id].
  apply keeps_bind; [apply keeps_findById|intros existing].
  apply keeps_bind.
  - destruct (String.eqb _ _); [|apply keeps_ret].
    apply keeps_bind; [apply keeps_read|intros; apply keeps_ret].
  - intros url. apply keeps_bind; [apply keeps_toPrimitives|intros dto].
    apply keeps_bind; [apply keeps_await_fetch|intros response].
    destruct (negb (Fetch.ok response)); [apply keeps_throw|apply keeps_ret].
Qed.

End RepositoryKeeps.

(** ** ApiProductRepository: requests that are not answered ok *)

Section RepositoryWrites.
Context `{RT : Runtime}.

(** A read whose request is not answered ok returns [fallback]: by its own
    [return] on a 404 where the method has one, through the [catch]
    otherwise. *)
Lemma not_ok_read_swallowed {A} (req : Fetch.Request) (label : string)
    (k : Fetch.Response -> M A) (has404 : bool) (fallback : A)
    (log : string) (s : State) :
  not_ok (fst (fetch req (world s))) ->
  try_catch
    (response <- await_fetch req ;;
     if negb (Fetch.ok response) then
       if has404 && (Fetch.status response =? 404)%Z then ret fallback
       else throw (Error (label ++ Fetch.statusText response))
     else k response)
    (fun error => console_error log error ;; ret fallback) s
  = (Ok fallback, with_world s (snd (fetch req (world s)))).
Proof.
  intros Hf. unfold try_catch, bind at 1. rewrite await_fetch_run.
  destruct (fst (fetch req (world s))) as [e|r]; [reflexivity|].
  simpl in Hf. rewrite Hf. simpl negb. cbv iota.
  destruct (has404 && (Fetch.status r =? 404)%Z); reflexivity.
Qed.

Lemma save_run (this : ApiProductRepository.t) (product : ref)
    (p : ProductObject) (c u : Z) (found : option ref) (s s1 : State) :
  heap s !! product = Some p ->
  _createdAt p = TimeValue c -> _updatedAt p = TimeValue u ->
  ApiProductRepository.findById this (_id p) s = (Ok found, s1) ->
  ApiProductRepository.save this product s
  = (response <- await_fetch
                   (save_request this
                      match found with Some _ => true | None => false end
                      (record_of p c u)) ;;
     if negb (Fetch.ok response) then
       throw (Error ("Failed to save product: " ++ Fetch.statusText response))
     else ret tt) s1.
Proof.
  intros Hp Hc Hu Hfind. unfold ApiProductRepository.save. rewrite try_rethrow.
  unfold Product.id. rewrite (bind_Ok _ _ _ _ _ (read_Some _ _ _ _ Hp)).
  rewrite (bind_Ok _ _ _ _ _ Hfind).
  assert (Hp1 : heap s1 !! product = Some p).
  { destruct (keeps_findById this (_id p) s) as [_ Hk]. rewrite Hfind in Hk.
    now apply Hk. }
  destruct found as [existing|].
  - change (String.eqb "PUT" "PUT") with true. cbv iota.
    rewrite (bind_Ok _ _ _ _ _ (bind_Ok _ _ _ _ _ (read_Some _ _ _ _ Hp1))).
    unfold ret at 1. unfold bind at 1.
    rewrite (toPrimitives_run _ _ _ Hp1), Hc, Hu. reflexivity.
  - change (String.eqb "POST" "PUT") with false. cbv iota.
    unfold bind at 1, ret at 1. unfold bind at 1.
    rewrite (toPrimitives_run _ _ _ Hp1), Hc, Hu. reflexivity.
Qed.

Lemma write_not_ok (req : Fetch.Request) (label : string) (s : State) :
  not_ok (fst (fetch req (world s))) ->
  (response <- await_fetch req ;;
   if negb (Fetch.ok response) then
     throw (Error (label ++ Fetch.statusText response))
   else ret tt) s
  = (Throw (failure_of label (fst (fetch req (world s)))),
     with_world s (snd (fetch req (world s)))).
Proof.
  intros Hf. unfold bind. rewrite await_fetch_run.
  destruct (fst (fetch req (world s))) as [e|r]; [reflexivity|].
  simpl in Hf. now rewrite Hf.
Qed.

Lemma write_ok (req : Fetch.Request) (label : string) (r : Fetch.Response) (s : State) :
  fst (fetch req (world s)) = Fetch.Resolved r -> Fetch.ok r = true ->
  (response <- await_fetch req ;;
   if negb (Fetch.ok response) then
     throw (Error (label ++ Fetch.statusText response))
   else ret tt) s
  = (Ok tt, with_world s (snd (fetch req (world s)))).
Proof.
  intros Hr Hok. unfold bind. rewrite await_fetch_run, Hr. now rewrite Hok.
Qed.

(** C3 (as amended). When the request an operation sends is not answered ok
    ([fetch] rejects, or resolves to a response that is not ok, a 404
    included), [findById] returns [null] and [findAll] and [findByCategory]
    return an empty array: the failure is logged and hidden from the caller.
    [delete] throws the transport's error or "Failed to delete product: "
    with the status text. [save] throws the transport's error or "Failed to
    save product: " with the status text when its PUT or POST is not answered
    ok; the failure of the lookup it starts with is hidden like every
    [findById] failure: [save] then sends a POST, and returns normally when
    that one is answered ok. *)
Theorem transport_failure_by_operation (this : ApiProductRepository.t) (s : State) :
  let after req := with_world s (snd (fetch req (world s))) in
  (forall id,
     let req := Fetch.GET (ApiProductRepository.endpoint this ++ "/" ++ id) in
     not_ok (fst (fetch req (world s))) ->
     ApiProductRepository.findById this id s = (Ok None, after req))
  /\ (let req := Fetch.GET (ApiProductRepository.endpoint this) in
      not_ok (fst (fetch req (world s))) ->
      ApiProductRepository.findAll this s = (Ok [], after req))
  /\ (forall category,
        let req := Fetch.GET (ApiProductRepository.endpoint this ++ "?category="
                              ++ ProductCategory.value category) in
        not_ok (fst (fetch req (world s))) ->
        ApiProductRepository.findByCategory this category s = (Ok [], after req))
  /\ (forall id,
        let req := {| Fetch.method := "DELETE";
                      Fetch.url := ApiProductRepository.endpoint this ++ "/" ++ id;
                      Fetch.headers := [];
                      Fetch.body := None |} in
        not_ok (fst (fetch req (world s))) ->
        ApiProductRepository.delete this id s
        = (Throw (failure_of "Failed to delete product: " (fst (fetch req (world s)))),
           after req))
  /\ (forall product p c u found s1,
        heap s !! product = Some p ->
        _createdAt p = TimeValue c -> _updatedAt p = TimeValue u ->
        ApiProductRepository.findById this (_id p) s = (Ok found, s1) ->
        let req := save_request this
                     match found with Some _ => true | None => false end
                     (record_of p c u) in
        not_ok (fst (fetch req (world s1))) ->
        ApiProductRepository.save this product s
        = (Throw (failure_of "Failed to save product: " (fst (fetch req (world s1)))),
           with_world s1 (snd (fetch req (world s1)))))
  /\ (forall product p c u response,
        heap s !! product = Some p ->
        _createdAt p = TimeValue c -> _updatedAt p = TimeValue u ->
        let lookup := Fetch.GET (ApiProductRepository.endpoint this ++ "/" ++ _id p) in
        let req := save_request this false (record_of p c u) in
        not_ok (fst (fetch lookup (world s))) ->
        fst (fetch req (snd (fetch lookup (world s)))) = Fetch.Resolved response ->
        Fetch.ok response = true ->
        ApiProductRepository.save this product s
        = (Ok tt, with_world s (snd (fetch req (snd (fetch lookup (world s))))))).
Proof.
  intros after.
  assert (Hfind : forall id,
    let req := Fetch.GET (ApiProductRepository.endpoint this ++ "/" ++ id) in
    not_ok (fst (fetch req (world s))) ->
    ApiProductRepository.findById this id s = (Ok None, after req)).
  { intros id req Hf. unfold ApiProductRepository.findById.
    pose proof (not_ok_read_swallowed req "Failed to fetch product: "
                  (fun response => data <- ApiProductRepository.response_json response ;;
                                   product <- ApiProductRepository.product_of_json data ;;
                                   ret (Some product))
                  true None "Error fetching product:" s Hf) as E.
    exact E. }
  split; [exact Hfind|]. split; [|split; [|split; [|split]]].
  - intros req Hf. unfold ApiProductRepository.findAll.
    exact (not_ok_read_swallowed req "Failed to fetch products: " _ false [] _ s Hf).
  - intros category req Hf. unfold ApiProductRepository.findByCategory.
    exact (not_ok_read_swallowed req "Failed to fetch products by category: " _ false []
             _ s Hf).
  - intros id req Hf. unfold ApiProductRepository.delete. rewrite try_rethrow.
    exact (write_not_ok req "Failed to delete product: " s Hf).
  - intros product p c u found s1 Hp Hc Hu Hfound req Hf.
    rewrite (save_run this product p c u found s s1 Hp Hc Hu Hfound).
    exact (write_not_ok req "Failed to save product: " s1 Hf).
  - intros product p c u response Hp Hc Hu lookup req Hf Hr Hok.
    rewrite (save_run this product p c u None s _ Hp Hc Hu (Hfind (_id p) Hf)).
    exact (write_ok req "Failed to save product: " response (after lookup) Hr Hok).
Qed.

End RepositoryWrites.

(** ** POST /api/products *)

Section ProductsRouteProperties.
Context `{RT : Runtime}.

Lemma create_run (id name : string) (description : Js.value) (price : number)
    (category : ProductCategory.t) (stockQuantity : option number) (s : State) :
  let t1 := fst (Date_now (world s)) in
  let w1 := snd (Date_now (world s)) in
  let t2 := fst (Date_now w1) in
  let p := new_object id name description price category
             (default 0%float stockQuantity) (TimeValue t1) (TimeValue t2) in
  Product.create id name description price category stockQuantity s
  = (match Product_check p with
     | Ok _ => Ok (length (heap s))
     | Throw e => Throw e
     end, with_heap (with_world s (snd (Date_now w1))) (heap s ++ [p])).
Proof.
  intros t1 w1 t2 p. unfold Product.create, Product.new.
  assert (Hst : forall k : number -> M ref,
     (x <- Product.or_default stockQuantity (ret 0%float) ;; k x) s
     = k (default 0%float stockQuantity) s).
  { intros k. destruct stockQuantity; reflexivity. }
  rewrite Hst. cbn [Product.or_default].
  unfold bind at 1. rewrite newDate_run. unfold bind at 1. rewrite newDate_run.
  cbn [world with_world].
  unfold bind at 1.
  subst p t2 w1 t1. unfold new_object.
  match goal with |- context [alloc ?q ?st] => destruct (alloc_run q st) as [Ea Hl] end.
  rewrite Ea. unfold bind at 1. rewrite (validateProduct_run _ _ _ Hl). unfold lift.
  match goal with |- context [Product_check ?q] => destruct (Product_check q) end;
    reflexivity.
Qed.

Lemma findById_total (this : ApiProductRepository.t) (id : string) (s : State) :
  exists o s', ApiProductRepository.findById this id s = (Ok o, s').
Proof.
  unfold ApiProductRepository.findById, try_catch.
  match goal with |- context [let (_, _) := ?m s in _] => destruct (m s) as [[o|e] s'] end;
    eexists _, _; reflexivity.
Qed.










End ProductsRouteProperties.

(** ** The auth routes: two stores *)

Section AuthProperties.
Context `{RT : Runtime}.

Lemma login_store_bind {A B} (m : M A) (f : A -> M B) :
  keeps_login_store m -> (forall a, keeps_login_store (f a)) ->
  keeps_login_store (bind m f).
Proof.
  intros Hm Hf s. unfold bind. specialize (Hm s).
  destruct (m s) as [[a|e] s1]; simpl in Hm; [|exact Hm].
  now rewrite (Hf a s1).
Qed.

Lemma login_store_try {A} (m : M A) (h : JsError -> M A) :
  keeps_login_store m -> (forall e, keeps_login_store (h e)) ->
  keeps_login_store (try_catch m h).
Proof.
  intros Hm Hh s. unfold try_catch. specialize (Hm s).
  destruct (m s) as [[a|e] s1]; simpl in Hm; [exact Hm|].
  now rewrite (Hh e s1).
Qed.

Lemma login_store_pure {A} (m : M A) :
  (forall s, snd (m s) = s) -> keeps_login_store m.
Proof. intros H s. now rewrite H. Qed.

Lemma login_store_newDate : keeps_login_store newDate.
Proof. intros s. now rewrite newDate_run. Qed.

Lemma login_store_or_default {A} (o : option A) (dflt : M A) :
  keeps_login_store dflt -> keeps_login_store (Product.or_default o dflt).
Proof. intros H. destruct o; [now apply login_store_pure|exact H]. Qed.

Lemma login_store_toISOString (d : Date) : keeps_login_store (toISOString d).
Proof. destruct d; now apply login_store_pure. Qed.

Lemma register_keeps_login_store (request_json : Res RegisterRoute.Body) :
  keeps_login_store (RegisterRoute.POST request_json).
Proof.
  assert (Hrefl : forall {A} (m : M A),
            (forall s, login_mockUsers (snd (m s)) = login_mockUsers s) ->
            keeps_login_store m) by (intros A m H; exact H).
  unfold RegisterRoute.POST.
  apply login_store_try;
    [|intros e; apply login_store_bind; intros; apply Hrefl; reflexivity].
  apply login_store_bind; [apply Hrefl; reflexivity|intros body].
  apply login_store_bind; [apply Hrefl; reflexivity|intros users].
  destruct (existsb _ users); [apply Hrefl; reflexivity|].
  apply login_store_bind.
  { intros s. unfold crypto_randomUUID. now destruct (randomUUID (world s)). }
  intros id. apply login_store_bind.
  { unfold User.create, User.new.
    apply login_store_bind;
      [apply login_store_or_default; apply Hrefl; reflexivity|intros role].
    apply login_store_bind; [apply login_store_or_default, login_store_newDate|].
    intros createdAt.
    apply login_store_bind; [apply login_store_or_default, login_store_newDate|].
    intros updatedAt.
    apply login_store_bind; intros; apply Hrefl; reflexivity. }
  intros user. apply login_store_bind; [apply Hrefl; reflexivity|intros users'].
  apply login_store_bind; [apply Hrefl; reflexivity|intros _].
  apply login_store_bind; [|intros; apply Hrefl; reflexivity].
  unfold User.toPrimitives.
  apply login_store_bind; [apply login_store_toISOString|intros c].
  apply login_store_bind; [apply login_store_toISOString|intros u].
  apply Hrefl; reflexivity.
Qed.

Lemma register_all_keeps_login_store (requests : list (Res RegisterRoute.Body))
    (s : State) :
  login_mockUsers (register_all requests s) = login_mockUsers s.
Proof.
  revert s. induction requests as [|r rest IH]; intros s; simpl; [reflexivity|].
  now rewrite IH, register_keeps_login_store.
Qed.

(** C10. The login route reads its own [mockUsers] array, which the register
    route never writes: after any series of registration requests the array is
    what it was, and, holding only john@example.com, it makes a login with any
    other email (registered or not) and any password answer 401
    "Invalid credentials". *)
Theorem registration_never_enables_login (requests : list (Res RegisterRoute.Body))
    (s : State) (email : string) (password : option string) :
  (exists createdAt updatedAt,
     login_mockUsers s
     = [mkLoginUser "1" "john@example.com" "password123" "John Doe" "user"
          createdAt updatedAt]) ->
  email <> "john@example.com" ->
  login_mockUsers (register_all requests s) = login_mockUsers s
  /\ LoginRoute.POST (Ok (LoginRoute.mkBody (Some email) password))
       (register_all requests s)
     = (Ok (Http.json (Http.ErrorJson "Invalid credentials" None) (Some 401%Z)),
        register_all requests s).
Proof.
  intros (c & u & Hstore) Hne.
  pose proof (register_all_keeps_login_store requests s) as Hkeep.
  split; [exact Hkeep|].
  unfold LoginRoute.POST, try_catch, bind at 1, lift.
  unfold bind at 1, get_login_mockUsers. rewrite Hkeep, Hstore.
  cbn [List.find strict_eq login_email LoginRoute.email].
  assert (E : String.eqb "john@example.com" email = false).
  { apply String_eqb_neq. congruence. }
  now rewrite E.
Qed.

End AuthProperties.

(** * The properties on concrete inputs *)

Section OfflineExamples.
Import Scenario.
Local Existing Instance Simulated.offline.

Lemma offline_transport_down : transport_down (RT := Simulated.offline).
Proof. intros req w. exact I. Qed.

Lemma inStock_always_derived_witness :
  (forall p, In p (heap offline_start) -> inStock_derived p)
  /\ exists p, heap (perform_all (RT := Simulated.offline) phone_calls offline_start)
               !! 0%nat = Some p
               /\ _stockQuantity p = 0%float
               /\ _inStock p = Js.gt (_stockQuantity p) 0%float.
Proof.
  split; [intros p []|].
  eexists. split; [vm_compute; reflexivity|]. split; [reflexivity|].
  apply (inStock_always_derived (RT := Simulated.offline) phone_calls offline_start
           (fun p (H : In p []) => match H with end) 0%nat).
  vm_compute; reflexivity.
Defined.

Lemma updateStock_negative_throws_unchanged_witness :
  Js.lt (-1)%float 0%float = true
  /\ Product.updateStock (RT := Simulated.offline) 0%nat (-1)%float with_phone
     = (Throw (Error "Stock quantity cannot be negative"), with_phone).
Proof.
  split; [reflexivity|].
  apply (updateStock_negative_throws_unchanged (RT := Simulated.offline)).
  reflexivity.
Defined.

Lemma float_neq (x y : number) : Prim2SF x <> Prim2SF y -> x <> y.
Proof. intros H E. apply H. now rewrite E. Qed.


Lemma fromPrimitives_toPrimitives_roundtrip_witness :
  exists dto s1,
    Product.toPrimitives (RT := Simulated.offline) 0%nat with_phone_updated
    = (Ok dto, with_phone_updated)
    /\ ProductDto.name dto = "Phone 2"
    /\ ProductDto.price dto = 899%float
    /\ ProductDto.inStock dto = false
    /\ Product.fromPrimitives (ProductData.of_dto dto) with_phone_updated = (Ok 1%nat, s1)
    /\ Product.toPrimitives 1%nat s1 = (Ok dto, s1).
Proof.
  assert (Hto : Product.toPrimitives (RT := Simulated.offline) 0%nat with_phone_updated
                = (Ok (ProductDto.mk "1" "Phone 2" "" 899%float "electronics" false
                         0%float "2024-01-01T00:00:00.000Z" "2024-01-01T00:00:00.004Z"),
                   with_phone_updated)) by (vm_compute; reflexivity).
  destruct (fromPrimitives_toPrimitives_roundtrip (RT := Simulated.offline)
              0%nat _ "electronics" _ with_phone_updated with_phone_updated
              ltac:(vm_compute; reflexivity) ltac:(vm_compute; reflexivity)
              ltac:(vm_compute; reflexivity) ltac:(vm_compute; reflexivity) Hto
              ltac:(apply float_neq; vm_compute; discriminate)
              ltac:(apply float_neq; vm_compute; discriminate)
              ltac:(split; [reflexivity|eexists; split; [vm_compute; reflexivity|vm_compute; reflexivity]])
              ltac:(split; [reflexivity|eexists; split; [vm_compute; reflexivity|vm_compute; reflexivity]]))
    as (that & s1 & q & Hfrom & Hnew & _ & _ & _ & _ & _ & _ & _ & _ & _ & Hback).
  assert (that = 1%nat) as ->.
  { vm_compute in Hfrom. now injection Hfrom as <- _. }
  eexists _, s1. split; [exact Hto|]. split; [reflexivity|]. split; [reflexivity|].
  split; [reflexivity|]. split; [exact Hfrom|exact Hback].
Defined.

(** C2, as stated, fails on a stock quantity of NaN, which the constructor
    accepts ([NaN < 0] is false): [fromPrimitives] reads it back as 0. *)
Lemma roundtrip_loses_NaN_stock :
  exists this s dto that s1 dto',
    ProductCategory.new "electronics" = Ok electronics
    /\ Product.new (RT := Simulated.offline) "1" "Phone" "" 999.99%float electronics
         (Some nan) None None offline_start = (Ok this, s)
    /\ Product.toPrimitives this s = (Ok dto, s)
    /\ Product.fromPrimitives (ProductData.of_dto dto) s = (Ok that, s1)
    /\ Product.toPrimitives that s1 = (Ok dto', s1)
    /\ ProductDto.stockQuantity dto = nan
    /\ ProductDto.stockQuantity dto' = 0%float
    /\ dto' <> dto.
Proof.
  eexists _, _, _, _, _, _.
  split; [vm_compute; reflexivity|]. split; [vm_compute; reflexivity|].
  split; [vm_compute; reflexivity|]. split; [vm_compute; reflexivity|].
  split; [vm_compute; reflexivity|]. split; [reflexivity|]. split; [reflexivity|].
  intros H. apply (f_equal ProductDto.stockQuantity) in H.
  apply (f_equal Prim2SF) in H. vm_compute in H. discriminate H.
Qed.

Lemma transport_failure_by_operation_witness :
  ApiProductRepository.findAll (RT := Simulated.offline)
    (ApiProductRepository.new None) offline_start = (Ok [], offline_start)
  /\ ApiProductRepository.delete (RT := Scenario.not_found_server)
       (ApiProductRepository.new None) "1" with_phone
     = (Throw (Error "Failed to delete product: Not Found"), with_phone)
  /\ ApiProductRepository.save (RT := Scenario.not_found_server)
       (ApiProductRepository.new None) 0%nat with_phone
     = (Throw (Error "Failed to save product: Not Found"), with_phone)
  /\ ApiProductRepository.save (RT := Scenario.empty_server)
       (ApiProductRepository.new_with_base (Some ProductsRoute.MOCK_API_URL)) 0%nat
       with_phone
     = (Ok tt, with_phone).
Proof.
  split; [|split; [|split]].
  - exact (proj1 (proj2 (transport_failure_by_operation (RT := Simulated.offline)
                           (ApiProductRepository.new None) offline_start)) I).
  - exact (proj1 (proj2 (proj2 (proj2
             (transport_failure_by_operation (RT := Scenario.not_found_server)
                (ApiProductRepository.new None) with_phone)))) "1" eq_refl).
  - refine (proj1 (proj2 (proj2 (proj2 (proj2
              (transport_failure_by_operation (RT := Scenario.not_found_server)
                 (ApiProductRepository.new None) with_phone)))))
              0%nat _ 1704067200000%Z 1704067200001%Z None with_phone
              _ _ _ _ _); vm_compute; reflexivity.
  - refine (proj2 (proj2 (proj2 (proj2 (proj2
              (transport_failure_by_operation (RT := Scenario.empty_server)
                 (ApiProductRepository.new_with_base (Some ProductsRoute.MOCK_API_URL))
                 with_phone)))))
              0%nat _ 1704067200000%Z 1704067200001%Z _ _ _ _ _ _ _);
      vm_compute; reflexivity.
Defined.

(** C3, as stated, fails: with the network down, [findAll] returns an empty
    array and [findById] returns [null]; the caller sees no error. *)
Lemma find_hides_transport_failure :
  fetch (Runtime := Simulated.offline)
    (Fetch.GET (ApiProductRepository.endpoint (ApiProductRepository.new None)))
    (world offline_start)
  = (Fetch.Rejected (TypeError "fetch failed"), world offline_start)
  /\ ApiProductRepository.findAll (RT := Simulated.offline)
       (ApiProductRepository.new None) offline_start = (Ok [], offline_start)
  /\ ApiProductRepository.findById (RT := Simulated.offline)
       (ApiProductRepository.new None) "1" offline_start = (Ok None, offline_start).
Proof. repeat split; vm_compute; reflexivity. Qed.




Lemma updateProduct_sets_provided_fields_witness :
  exists s2 p',
    ProductService.updateProduct repository "1"
      (UpdateProductDto.mk None None (Some 10%float) None (Some 0%float)) with_service
    = (Ok (Some 0%nat), s2)
    /\ heap s2 !! 0%nat = Some p'
    /\ _name p' = "Smartphone" /\ _price p' = 10%float
    /\ _stockQuantity p' = 0%float /\ _inStock p' = false
    /\ _updatedAt p' = TimeValue (world with_service + 1).
Proof.
  assert (Hget : ProductService.getProductById repository "1" with_service
                 = (Ok (Some 0%nat), with_service)) by (vm_compute; reflexivity).
  assert (Hp : exists p, heap with_service !! 0%nat = Some p
                         /\ Product_check p = Ok tt /\ _name p = "Smartphone").
  { eexists. split; [vm_compute; reflexivity|]. split; vm_compute; reflexivity. }
  destruct Hp as (p & Hp & Hchk & Hname).
  assert (Hm : mocks_allocated with_service).
  { unfold mocks_allocated.
    change (mockProducts with_service) with [0; 1; 2; 3; 4]%nat.
    repeat (apply Forall_cons; split; [eexists; vm_compute; reflexivity|]).
    apply Forall_nil_2. }
  assert (Hdto : valid_update
                   (UpdateProductDto.mk None None (Some 10%float) None (Some 0%float))).
  { repeat split; intros ? [=]; subst; vm_compute; reflexivity. }
  destruct (proj1 (updateProduct_sets_provided_fields (RT := Simulated.offline)
                     repository "1"
                     (UpdateProductDto.mk None None (Some 10%float) None (Some 0%float))
                     with_service with_service)
              0%nat p Hget Hp Hchk Hm
              (keeps_save (RT := Simulated.offline) (ApiProductRepository.new None) 0%nat)
              Hdto)
    as (s2 & p' & E & Hp' & (_ & _ & Hn & _ & _ & Hpr & Hq & Hs & _) & Hu).
  exists s2, p'. split; [exact E|]. split; [exact Hp'|].
  split; [now rewrite Hn|]. split; [exact Hpr|]. split; [exact Hq|].
  split; [rewrite Hs; vm_compute; reflexivity|]. rewrite Hu. reflexivity.
Defined.

(** C6, as stated, fails: an update of an existing product that carries a
    negative price throws instead of returning the updated product. *)
Lemma updateProduct_throws_on_negative_price :
  ProductService.getProductById repository "1" with_service
  = (Ok (Some 0%nat), with_service)
  /\ ProductService.updateProduct repository "1"
       (UpdateProductDto.mk None None (Some (-1)%float) None None) with_service
     = (Throw (Error "Price cannot be negative"), with_service).
Proof. split; vm_compute; reflexivity. Qed.

(** An empty description is present in the update and is not applied. *)
Lemma updateProduct_ignores_empty_description :
  exists s2 p',
    ProductService.updateProduct repository "1"
      (UpdateProductDto.mk None (Some (Js.JString "")) None None None) with_service
    = (Ok (Some 0%nat), s2)
    /\ heap s2 !! 0%nat = Some p'
    /\ _description p' = "A high-end smartphone with the latest features".
Proof.
  eexists _, _. split; [vm_compute; reflexivity|].
  split; [vm_compute; reflexivity|reflexivity].
Qed.

Lemma registration_never_enables_login_witness :
  In "ann@example.com"
     (map user_email (register_mockUsers
                        (register_all (RT := Simulated.offline) [ann] with_auth)))
  /\ LoginRoute.POST (Ok (LoginRoute.mkBody (Some "ann@example.com") (Some "secret")))
       (register_all (RT := Simulated.offline) [ann] with_auth)
     = (Ok (Http.json (Http.ErrorJson "Invalid credentials" None) (Some 401%Z)),
        register_all (RT := Simulated.offline) [ann] with_auth).
Proof.
  split; [vm_compute; left; reflexivity|].
  apply (registration_never_enables_login (RT := Simulated.offline) [ann] with_auth
           "ann@example.com" (Some "secret")).
  - eexists _, _. vm_compute; reflexivity.
  - discriminate.
Defined.
End OfflineExamples.

Section AcceptingExamples.
Import Scenario.



(** A price of 0 is present in the body and the handler still answers 400. *)
Lemma POST_answers_400_on_price_zero :
  ProductsRoute.POST (RT := Simulated.accepting)
    (Ok (Js.JObject [ ("name", Js.JString "Phone"); ("price", Js.JNumber 0%float);
                      ("category", Js.JString "electronics") ])) accepting_start
  = (Ok (Http.json (Http.ErrorJson "Missing required fields" None) (Some 400%Z)),
     accepting_start).
Proof. vm_compute; reflexivity. Qed.

(** A name of white space only (here U+00A0 and U+2028) is blank: 500. *)
Lemma POST_answers_500_on_blank_name :
  fst (ProductsRoute.POST (RT := empty_server)
         (Ok (Js.JObject [ ("name", Js.JString (String 160%N (String 8232%N "")));
                           ("price", Js.JNumber 10%float);
                           ("category", Js.JString "books") ])) empty_start)
  = Ok (Http.json
          (Http.ErrorJson "Failed to create product"
             (Some "Product name cannot be empty"))
          (Some 500%Z)).
Proof. vm_compute; reflexivity. Qed.

End AcceptingExamples.

(** * Further properties *)

(** ** Value objects: equality and canonical values *)

Lemma ProductCategory_new_Ok (a : string) (ca : ProductCategory.t) :
  ProductCategory.new a = Ok ca ->
  ca = ProductCategory.mk (Js.toLowerCase a)
  /\ In (Js.toLowerCase a) ProductCategory.VALID_CATEGORIES.
Proof.
  intros H. destruct (ProductCategory_new_cases a) as [[HIn E]|[_ [msg [E _]]]];
    rewrite E in H; [|discriminate H].
  injection H as <-. now split.
Qed.

(** X1. Two categories the constructor made are [equals] exactly when the
    strings they were made from match up to letter case, and exactly when they
    are the same category. The value of such a category is one of the ten
    lower-case names, [toString] returns it, and constructing a category from
    it gives the category back. *)
Theorem ProductCategory_equals_same_category (a b : string)
    (ca cb : ProductCategory.t) :
  ProductCategory.new a = Ok ca -> ProductCategory.new b = Ok cb ->
  ProductCategory.equals ca cb = ProductCategory.matches_ignoring_case a b
  /\ (ProductCategory.equals ca cb = true <-> ca = cb)
  /\ In (ProductCategory.value ca) ProductCategory.VALID_CATEGORIES
  /\ ProductCategory.toString ca = ProductCategory.value ca
  /\ ProductCategory.new (ProductCategory.value ca) = Ok ca.
Proof.
  intros Ha Hb. pose proof (ProductCategory_new_value _ _ Ha) as Hback.
  destruct (ProductCategory_new_Ok _ _ Ha) as [-> HIn].
  destruct (ProductCategory_new_Ok _ _ Hb) as [-> HInb].
  split; [|split; [|split; [exact HIn|split; [reflexivity|exact Hback]]]].
  - unfold ProductCategory.equals, ProductCategory.value. simpl.
    pose proof (proj1 (toLowerCase_small a _ (VALID_CATEGORIES_small _ HIn)) eq_refl)
      as Ea.
    pose proof (proj1 (toLowerCase_small b _ (VALID_CATEGORIES_small _ HInb)) eq_refl)
      as Eb.
    destruct (ProductCategory.matches_ignoring_case a b) eqn:E.
    + apply matches_ignoring_case_spec in E. rewrite Ea, Eb in E. rewrite E.
      apply String_eqb_refl.
    + apply String_eqb_neq. intros H.
      assert (E' : ProductCategory.matches_ignoring_case a b = true).
      { apply matches_ignoring_case_spec. now rewrite Ea, Eb. }
      congruence.
  - unfold ProductCategory.equals, ProductCategory.value. simpl.
    rewrite String_eqb_eq. split; [intros ->; reflexivity|intros [= H]; exact H].
Qed.

Lemma Rating_new_Ok (x : number) (r : Rating.t) :
  Rating.new x = Ok r -> In x [1; 2; 3; 4; 5]%float /\ r = Rating.mk x.
Proof.
  unfold Rating.new, Rating.validateRating, Rating.MIN_RATING, Rating.MAX_RATING.
  destruct (Js.Number_isInteger x) eqn:Hi; simpl negb; cbv iota; [|discriminate].
  destruct (Js.lt x 1%float) eqn:H1; simpl orb; cbv iota; [discriminate|].
  destruct (Js.gt x 5%float) eqn:H5; [discriminate|].
  intros [= <-]. split; [now apply Rating_range|reflexivity].
Qed.

(** X2. Two ratings the constructor made are [equals] exactly when they are the
    same rating, that is when they were made from the same number. *)
Theorem Rating_equals_same_value (x y : number) (r1 r2 : Rating.t) :
  Rating.new x = Ok r1 -> Rating.new y = Ok r2 ->
  (Rating.equals r1 r2 = true <-> r1 = r2)
  /\ (Rating.equals r1 r2 = true <-> x = y).
Proof.
  intros H1 H2.
  destruct (Rating_new_Ok _ _ H1) as [Hx ->], (Rating_new_Ok _ _ H2) as [Hy ->].
  unfold Rating.equals, Rating.value. simpl Rating._value.
  assert (E : PrimFloat.eqb x y = true <-> x = y).
  { simpl in Hx, Hy.
    destruct Hx as [<-|[<-|[<-|[<-|[<-|[]]]]]];
      destruct Hy as [<-|[<-|[<-|[<-|[<-|[]]]]]];
      first [ split; reflexivity
            | split; intros H;
              [vm_compute in H; discriminate H
              |apply (f_equal Prim2SF) in H; vm_compute in H; discriminate H] ]. }
  split; [|exact E]. rewrite E. split; [intros ->; reflexivity|intros [= H]; exact H].
Qed.

(** ** Product: the constructor and the mutators *)

Section ProductEntity.
Context `{RT : Runtime}.

Lemma Product_check_Ok (p : ProductObject) :
  Product_check p = Ok tt <->
  Js.truthy_string (_id p) = true /\ Js.blank (_name p) = false
  /\ Js.lt (_price p) 0%float = false /\ Js.lt (_stockQuantity p) 0%float = false.
Proof.
  unfold Product_check.
  destruct (Js.truthy_string (_id p)); simpl negb; cbv iota;
    [|split; [discriminate|intros [H _]; discriminate H]].
  destruct (Js.blank (_name p));
    [split; [discriminate|intros (_ & H & _); discriminate H]|].
  destruct (Js.lt (_price p) 0%float);
    [split; [discriminate|intros (_ & _ & H & _); discriminate H]|].
  destruct (Js.lt (_stockQuantity p) 0%float);
    [split; [discriminate|intros (_ & _ & _ & H); discriminate H]|].
  now split.
Qed.

(** X3. The constructor checks its arguments in a fixed order and throws the
    error of the first check that fails: the id (not empty), the name (not
    blank: not empty and not made of white space only), the price, the stock
    quantity (0 when it is not given). When all four pass it returns a new
    instance that holds the arguments, with [inStock] computed from the stock
    quantity. White space is that of [String.prototype.trim]: a name made of
    a no-break space (U+00A0), a line separator (U+2028) and a byte order mark
    (U+FEFF) is blank. *)
Theorem Product_new_validates_in_order (id name : string) (description : Js.value)
    (price : number) (category : ProductCategory.t) (stockQuantity : option number)
    (createdAt updatedAt : option Date) (s : State) :
  let q := default 0%float stockQuantity in
  let run := Product.new id name description price category stockQuantity
               createdAt updatedAt s in
  (Js.truthy_string id = false -> fst run = Throw (Error "Product ID is required"))
  /\ (Js.truthy_string id = true -> Js.blank name = true ->
      fst run = Throw (Error "Product name cannot be empty"))
  /\ (Js.truthy_string id = true -> Js.blank name = false ->
      Js.lt price 0%float = true ->
      fst run = Throw (Error "Price cannot be negative"))
  /\ (Js.truthy_string id = true -> Js.blank name = false ->
      Js.lt price 0%float = false -> Js.lt q 0%float = true ->
      fst run = Throw (Error "Stock quantity cannot be negative"))
  /\ (Js.truthy_string id = true -> Js.blank name = false ->
      Js.lt price 0%float = false -> Js.lt q 0%float = false ->
      exists p,
        fst run = Ok (length (heap s))
        /\ heap (snd run) !! length (heap s) = Some p
        /\ (forall r, (r < length (heap s))%nat -> heap (snd run) !! r = heap s !! r)
        /\ _id p = id /\ _name p = name /\ _description p = description
        /\ _price p = price /\ _category p = category
        /\ _stockQuantity p = q /\ _inStock p = Js.gt q 0%float
        /\ (forall d, createdAt = Some d -> _createdAt p = d)
        /\ (forall d, updatedAt = Some d -> _updatedAt p = d))
  /\ (Js.truthy_string id = true ->
      fst (Product.new id (String 160%N (String 8232%N (String 65279%N "")))
             description price category stockQuantity createdAt updatedAt s)
      = Throw (Error "Product name cannot be empty")).
Proof.
  intros q run.
  assert (Hspaces : Js.truthy_string id = true ->
            fst (Product.new id (String 160%N (String 8232%N (String 65279%N "")))
                   description price category stockQuantity createdAt updatedAt s)
            = Throw (Error "Product name cannot be empty")).
  { intros Hid.
    destruct (new_run id (String 160%N (String 8232%N (String 65279%N "")))
                description price category stockQuantity
                createdAt updatedAt s) as (w & c & u & _ & _ & _ & E).
    cbv zeta in E. rewrite E. cbn [fst].
    unfold Product_check, new_object. cbn [_id _name]. now rewrite Hid. }
  destruct (new_run id name description price category stockQuantity
              createdAt updatedAt s) as (w & c & u & Hc & Hu & _ & E).
  cbv zeta in E. fold q in E. subst run. rewrite E. cbn [fst snd].
  unfold Product_check, new_object. cbn [_id _name _price _stockQuantity].
  split; [intros ->; reflexivity|].
  split; [intros -> ->; reflexivity|].
  split; [intros -> -> ->; reflexivity|].
  split; [intros -> -> -> ->; reflexivity|].
  split; [|exact Hspaces]. clear Hspaces.
  intros -> -> -> ->. simpl negb. cbv iota.
  eexists. split; [reflexivity|]. cbn [heap with_heap].
  split; [rewrite lookup_app_r by lia; now rewrite Nat.sub_diag|].
  split; [intros r Hr; now apply lookup_app_l|].
  cbn. repeat split; auto.
Qed.

Lemma perform_keeps_valid (c : ProductCall) (s : State) (this : ref)
    (p : ProductObject) :
  heap s !! this = Some p -> Product_check p = Ok tt ->
  exists p', heap (snd (perform c s)) !! this = Some p'
             /\ Product_check p' = Ok tt
             /\ _id p' = _id p /\ _createdAt p' = _createdAt p.
Proof.
  intros Hp Hchk.
  assert (Hsame : forall s' : State, heap s' !! this = Some p ->
            exists p', heap s' !! this = Some p' /\ Product_check p' = Ok tt
                       /\ _id p' = _id p /\ _createdAt p' = _createdAt p).
  { intros s' H. exists p. now repeat split. }
  destruct c; simpl perform; rewrite ?snd_discard.
  - apply Hsame. now apply keeps_new.
  - apply Hsame. now apply keeps_new.
  - apply Hsame. now apply keeps_fromPrimitives.
  - apply Hsame. now apply keeps_toPrimitives.
  - apply Hsame. now apply keeps_read.
  - destruct (heap s !! this0) as [p0|] eqn:E0;
      [|rewrite (proj1 (mutators_dangling _ _ E0)); now apply Hsame].
    destruct (Js.lt quantity 0%float) eqn:Hq;
      [unfold Product.updateStock; rewrite Hq; now apply Hsame|].
    rewrite (updateStock_run _ _ _ _ E0 Hq). cbn [snd].
    destruct (Nat.eq_dec this0 this) as [->|Hne];
      [|apply Hsame; rewrite heap_put_ne by exact Hne; exact Hp].
    rewrite Hp in E0. injection E0 as <-.
    eexists. split; [apply (heap_put _ _ p); exact Hp|].
    split; [|split; reflexivity].
    apply Product_check_Ok. apply Product_check_Ok in Hchk.
    destruct Hchk as (H1 & H2 & H3 & _). cbn. now repeat split.
  - destruct (heap s !! this0) as [p0|] eqn:E0;
      [|rewrite (proj1 (proj2 (mutators_dangling _ _ E0))); now apply Hsame].
    destruct (Js.lt price 0%float) eqn:Hq;
      [unfold Product.updatePrice; rewrite Hq; now apply Hsame|].
    rewrite (updatePrice_run _ _ _ _ E0 Hq). cbn [snd].
    destruct (Nat.eq_dec this0 this) as [->|Hne];
      [|apply Hsame; rewrite heap_put_ne by exact Hne; exact Hp].
    rewrite Hp in E0. injection E0 as <-.
    eexists. split; [apply (heap_put _ _ p); exact Hp|].
    split; [|split; reflexivity].
    apply Product_check_Ok. apply Product_check_Ok in Hchk.
    destruct Hchk as (H1 & H2 & _ & H4). cbn. now repeat split.
  - destruct (heap s !! this0) as [p0|] eqn:E0;
      [|rewrite (proj2 (proj2 (mutators_dangling _ _ E0))); now apply Hsame].
    destruct (Js.blank name) eqn:Hq;
      [unfold Product.updateDetails; rewrite Hq; now apply Hsame|].
    rewrite (updateDetails_run _ _ _ _ _ _ E0 Hq). cbn [snd].
    destruct (Nat.eq_dec this0 this) as [->|Hne];
      [|apply Hsame; rewrite heap_put_ne by exact Hne; exact Hp].
    rewrite Hp in E0. injection E0 as <-.
    eexists. split; [apply (heap_put _ _ p); exact Hp|].
    split; [|split; reflexivity].
    apply Product_check_Ok. apply Product_check_Ok in Hchk.
    destruct Hchk as (H1 & _ & H3 & H4). cbn. now repeat split.
Qed.

(** X4. An instance that passes the constructor's checks keeps passing them,
    and keeps its id and its creation date, through any sequence of public
    operations on products (constructions, conversions, getters and the three
    mutators, on this or on other instances, failed calls included). *)
Theorem valid_products_stay_valid (calls : list ProductCall) (s : State)
    (this : ref) (p : ProductObject) :
  heap s !! this = Some p -> Product_check p = Ok tt ->
  exists p', heap (perform_all calls s) !! this = Some p'
             /\ Product_check p' = Ok tt
             /\ _id p' = _id p /\ _createdAt p' = _createdAt p.
Proof.
  revert s p. induction calls as [|c rest IH]; intros s p Hp Hchk; simpl.
  - exists p. now repeat split.
  - destruct (perform_keeps_valid c s this p Hp Hchk) as (p1 & Hp1 & Hchk1 & Hid1 & Hc1).
    destruct (IH _ _ Hp1 Hchk1) as (p' & Hp' & Hchk' & Hid' & Hc').
    exists p'. repeat split; [exact Hp'|exact Hchk'|congruence|congruence].
Qed.

(** X5. [updatePrice] with a negative price throws "Price cannot be negative"
    and changes nothing. With any other price (NaN included) it sets the price
    and stamps [updatedAt] with the current time; every other field of the
    instance, every other instance and the mock list stay as they were. *)
Theorem updatePrice_changes_price_only (this : ref) (price : number)
    (p : ProductObject) (s : State) :
  heap s !! this = Some p ->
  (Js.lt price 0%float = true ->
   Product.updatePrice this price s = (Throw (Error "Price cannot be negative"), s))
  /\ (Js.lt price 0%float = false ->
      exists s',
        Product.updatePrice this price s = (Ok tt, s')
        /\ heap s' !! this
           = Some (mkProduct (_id p) (_name p) (_description p) price (_category p)
                     (_inStock p) (_stockQuantity p) (_createdAt p)
                     (TimeValue (fst (Date_now (world s)))))
        /\ (forall r, r <> this -> heap s' !! r = heap s !! r)
        /\ length (heap s') = length (heap s)
        /\ mockProducts s' = mockProducts s).
Proof.
  intros Hp. split; intros Hq.
  - unfold Product.updatePrice. now rewrite Hq.
  - rewrite (updatePrice_run _ _ _ _ Hp Hq). eexists. split; [reflexivity|].
    split; [apply (heap_put _ _ p); exact Hp|].
    split; [intros r Hr; rewrite heap_put_ne by congruence; reflexivity|].
    split; [unfold put; simpl; apply length_insert|reflexivity].
Qed.

(** X6. [updateDetails] with an empty or blank name (white space only, that of
    [String.prototype.trim]: so a name made of U+00A0, U+2028 and U+FEFF)
    throws "Product name cannot be empty" and changes nothing. Otherwise it
    sets name, description and category and stamps [updatedAt]; the
    description is not checked (an empty one is stored), and id, price, stock,
    [inStock], [createdAt] and every other instance stay as they were. *)
Theorem updateDetails_changes_details_only (this : ref) (name : string)
    (description : Js.value)
    (category : ProductCategory.t) (p : ProductObject) (s : State) :
  heap s !! this = Some p ->
  (Js.blank name = true ->
   Product.updateDetails this name description category s
   = (Throw (Error "Product name cannot be empty"), s))
  /\ (Js.blank name = false ->
      exists s',
        Product.updateDetails this name description category s = (Ok tt, s')
        /\ heap s' !! this
           = Some (mkProduct (_id p) name description (_price p) category
                     (_inStock p) (_stockQuantity p) (_createdAt p)
                     (TimeValue (fst (Date_now (world s)))))
        /\ (forall r, r <> this -> heap s' !! r = heap s !! r)
        /\ length (heap s') = length (heap s)
        /\ mockProducts s' = mockProducts s)
  /\ Product.updateDetails this (String 160%N (String 8232%N (String 65279%N "")))
       description category s
     = (Throw (Error "Product name cannot be empty"), s).
Proof.
  intros Hp. split; [|split; [|reflexivity]]; intros Hq.
  - unfold Product.updateDetails. now rewrite Hq.
  - rewrite (updateDetails_run _ _ _ _ _ _ Hp Hq). eexists. split; [reflexivity|].
    split; [apply (heap_put _ _ p); exact Hp|].
    split; [intros r Hr; rewrite heap_put_ne by congruence; reflexivity|].
    split; [unfold put; simpl; apply length_insert|reflexivity].
Qed.

End ProductEntity.

(** ** Product: records that lack fields *)

Section ProductFromData.
Context `{RT : Runtime}.

Lemma date_or_now_eq (o : option string) (s : State) :
  Product.date_or_now o s
  = match o with
    | Some str => if Js.truthy_string str then (Ok (Date_parse str), s) else newDate s
    | None => newDate s
    end.
Proof. destruct o as [str|]; [simpl; destruct (Js.truthy_string str)|]; reflexivity. Qed.

Lemma or_zero_not_negative (o : option number) :
  (forall q, o = Some q -> Js.lt q 0%float = false) ->
  Js.lt (Product.or_zero o) 0%float = false.
Proof.
  intros H. unfold Product.or_zero. destruct o as [q|]; [|reflexivity].
  destruct (Js.truthy_number q); [now apply H|reflexivity].
Qed.

(** X7. [fromPrimitives] on a record whose category, id, name, price and stock
    pass the checks returns a new instance. A stock quantity that is missing
    or falsy (0, NaN) becomes 0 and the product is out of stock; a timestamp
    that is missing or empty becomes the current time; a timestamp string is
    read with [new Date(string)] without being checked, and when it is no date
    the instance is still returned and its [toPrimitives] throws a
    RangeError. *)
Theorem fromPrimitives_defaults (data : ProductData.t) (category : ProductCategory.t)
    (s : State) :
  ProductCategory.new (ProductData.category data) = Ok category ->
  Js.truthy_string (ProductData.id data) = true ->
  Js.blank (ProductData.name data) = false ->
  Js.lt (ProductData.price data) 0%float = false ->
  (forall q, ProductData.stockQuantity data = Some q -> Js.lt q 0%float = false) ->
  exists this s' p,
    Product.fromPrimitives data s = (Ok this, s')
    /\ heap s' !! this = Some p
    /\ heap s !! this = None
    /\ _category p = category
    /\ (ProductData.stockQuantity data = None ->
        _stockQuantity p = 0%float /\ _inStock p = false)
    /\ (forall q, ProductData.stockQuantity data = Some q ->
          Js.truthy_number q = false ->
          _stockQuantity p = 0%float /\ _inStock p = false)
    /\ (forall q, ProductData.stockQuantity data = Some q ->
          Js.truthy_number q = true ->
          _stockQuantity p = q /\ _inStock p = Js.gt q 0%float)
    /\ (forall str, ProductData.createdAt data = Some str ->
          Js.truthy_string str = true -> _createdAt p = Date_parse str)
    /\ (ProductData.createdAt data = None \/ ProductData.createdAt data = Some "" ->
        _createdAt p = TimeValue (fst (Date_now (world s))))
    /\ (forall str, ProductData.updatedAt data = Some str ->
          Js.truthy_string str = true -> _updatedAt p = Date_parse str)
    /\ (_createdAt p = InvalidDate \/ _updatedAt p = InvalidDate ->
        Product.toPrimitives this s' = (Throw (RangeError "Invalid time value"), s')).
Proof.
  intros Hcat Hid Hname Hprice Hstock.
  pose proof (or_zero_not_negative _ Hstock) as Hq.
  unfold Product.fromPrimitives. unfold bind at 1, lift. rewrite Hcat.
  assert (Hc : exists c w1,
            Product.date_or_now (ProductData.createdAt data) s = (Ok c, with_world s w1)
            /\ (forall str, ProductData.createdAt data = Some str ->
                  Js.truthy_string str = true -> c = Date_parse str)
            /\ (ProductData.createdAt data = None
                \/ ProductData.createdAt data = Some "" ->
                c = TimeValue (fst (Date_now (world s))))).
  { rewrite date_or_now_eq.
    destruct (ProductData.createdAt data) as [str|];
      [destruct (Js.truthy_string str) eqn:Ht|].
    - exists (Date_parse str), (world s). split; [now destruct s|].
      split; [now intros ? [= <-]|].
      intros [H|H]; [discriminate H|]. injection H as ->. discriminate Ht.
    - rewrite newDate_run. eexists _, _. split; [reflexivity|].
      split; [intros ? [= <-]; congruence|reflexivity].
    - rewrite newDate_run. eexists _, _. split; [reflexivity|].
      split; [discriminate|reflexivity]. }
  destruct Hc as (c & w1 & Ec & Hc1 & Hc2).
  unfold bind at 1. rewrite Ec.
  assert (Hu : exists u w2,
            Product.date_or_now (ProductData.updatedAt data) (with_world s w1)
            = (Ok u, with_world s w2)
            /\ (forall str, ProductData.updatedAt data = Some str ->
                  Js.truthy_string str = true -> u = Date_parse str)).
  { rewrite date_or_now_eq.
    destruct (ProductData.updatedAt data) as [str|];
      [destruct (Js.truthy_string str) eqn:Ht|].
    - exists (Date_parse str), w1. split; [reflexivity|]. now intros ? [= <-].
    - rewrite newDate_run. eexists _, _. split; [reflexivity|].
      intros ? [= <-]; congruence.
    - rewrite newDate_run. eexists _, _. split; [reflexivity|]. discriminate. }
  destruct Hu as (u & w2 & Eu & Hu1).
  unfold bind at 1. rewrite Eu.
  destruct (new_run (ProductData.id data) (ProductData.name data)
              (ProductData.description data) (ProductData.price data) category
              (Some (Product.or_zero (ProductData.stockQuantity data)))
              (Some c) (Some u) (with_world s w2))
    as (w & c' & u' & Hc' & Hu' & _ & E).
  cbv zeta in E. rewrite (Hc' _ eq_refl), (Hu' _ eq_refl) in E.
  cbn [default] in E.
  match type of E with context [Product_check ?q] =>
    assert (Hchk : Product_check q = Ok tt)
  end.
  { apply Product_check_Ok. cbn. now repeat split. }
  rewrite Hchk in E. rewrite E.
  match type of Hchk with Product_check ?q = _ => set (p := q) in * end.
  assert (Hl : heap (with_heap (with_world (with_world s w2) w)
                       (heap (with_world s w2) ++ [p]))
               !! length (heap (with_world s w2)) = Some p).
  { cbn [heap with_heap with_world]. rewrite lookup_app_r by lia.
    now rewrite Nat.sub_diag. }
  eexists _, _, p. split; [reflexivity|]. split; [exact Hl|].
  split; [apply lookup_ge_None; cbn; lia|].
  split; [reflexivity|].
  split; [intros H; subst p; cbn; rewrite H; now split|].
  split; [intros q0 H Ht; subst p; cbn; rewrite H; cbn; rewrite Ht; now split|].
  split; [intros q0 H Ht; subst p; cbn; rewrite H; cbn; rewrite Ht; now split|].
  split; [exact Hc1|]. split; [exact Hc2|]. split; [exact Hu1|].
  intros Hinv. rewrite (toPrimitives_run _ _ _ Hl).
  subst p. cbn [new_object _createdAt _updatedAt] in Hinv |- *.
  destruct Hinv as [-> | ->]; [reflexivity|]. now destruct c.
Qed.

End ProductFromData.

(** ** ApiProductRepository: what the reads return *)

Section RepositoryReads.
Context `{RT : Runtime}.

Lemma fromPrimitives_accepted (d : ProductData.t) (s : State) :
  accepted_data d = true ->
  exists w p,
    Product.fromPrimitives d s
    = (Ok (length (heap s)), with_heap (with_world s w) (heap s ++ [p]))
    /\ holds_data d p.
Proof.
  unfold accepted_data.
  destruct (ProductCategory.new (ProductData.category d)) as [cat|e] eqn:Hcat;
    [|discriminate].
  rewrite !andb_true_iff, !negb_true_iff. intros [[[Hid Hname] Hprice] Hq].
  unfold Product.fromPrimitives. unfold bind at 1, lift. rewrite Hcat.
  destruct (date_or_now_run (ProductData.createdAt d) s) as (c & w1 & E1 & _).
  unfold bind at 1. rewrite E1.
  destruct (date_or_now_run (ProductData.updatedAt d) (with_world s w1))
    as (u & w2 & E2 & _).
  unfold bind at 1. rewrite E2.
  destruct (new_run (ProductData.id d) (ProductData.name d)
              (ProductData.description d) (ProductData.price d) cat
              (Some (Product.or_zero (ProductData.stockQuantity d)))
              (Some c) (Some u) (with_world (with_world s w1) w2))
    as (w & c' & u' & Hc & Hu & _ & E).
  cbv zeta in E. rewrite (Hc _ eq_refl), (Hu _ eq_refl) in E. cbn [default] in E.
  match type of E with context [Product_check ?q] =>
    assert (Hchk : Product_check q = Ok tt)
  end.
  { apply Product_check_Ok. cbn. now repeat split. }
  rewrite Hchk in E. rewrite E. eexists w, _. split; [reflexivity|].
  destruct (accepted_truthy _ _ Hcat) as [_ ->].
  unfold holds_data. cbn. now repeat split.
Qed.

Lemma fromPrimitives_rejected (d : ProductData.t) (s : State) :
  accepted_data d = false ->
  exists e s', Product.fromPrimitives d s = (Throw e, s').
Proof.
  unfold accepted_data, Product.fromPrimitives. unfold bind at 1, lift.
  destruct (ProductCategory.new (ProductData.category d)) as [cat|e] eqn:Hcat;
    [|intros _; now eexists _, _].
  intros Hbad.
  destruct (date_or_now_run (ProductData.createdAt d) s) as (c & w1 & E1 & _).
  unfold bind at 1. rewrite E1.
  destruct (date_or_now_run (ProductData.updatedAt d) (with_world s w1))
    as (u & w2 & E2 & _).
  unfold bind at 1. rewrite E2.
  destruct (new_run (ProductData.id d) (ProductData.name d)
              (ProductData.description d) (ProductData.price d) cat
              (Some (Product.or_zero (ProductData.stockQuantity d)))
              (Some c) (Some u) (with_world (with_world s w1) w2))
    as (w & c' & u' & _ & _ & _ & E).
  cbv zeta in E. cbn [from_option id] in E. rewrite E.
  match goal with |- context [Product_check ?q] =>
    destruct (Product_check q) as [[]|e] eqn:Hchk
  end; [|now eexists _, _].
  exfalso. apply Product_check_Ok in Hchk.
  cbn [new_object _id _name _price _stockQuantity] in Hchk.
  destruct Hchk as (H1 & H2 & H3 & H4). now rewrite H1, H2, H3, H4 in Hbad.
Qed.

Lemma mapM_fromPrimitives_accepted (items : list ProductData.t) (s : State) :
  forallb accepted_data items = true ->
  exists w ps,
    mapM Product.fromPrimitives items s
    = (Ok (seq (length (heap s)) (length items)),
       with_heap (with_world s w) (heap s ++ ps))
    /\ Forall2 holds_data items ps.
Proof.
  revert s. induction items as [|d items IH]; intros s H; simpl.
  - exists (world s), []. split; [|constructor]. unfold ret. f_equal.
    destruct s; cbn. now rewrite app_nil_r.
  - apply andb_true_iff in H. destruct H as [Hd Hrest].
    destruct (fromPrimitives_accepted d s Hd) as (w & p & E & Hp).
    rewrite (bind_Ok _ _ _ _ _ E).
    destruct (IH (with_heap (with_world s w) (heap s ++ [p])) Hrest)
      as (w' & ps & E' & Hps).
    rewrite (bind_Ok _ _ _ _ _ E'). unfold ret.
    exists w', (p :: ps). split; [|now constructor].
    cbn [heap with_heap with_world world]. rewrite length_app. simpl length.
    rewrite Nat.add_1_r, <- app_assoc. reflexivity.
Qed.

Lemma mapM_fromPrimitives_rejected (items : list ProductData.t) (s : State) :
  forallb accepted_data items = false ->
  exists e s', mapM Product.fromPrimitives items s = (Throw e, s').
Proof.
  revert s. induction items as [|d items IH]; intros s H; simpl in H |- *;
    [discriminate H|].
  destruct (accepted_data d) eqn:Hd.
  - destruct (fromPrimitives_accepted d s Hd) as (w & p & E & _).
    rewrite (bind_Ok _ _ _ _ _ E).
    destruct (IH (with_heap (with_world s w) (heap s ++ [p])) H) as (e & s' & E').
    rewrite (bind_Throw _ _ _ _ _ E'). now eexists _, _.
  - destruct (fromPrimitives_rejected d s Hd) as (e & s' & E).
    rewrite (bind_Throw _ _ _ _ _ E). now eexists _, _.
Qed.

(** X8. [findAll] when the server answers ok with a list of records. If every
    record is one [fromPrimitives] accepts, the result is one new instance per
    record, in order, each holding its record's fields. If a single record is
    not (an unknown category, a blank name, a negative price), the result is
    the empty array: the valid records are dropped with it. *)
Theorem findAll_all_or_nothing (this : ApiProductRepository.t) (s : State)
    (r : Fetch.Response) (items : list ProductData.t) :
  fst (fetch (Fetch.GET (ApiProductRepository.endpoint this)) (world s))
  = Fetch.Resolved r ->
  Fetch.ok r = true -> Fetch.json r = Ok (Fetch.JProducts items) ->
  (forallb accepted_data items = true ->
   exists s' ps,
     ApiProductRepository.findAll this s
     = (Ok (seq (length (heap s)) (length items)), s')
     /\ heap s' = (heap s ++ ps)%list
     /\ Forall2 holds_data items ps
     /\ mockProducts s' = mockProducts s)
  /\ (forallb accepted_data items = false ->
      exists s', ApiProductRepository.findAll this s = (Ok [], s')).
Proof.
  intros Hf Hok Hjson. unfold ApiProductRepository.findAll.
  assert (Hresp : await_fetch (Fetch.GET (ApiProductRepository.endpoint this)) s
                  = (Ok r, with_world s
                             (snd (fetch (Fetch.GET (ApiProductRepository.endpoint this))
                                     (world s))))).
  { rewrite await_fetch_run. now rewrite Hf. }
  split; intros Hitems.
  - destruct (mapM_fromPrimitives_accepted items
                (with_world s (snd (fetch (Fetch.GET (ApiProductRepository.endpoint this))
                                      (world s)))) Hitems)
      as (w & ps & E & Hps).
    eexists _, ps. split.
    { apply try_Ok. rewrite (bind_Ok _ _ _ _ _ Hresp). rewrite Hok. simpl negb. cbv iota.
      unfold ApiProductRepository.response_json. unfold bind at 1, lift.
      rewrite Hjson. exact E. }
    split; [reflexivity|]. split; [exact Hps|reflexivity].
  - destruct (mapM_fromPrimitives_rejected items
                (with_world s (snd (fetch (Fetch.GET (ApiProductRepository.endpoint this))
                                      (world s)))) Hitems)
      as (e & s' & E).
    exists s'. erewrite try_Throw; [reflexivity|].
    rewrite (bind_Ok _ _ _ _ _ Hresp). rewrite Hok. simpl negb. cbv iota.
    unfold ApiProductRepository.response_json. unfold bind at 1, lift.
    rewrite Hjson. exact E.
Qed.

(** X9. [findById] returns a product exactly when the server answers ok with
    a record [fromPrimitives] accepts, and the product is then a new instance
    holding the record's fields. In every other case (the request is rejected,
    the status is 404 or any other failure, the body is no product record or is
    one the entity rejects) it returns [null]; it never throws. *)
Theorem findById_by_response (this : ApiProductRepository.t) (id : string)
    (s : State) :
  let answer := fst (fetch (Fetch.GET (ApiProductRepository.endpoint this ++ "/" ++ id))
                       (world s)) in
  (exists o s', ApiProductRepository.findById this id s = (Ok o, s'))
  /\ (forall r d,
        answer = Fetch.Resolved r -> Fetch.ok r = true ->
        Fetch.json r = Ok (Fetch.JProduct d) -> accepted_data d = true ->
        exists s' p,
          ApiProductRepository.findById this id s = (Ok (Some (length (heap s))), s')
          /\ heap s' = (heap s ++ [p])%list /\ holds_data d p)
  /\ (forall product s',
        ApiProductRepository.findById this id s = (Ok (Some product), s') ->
        exists r d,
          answer = Fetch.Resolved r /\ Fetch.ok r = true
          /\ Fetch.json r = Ok (Fetch.JProduct d) /\ accepted_data d = true).
Proof.
  intros answer. split; [apply findById_total|]. subst answer.
  unfold ApiProductRepository.findById.
  set (req := Fetch.GET (ApiProductRepository.endpoint this ++ "/" ++ id)).
  split.
  - intros r d Hf Hok Hjson Hd.
    destruct (fromPrimitives_accepted d (with_world s (snd (fetch req (world s)))) Hd)
      as (w & p & E & Hp).
    eexists _, p. split.
    { assert (Hresp : await_fetch req s
                      = (Ok r, with_world s (snd (fetch req (world s)))))
        by (rewrite await_fetch_run; now rewrite Hf).
      apply try_Ok. rewrite (bind_Ok _ _ _ _ _ Hresp). rewrite Hok.
      change (negb true) with false. cbv iota.
      unfold ApiProductRepository.response_json. unfold bind at 1, lift. rewrite Hjson.
      cbn [ApiProductRepository.product_of_json]. cbv beta. now rewrite (bind_Ok _ _ _ _ _ E). }
    split; [reflexivity|exact Hp].
  - intros product s' H. unfold try_catch in H.
    destruct (fst (fetch req (world s))) as [e|r] eqn:Hf.
    { assert (Hresp : await_fetch req s
                      = (Throw e, with_world s (snd (fetch req (world s)))))
        by (rewrite await_fetch_run; now rewrite Hf).
      rewrite (bind_Throw _ _ _ _ _ Hresp) in H. discriminate H. }
    assert (Hresp : await_fetch req s
                    = (Ok r, with_world s (snd (fetch req (world s)))))
      by (rewrite await_fetch_run; now rewrite Hf).
    rewrite (bind_Ok _ _ _ _ _ Hresp) in H.
    destruct (Fetch.ok r) eqn:Hok.
    + change (negb true) with false in H. cbv iota in H.
      unfold ApiProductRepository.response_json in H. unfold bind at 1, lift in H.
      destruct (Fetch.json r) as [[d|items]|e] eqn:Hjson;
        [|discriminate H|discriminate H].
      cbn [ApiProductRepository.product_of_json] in H.
      destruct (accepted_data d) eqn:Hd; [now exists r, d|].
      destruct (fromPrimitives_rejected d (with_world s (snd (fetch req (world s)))) Hd)
        as (e & s1 & E).
      rewrite (bind_Throw _ _ _ _ _ E) in H. discriminate H.
    + change (negb false) with true in H. cbv iota in H.
      destruct (Fetch.status r =? 404)%Z; discriminate H.
Qed.

Lemma keeps_mapM {A B} (f : A -> M B) (l : list A) :
  (forall a, keeps_instances (f a)) -> keeps_instances (mapM f l).
Proof.
  intros Hf. induction l as [|a l IH]; simpl; [apply keeps_ret|].
  apply keeps_bind; [apply Hf|intros b].
  apply keeps_bind; [exact IH|intros bs; apply keeps_ret].
Qed.

(** X10. No method of the repository changes a product that exists or the mock
    list: [findById], [findAll], [findByCategory] and [save] at most allocate
    new instances, and [delete] allocates nothing. *)
Theorem repository_keeps_instances (this : ApiProductRepository.t) :
  (forall id, keeps_instances (ApiProductRepository.findById this id))
  /\ keeps_instances (ApiProductRepository.findAll this)
  /\ (forall category, keeps_instances (ApiProductRepository.findByCategory this category))
  /\ (forall product, keeps_instances (ApiProductRepository.save this product))
  /\ (forall id s, heap (snd (ApiProductRepository.delete this id s)) = heap s
                   /\ mockProducts (snd (ApiProductRepository.delete this id s))
                      = mockProducts s).
Proof.
  assert (Hlist : forall data, keeps_instances (ApiProductRepository.products_of_json data)).
  { intros [d|items]; [apply keeps_throw|].
    apply keeps_mapM. intros d. apply keeps_fromPrimitives. }
  split; [intros id; apply keeps_findById|].
  split; [|split; [intros category|split; [intros product; apply keeps_save|]]].
  - unfold ApiProductRepository.findAll.
    apply keeps_try; [|intros e; apply keeps_bind; intros; apply keeps_ret].
    apply keeps_bind; [apply keeps_await_fetch|intros response].
    destruct (negb (Fetch.ok response)); [apply keeps_throw|].
    apply keeps_bind; [apply keeps_lift|exact Hlist].
  - unfold ApiProductRepository.findByCategory.
    apply keeps_try; [|intros e; apply keeps_bind; intros; apply keeps_ret].
    apply keeps_bind; [apply keeps_await_fetch|intros response].
    destruct (negb (Fetch.ok response)); [apply keeps_throw|].
    apply keeps_bind; [apply keeps_lift|exact Hlist].
  - intros id s. unfold ApiProductRepository.delete. rewrite try_rethrow.
    unfold bind. rewrite await_fetch_run.
    match goal with |- context [fst (fetch ?r ?w)] => destruct (fst (fetch r w)) as [e|r'] end;
      [now split|].
    destruct (negb (Fetch.ok r')); now split.
Qed.

(** X11. [save] looks the product up with [findById] and then sends one
    request carrying the product's record: a PUT to the product's URL when the
    lookup found it, a POST to the collection otherwise. It succeeds when the
    answer is ok and throws "Failed to save product: ..." or the transport's
    error otherwise. *)
Theorem save_puts_or_posts (this : ApiProductRepository.t) (product : ref)
    (p : ProductObject) (c u : Z) (found : option ref) (s s1 : State) :
  heap s !! product = Some p ->
  _createdAt p = TimeValue c -> _updatedAt p = TimeValue u ->
  ApiProductRepository.findById this (_id p) s = (Ok found, s1) ->
  ApiProductRepository.save this product s
  = (response <- await_fetch
                   (save_request this
                      match found with Some _ => true | None => false end
                      (record_of p c u)) ;;
     if negb (Fetch.ok response) then
       throw (Error ("Failed to save product: " ++ Fetch.statusText response))
     else ret tt) s1.
Proof.
  intros Hp Hc Hu Hfind. now apply save_run.
Qed.

End RepositoryReads.

(** ** ApiProductRepository: the two copies *)

Section RepositoryCopies.
Context `{RT : Runtime}.

Lemma append_empty (s : string) : s ++ "" = s.
Proof. induction s as [|a s IH]; simpl; [reflexivity|now rewrite IH]. Qed.

(** X12. Constructed with an absolute URL (one that starts with "http"), the
    two copies of [ApiProductRepository] are the same repository: each of the
    five methods sends the same requests and returns the same results. *)
Theorem repository_copies_agree_on_absolute_urls (url : string) :
  String.prefix "http" url = true ->
  ApiProductRepository.repository (ApiProductRepository.new_with_base (Some url))
  = ApiProductRepository.repository (ApiProductRepository.new (Some url)).
Proof.
  intros H. unfold ApiProductRepository.new_with_base, ApiProductRepository.new.
  cbn [from_option id]. rewrite H.
  unfold ApiProductRepository.repository, ApiProductRepository.save,
    ApiProductRepository.delete, ApiProductRepository.findByCategory,
    ApiProductRepository.findAll, ApiProductRepository.findById,
    ApiProductRepository.endpoint.
  cbn [ApiProductRepository.apiUrl ApiProductRepository.baseUrl].
  change ("" ++ url) with url. rewrite append_empty. reflexivity.
Qed.

End RepositoryCopies.

(** ** ProductService: the mock data behind a failing repository *)

Section ServiceFallback.
Context `{RT : Runtime}.

Lemma findM_by_id (id : string) (l : list ref) (s : State) :
  Forall (fun m => is_Some (heap s !! m)) l ->
  findM (fun p => pid <- Product.id p ;; ret (String.eqb pid id)) l s
  = (Ok (first_with_id (heap s) id l), s).
Proof.
  induction l as [|m l IH]; intros Hl; simpl; [reflexivity|].
  apply Forall_cons in Hl. destruct Hl as [[p Hp] Hl]. unfold Product.id.
  rewrite (bind_Ok _ _ _ _ _ (bind_Ok _ _ _ _ _ (read_Some _ _ _ _ Hp))).
  unfold ret at 1. unfold first_with_id. simpl. unfold has_id at 1. rewrite Hp.
  destruct (String.eqb (_id p) id); [reflexivity|now apply IH].
Qed.

Lemma filterM_by_field {A} (field : ProductObject -> A) (test : A -> bool)
    (l : list ref) (s : State) :
  Forall (fun m => is_Some (heap s !! m)) l ->
  filterM (fun p => v <- Product.read field p ;; ret (test v)) l s
  = (Ok (List.filter (fun r => match heap s !! r with
                               | Some p => test (field p)
                               | None => false
                               end) l), s).
Proof.
  induction l as [|m l IH]; intros Hl; simpl; [reflexivity|].
  apply Forall_cons in Hl. destruct Hl as [[p Hp] Hl].
  rewrite (bind_Ok _ _ _ _ _ (bind_Ok _ _ _ _ _ (read_Some _ _ _ _ Hp))).
  unfold ret at 1. rewrite (bind_Ok _ _ _ _ _ (IH Hl)). unfold ret. now rewrite Hp.
Qed.

Lemma find_mock_run (id : string) (s : State) :
  mocks_allocated s ->
  ProductService.find_mock id s
  = (Ok (first_with_id (heap s) id (mockProducts s)), s).
Proof.
  intros Hm. unfold ProductService.find_mock, get_mockProducts. unfold bind at 1.
  now apply findM_by_id.
Qed.

Lemma mocks_allocated_world (s : State) (w : World) :
  mocks_allocated s -> mocks_allocated (with_world s w).
Proof. intros H. exact H. Qed.

(** What [first_with_id] finds. *)
Lemma first_with_id_spec (h : list ProductObject) (id : string) (l : list ref) :
  match first_with_id h id l with
  | Some r => In r l /\ exists p, h !! r = Some p /\ _id p = id
  | None => forall r p, In r l -> h !! r = Some p -> _id p <> id
  end.
Proof.
  unfold first_with_id. destruct (List.find (has_id h id) l) as [r|] eqn:E.
  - apply find_some in E. destruct E as [HIn Hid]. split; [exact HIn|].
    unfold has_id in Hid. destruct (h !! r) as [p|]; [|discriminate Hid].
    exists p. split; [reflexivity|]. now apply String_eqb_eq.
  - intros r p HIn Hp Hid. pose proof (find_none _ _ E r HIn) as H.
    unfold has_id in H. rewrite Hp in H. apply String_eqb_neq in H. contradiction.
Qed.

(** X13. [getProductById] returns what the repository finds when it finds a
    product; when the repository finds none, or throws, it returns the first
    product of the mock list with that id, or [null] when the list has none.
    It never throws. *)
Theorem getProductById_falls_back_to_mock_data (productRepository : ProductRepository.t)
    (id : string) (s s1 : State) :
  (forall product,
     ProductRepository.findById productRepository id s = (Ok (Some product), s1) ->
     ProductService.getProductById productRepository id s = (Ok (Some product), s1))
  /\ (mocks_allocated s1 ->
      ProductRepository.findById productRepository id s = (Ok None, s1)
      \/ (exists e, ProductRepository.findById productRepository id s = (Throw e, s1)) ->
      ProductService.getProductById productRepository id s
      = (Ok (first_with_id (heap s1) id (mockProducts s1)), s1)
      /\ match first_with_id (heap s1) id (mockProducts s1) with
         | Some r => In r (mockProducts s1)
                     /\ exists p, heap s1 !! r = Some p /\ _id p = id
         | None => forall r p, In r (mockProducts s1) ->
                               heap s1 !! r = Some p -> _id p <> id
         end).
Proof.
  unfold ProductService.getProductById. split.
  - intros product H. apply try_Ok. now rewrite (bind_Ok _ _ _ _ _ H).
  - intros Hm H. split; [|apply first_with_id_spec].
    destruct H as [H|[e H]].
    + apply try_Ok. rewrite (bind_Ok _ _ _ _ _ H).
      now apply find_mock_run.
    + erewrite try_Throw by (apply bind_Throw; exact H).
      unfold console_error. unfold bind at 1, ret at 1.
      now apply find_mock_run.
Qed.

(** X14. With the transport down, the service over the API repository serves
    the mock list: [getProductById] gives the first mock product with the id,
    [getAllProducts] gives the whole list, and [getProductsByCategory], for a
    name the [ProductCategory] constructor accepts, gives the mock products of
    that category, whatever the letter case of the name. None of them throws
    or changes a product. *)
Theorem service_serves_mock_data_when_offline (this : ApiProductRepository.t)
    (s : State) :
  transport_down -> mocks_allocated s ->
  (forall id, exists w,
     ProductService.getProductById (ApiProductRepository.repository this) id s
     = (Ok (first_with_id (heap s) id (mockProducts s)), with_world s w))
  /\ (exists w,
        ProductService.getAllProducts (ApiProductRepository.repository this) s
        = (Ok (mockProducts s), with_world s w))
  /\ (forall name category,
        ProductCategory.new name = Ok category ->
        exists w,
          ProductService.getProductsByCategory (ApiProductRepository.repository this)
            name s
          = (Ok (List.filter (has_category (heap s) (Js.toLowerCase name))
                   (mockProducts s)), with_world s w)).
Proof.
  intros Hdown Hm. split; [|split].
  - intros id.
    exists (snd (fetch (Fetch.GET (ApiProductRepository.endpoint this ++ "/" ++ id))
                   (world s))).
    unfold ProductService.getProductById.
    apply try_Ok. cbn [ProductRepository.findById ApiProductRepository.repository].
    rewrite (bind_Ok _ _ _ _ _ (findById_failed this id s (Hdown _ _))).
    exact (find_mock_run id (with_world s _) Hm).
  - eexists. unfold ProductService.getAllProducts.
    apply try_Ok. cbn [ProductRepository.findAll ApiProductRepository.repository].
    rewrite (bind_Ok _ _ _ _ _ (findAll_failed this s (Hdown _ _))).
    reflexivity.
  - intros name category Hcat. eexists. unfold ProductService.getProductsByCategory.
    apply try_Ok. unfold bind at 1, lift. rewrite Hcat.
    cbn [ProductRepository.findByCategory ApiProductRepository.repository].
    erewrite bind_Ok.
    2:{ apply try_Ok.
        rewrite (bind_Ok _ _ _ _ _ (findByCategory_failed this category s (Hdown _ _))).
        reflexivity. }
    cbv iota. unfold get_mockProducts. unfold bind at 1.
    destruct (accepted_truthy _ _ Hcat) as [_ ->]. unfold Product.category.
    rewrite (filterM_by_field _category
               (fun c => String.eqb (ProductCategory.value c)
                           (ProductCategory.value
                              (ProductCategory.mk (Js.toLowerCase name))))).
    + reflexivity.
    + exact Hm.
Qed.

End ServiceFallback.

(** ** ProductService: the mock list as a store *)

Section ServiceStore.
Context `{RT : Runtime}.

Lemma find_snoc {A} (f : A -> bool) (l : list A) (x : A) :
  List.find f (l ++ [x])
  = match List.find f l with
    | Some y => Some y
    | None => if f x then Some x else None
    end.
Proof.
  induction l as [|a l IH]; simpl; [reflexivity|].
  destruct (f a); [reflexivity|exact IH].
Qed.

Lemma has_id_ext (h h' : list ProductObject) (id : string) (l : list ref) :
  Forall (fun r => is_Some (h !! r)) l ->
  (forall r p, h !! r = Some p -> h' !! r = Some p) ->
  Forall (fun r => has_id h' id r = has_id h id r) l.
Proof.
  intros Hl Hext. eapply Forall_impl; [exact Hl|].
  intros r [p Hp]. unfold has_id. now rewrite Hp, (Hext _ _ Hp).
Qed.

Lemma find_ext {A} (f g : A -> bool) (l : list A) :
  Forall (fun x => f x = g x) l -> List.find f l = List.find g l.
Proof.
  induction l as [|a l IH]; intros H; simpl; [reflexivity|].
  apply Forall_cons in H. destruct H as [Ha H]. rewrite Ha.
  destruct (g a); [reflexivity|now apply IH].
Qed.

Lemma filter_ext_Forall {A} (f g : A -> bool) (l : list A) :
  Forall (fun x => f x = g x) l -> List.filter f l = List.filter g l.
Proof.
  induction l as [|a l IH]; intros H; simpl; [reflexivity|].
  apply Forall_cons in H. destruct H as [Ha H]. now rewrite Ha, (IH H).
Qed.

Lemma find_filter_negb {A} (f : A -> bool) (l : list A) :
  List.find f (List.filter (fun x => negb (f x)) l) = None.
Proof.
  induction l as [|a l IH]; simpl; [reflexivity|].
  destruct (f a) eqn:E; simpl; [exact IH|]. now rewrite E.
Qed.

Lemma find_None_filter {A} (f : A -> bool) (l : list A) :
  List.find f l = None -> List.filter (fun x => negb (f x)) l = l.
Proof.
  induction l as [|a l IH]; simpl; [reflexivity|].
  destruct (f a) eqn:E; [discriminate|]. intros H.
  change (negb false) with true. cbv iota. now rewrite (IH H).
Qed.

Lemma getProductById_offline (this : ApiProductRepository.t) (id : string) (s : State) :
  transport_down -> mocks_allocated s ->
  ProductService.getProductById (ApiProductRepository.repository this) id s
  = (Ok (first_with_id (heap s) id (mockProducts s)),
     with_world s (snd (fetch (Fetch.GET (ApiProductRepository.endpoint this
                                          ++ "/" ++ id)) (world s)))).
Proof.
  intros Hdown Hm. unfold ProductService.getProductById.
  apply try_Ok. cbn [ProductRepository.findById ApiProductRepository.repository].
  rewrite (bind_Ok _ _ _ _ _ (findById_failed this id s (Hdown _ _))).
  exact (find_mock_run id (with_world s _) Hm).
Qed.

(** X15. [new ProductService(repository)] never fails and loads the mock list
    with five new products, with the ids "1" to "5" in this order, three in
    the category electronics and two in clothing, every one valid and in
    stock. *)
Theorem ProductService_new_loads_five_products (s : State) :
  exists s1 ps,
    ProductService.new s = (Ok tt, s1)
    /\ heap s1 = (heap s ++ ps)%list
    /\ mockProducts s1 = seq (length (heap s)) 5
    /\ map _id ps = ["1"; "2"; "3"; "4"; "5"]
    /\ map (fun p => ProductCategory.value (_category p)) ps
       = ["electronics"; "electronics"; "electronics"; "clothing"; "clothing"]
    /\ Forall (fun p => Product_check p = Ok tt /\ _inStock p = true) ps
    /\ mocks_allocated s1.
Proof.
  unfold ProductService.new, ProductService.initializeMockData, set_mockProducts.
  unfold bind at 1. cbn [lift].
  change (ProductCategory.new "electronics")
    with (Ok (A := ProductCategory.t) (ProductCategory.mk "electronics")).
  change (ProductCategory.new "clothing")
    with (Ok (A := ProductCategory.t) (ProductCategory.mk "clothing")).
  unfold lift.
  repeat (unfold bind at 1; cbv iota; unfold bind at 1; rewrite create_run;
          cbv zeta;
          match goal with |- context [Product_check ?q] =>
            replace (Product_check q) with (Ok (A := unit) tt) by reflexivity
          end).
  eexists _, _. split; [reflexivity|].
  cbn [heap with_heap with_world with_mockProducts mockProducts world].
  split; [rewrite <- !app_assoc; simpl app; reflexivity|].
  rewrite !length_app. simpl length.
  split; [simpl seq; repeat f_equal; lia|].
  split; [reflexivity|]. split; [reflexivity|].
  split; [repeat (constructor; [split; reflexivity|]); constructor|].
  unfold mocks_allocated.
  cbn [heap with_heap with_world with_mockProducts mockProducts world].
  repeat (apply Forall_cons; split;
          [apply lookup_lt_is_Some; rewrite ?length_app; simpl; lia|]).
  apply Forall_nil_2.
Qed.

(** X16. With the transport down, [createProduct] with a given id and valid
    data returns a new product and appends it to the mock list, without
    checking whether the id is taken. A later [getProductById] with that id
    returns the new product when no earlier mock product had the id, and the
    earlier one when there was one. *)
Theorem created_product_is_found_when_offline (this : ApiProductRepository.t)
    (dto : CreateProductDto.t) (id : string) (category : ProductCategory.t)
    (s : State) :
  transport_down -> mocks_allocated s ->
  CreateProductDto.id dto = Some id -> Js.truthy_string id = true ->
  ProductCategory.new (CreateProductDto.category dto) = Ok category ->
  Js.blank (CreateProductDto.name dto) = false ->
  Js.lt (CreateProductDto.price dto) 0%float = false ->
  Js.lt (default 0%float (CreateProductDto.stockQuantity dto)) 0%float = false ->
  exists product s1 p,
    ProductService.createProduct (ApiProductRepository.repository this) dto s
    = (Ok product, s1)
    /\ heap s !! product = None
    /\ heap s1 !! product = Some p
    /\ _id p = id /\ _name p = CreateProductDto.name dto
    /\ _price p = CreateProductDto.price dto /\ _category p = category
    /\ mockProducts s1 = (mockProducts s ++ [product])%list
    /\ (forall r q, heap s !! r = Some q -> heap s1 !! r = Some q)
    /\ mocks_allocated s1
    /\ exists w,
         ProductService.getProductById (ApiProductRepository.repository this) id s1
         = (Ok (Some (default product
                        (first_with_id (heap s) id (mockProducts s)))),
            with_world s1 w).
Proof.
  intros Hdown Hm Hid Ht Hcat Hname Hprice Hq.
  unfold ProductService.createProduct. rewrite try_rethrow.
  unfold bind at 1, lift. rewrite Hcat. rewrite Hid.
  destruct (or_else_id (Some id) s) as (w & E & _). rewrite Ht in E.
  rewrite (bind_Ok _ _ _ _ _ E).
  pose proof (create_run id (CreateProductDto.name dto)
                (CreateProductDto.description dto) (CreateProductDto.price dto)
                category (CreateProductDto.stockQuantity dto) (with_world s w)) as Ec.
  cbv zeta in Ec.
  match type of Ec with context [Product_check ?q] =>
    assert (Hchk : Product_check q = Ok tt)
      by (apply Product_check_Ok; cbn [new_object _id _name _price _stockQuantity];
          now repeat split);
    set (p := q) in *
  end.
  rewrite Hchk in Ec. rewrite (bind_Ok _ _ _ _ _ Ec).
  match type of Ec with _ = (_, ?st) => set (s' := st) in * end.
  set (product := length (heap (with_world s w))) in *.
  assert (Hp' : heap s' !! product = Some p).
  { subst s' product. cbn [heap with_heap with_world].
    rewrite lookup_app_r by lia. now rewrite Nat.sub_diag. }
  assert (Hold' : forall r q, heap s !! r = Some q -> heap s' !! r = Some q).
  { intros r q Hr. subst s'. cbn [heap with_heap with_world].
    now apply lookup_app_l_Some. }
  destruct (save_failed this product s' Hdown) as (e & s'' & Es).
  destruct (keeps_save this product s') as [Hkm Hkh]. rewrite Es in Hkm, Hkh.
  cbn [snd] in Hkm, Hkh.
  cbn [ProductRepository.save ApiProductRepository.repository].
  erewrite bind_Ok by (erewrite try_Throw by exact Es; reflexivity).
  unfold ret.
  set (s1 := with_mockProducts s'' (mockProducts s'' ++ [product])).
  assert (Hall : mocks_allocated s1).
  { unfold mocks_allocated. subst s1. cbn [mockProducts heap with_mockProducts].
    apply Forall_app. split.
    - rewrite Hkm. subst s'. cbn [mockProducts with_heap with_world].
      eapply Forall_impl; [exact Hm|]. intros r [q Hr]. exists q.
      now apply Hkh, Hold'.
    - apply Forall_cons. split; [exists p; now apply Hkh|apply Forall_nil_2]. }
  exists product, s1, p. split; [reflexivity|].
  split; [apply lookup_ge_None; subst product; cbn; lia|].
  split; [now apply Hkh|].
  split; [reflexivity|]. split; [reflexivity|]. split; [reflexivity|].
  split; [reflexivity|].
  split; [subst s1; cbn [mockProducts with_mockProducts]; now rewrite Hkm|].
  split; [intros r q Hr; now apply Hkh, Hold'|]. split; [exact Hall|].
  eexists. rewrite (getProductById_offline this id s1 Hdown Hall).
  f_equal. f_equal. subst s1. cbn [mockProducts heap with_mockProducts].
  rewrite Hkm. subst s'. cbn [mockProducts with_heap with_world].
  unfold first_with_id. rewrite find_snoc.
  rewrite (find_ext (has_id (heap s'') id) (has_id (heap s) id)).
  2:{ apply has_id_ext; [exact Hm|]. intros r q Hr. now apply Hkh, Hold'. }
  destruct (List.find (has_id (heap s) id) (mockProducts s)); [reflexivity|].
  unfold has_id. rewrite (Hkh _ _ Hp'). subst p. cbn [new_object _id].
  now rewrite String_eqb_refl.
Qed.

Lemma deleteProduct_offline (this : ApiProductRepository.t) (id : string) (s : State) :
  transport_down -> mocks_allocated s ->
  exists w,
    ProductService.deleteProduct (ApiProductRepository.repository this) id s
    = (Ok match first_with_id (heap s) id (mockProducts s) with
          | Some _ => true
          | None => false
          end,
       with_mockProducts (with_world s w)
         (List.filter (fun r => negb (has_id (heap s) id r)) (mockProducts s))).
Proof.
  intros Hdown Hm. unfold ProductService.deleteProduct. rewrite try_rethrow.
  rewrite (bind_Ok _ _ _ _ _ (getProductById_offline this id s Hdown Hm)).
  destruct (first_with_id (heap s) id (mockProducts s)) as [r|] eqn:Ef.
  - cbn [ProductRepository.delete ApiProductRepository.repository].
    match goal with |- context [with_world s ?w0] => set (sa := with_world s w0) end.
    pose proof (delete_failed this id sa (Hdown _ _)) as Ed. cbv zeta in Ed.
    eexists. erewrite bind_Ok.
    2:{ erewrite try_Throw by exact Ed. unfold console_error.
        unfold bind at 1, ret at 1. unfold bind at 1, get_mockProducts.
        unfold Product.id.
        match goal with |- bind _ _ ?st = _ =>
          rewrite (bind_Ok _ _ _ _ _
                     (filterM_by_field _id (fun pid => negb (String.eqb pid id))
                        (mockProducts st) st Hm))
        end.
        reflexivity. }
    unfold ret. f_equal. unfold with_mockProducts, set_mockProducts. cbn.
    f_equal. apply filter_ext_Forall. eapply Forall_impl; [exact Hm|].
    intros m [q Hq]. unfold has_id. cbn. now rewrite Hq.
  - exists (snd (fetch (Fetch.GET (ApiProductRepository.endpoint this ++ "/" ++ id))
                   (world s))).
    unfold ret. f_equal. unfold with_mockProducts, with_world. cbn. f_equal.
    symmetry. now apply find_None_filter.
Qed.

Lemma filter_keeps_allocated (f : ref -> bool) (s : State) (w : World) :
  mocks_allocated s ->
  mocks_allocated (with_mockProducts (with_world s w) (List.filter f (mockProducts s))).
Proof.
  intros Hm. unfold mocks_allocated.
  cbn [heap mockProducts with_mockProducts with_world].
  apply List.Forall_forall. intros r Hr. apply filter_In in Hr.
  exact (proj1 (List.Forall_forall _ _) Hm r (proj1 Hr)).
Qed.

(** X17. With the transport down, [deleteProduct] returns [true] exactly when
    the mock list has a product with the id, and removes every product with
    that id from the list; it deletes nothing else and changes no instance.
    Afterwards [getProductById] with that id returns [null] and a second
    [deleteProduct] returns [false]. *)
Theorem deleted_product_is_gone_when_offline (this : ApiProductRepository.t)
    (id : string) (s : State) :
  transport_down -> mocks_allocated s ->
  exists s1,
    ProductService.deleteProduct (ApiProductRepository.repository this) id s
    = (Ok match first_with_id (heap s) id (mockProducts s) with
          | Some _ => true
          | None => false
          end, s1)
    /\ heap s1 = heap s
    /\ mockProducts s1
       = List.filter (fun r => negb (has_id (heap s) id r)) (mockProducts s)
    /\ (exists w,
          ProductService.getProductById (ApiProductRepository.repository this) id s1
          = (Ok None, with_world s1 w))
    /\ (exists s2,
          ProductService.deleteProduct (ApiProductRepository.repository this) id s1
          = (Ok false, s2)).
Proof.
  intros Hdown Hm.
  destruct (deleteProduct_offline this id s Hdown Hm) as (w & E).
  eexists. split; [exact E|].
  match type of E with _ = (_, ?st) => set (s1 := st) in * end.
  assert (Hm1 : mocks_allocated s1) by (now apply filter_keeps_allocated).
  assert (Hnone : first_with_id (heap s1) id (mockProducts s1) = None).
  { subst s1. cbn [heap mockProducts with_mockProducts with_world].
    apply find_filter_negb. }
  split; [reflexivity|]. split; [reflexivity|]. split.
  - eexists. rewrite (getProductById_offline this id s1 Hdown Hm1). now rewrite Hnone.
  - destruct (deleteProduct_offline this id s1 Hdown Hm1) as (w1 & E1).
    rewrite Hnone in E1. eexists. exact E1.
Qed.

End ServiceStore.

(** ** ProductService: updates made while the transport is down *)

Section ServiceUpdateOffline.
Context `{RT : Runtime}.

Lemma rewrites_frame (this : ref) (p' : ProductObject) (s s' : State) :
  rewrites this p' s s' ->
  (forall r, r <> this -> heap s' !! r = heap s !! r)
  /\ mockProducts s' = mockProducts s.
Proof.
  intros [w ->]. split; [|reflexivity].
  intros r Hr. rewrite heap_put_ne by congruence. reflexivity.
Qed.

Lemma findIndexM_first (id : string) (l : list ref) (i : nat) (s : State) :
  Forall (fun m => is_Some (heap s !! m)) l ->
  exists o,
    findIndexM (fun p => pid <- Product.id p ;; ret (String.eqb pid id)) l i s
    = (Ok o, s)
    /\ match o with
       | Some j => exists k, j = (i + k)%nat
                             /\ l !! k = first_with_id (heap s) id l
       | None => first_with_id (heap s) id l = None
       end.
Proof.
  revert i. induction l as [|m l IH]; intros i Hl; simpl.
  - exists None. now split.
  - apply Forall_cons in Hl. destruct Hl as [[p Hp] Hl]. unfold Product.id.
    rewrite (bind_Ok _ _ _ _ _ (bind_Ok _ _ _ _ _ (read_Some _ _ _ _ Hp))).
    unfold ret at 1. unfold first_with_id. simpl. unfold has_id at 1 3. rewrite Hp.
    destruct (String.eqb (_id p) id).
    + exists (Some i). split; [reflexivity|]. exists 0%nat. split; [lia|reflexivity].
    + destruct (IH (S i) Hl) as (o & E & Ho). exists o. split; [exact E|].
      destruct o as [j|]; [|exact Ho].
      destruct Ho as (k & -> & Hk). exists (S k). split; [lia|exact Hk].
Qed.

(** X18. With the transport down, [updateProduct] on the id of a valid mock
    product, with valid fields, changes that instance in place: the mock
    list and every other instance stay as they were, and a later
    [getProductById] with the id returns the same instance, which now holds
    the update. *)
Theorem update_is_kept_when_offline (this : ApiProductRepository.t) (id : string)
    (dto : UpdateProductDto.t) (r : ref) (p : ProductObject) (s : State) :
  transport_down -> mocks_allocated s ->
  first_with_id (heap s) id (mockProducts s) = Some r ->
  heap s !! r = Some p -> Product_check p = Ok tt -> valid_update dto ->
  exists s2 p',
    ProductService.updateProduct (ApiProductRepository.repository this) id dto s
    = (Ok (Some r), s2)
    /\ heap s2 !! r = Some p' /\ updated_by dto p p'
    /\ mockProducts s2 = mockProducts s
    /\ (forall r' q, r' <> r -> heap s !! r' = Some q -> heap s2 !! r' = Some q)
    /\ exists w,
         ProductService.getProductById (ApiProductRepository.repository this) id s2
         = (Ok (Some r), with_world s2 w).
Proof.
  intros Hdown Hm Hfirst Hp Hchk Hdto.
  assert (Hname : Js.blank (_name p) = false) by (now apply Product_check_Ok in Hchk).
  assert (Hid : _id p = id).
  { pose proof (first_with_id_spec (heap s) id (mockProducts s)) as H.
    rewrite Hfirst in H. destruct H as (_ & q & Hq & Hqid). congruence. }
  rewrite updateProduct_steps, try_rethrow.
  rewrite (bind_Ok _ _ _ _ _ (getProductById_offline this id s Hdown Hm)), Hfirst.
  match goal with |- context [with_world s ?w0] => set (s0 := with_world s w0) end.
  assert (Hp0 : heap s0 !! r = Some p) by exact Hp.
  destruct (details_step_run r dto p s0 Hp0 Hname Hdto) as (sa & Ea & Ra).
  destruct (rewrites_lookup _ _ _ _ _ Hp0 Ra) as (Hpa & _ & _).
  destruct (rewrites_frame _ _ _ _ Ra) as (Hfa & Hma).
  destruct (price_step_run r dto _ sa Hpa Hdto) as (sb & Eb & Rb).
  destruct (rewrites_lookup _ _ _ _ _ Hpa Rb) as (Hpb & _ & _).
  destruct (rewrites_frame _ _ _ _ Rb) as (Hfb & Hmb).
  destruct (stock_step_run r dto _ sb Hpb Hdto) as (sc & Ec & Rc).
  destruct (rewrites_lookup _ _ _ _ _ Hpb Rc) as (Hpc & _ & _).
  destruct (rewrites_frame _ _ _ _ Rc) as (Hfc & Hmc).
  rewrite (bind_Ok _ _ _ _ _ Ea), (bind_Ok _ _ _ _ _ Eb), (bind_Ok _ _ _ _ _ Ec).
  match type of Hpc with _ = Some ?q => set (p' := q) in * end.
  assert (Hup : updated_by dto p p') by apply updated_by_steps.
  assert (Hold : forall r' q, r' <> r -> heap s !! r' = Some q -> heap sc !! r' = Some q).
  { intros r' q Hne Hq. rewrite (Hfc _ Hne), (Hfb _ Hne), (Hfa _ Hne). exact Hq. }
  assert (Hmocks : mockProducts sc = mockProducts s) by (rewrite Hmc, Hmb, Hma; reflexivity).
  (* the save fails, and the handler rewrites the element of the list *)
  destruct (save_failed this r sc Hdown) as (e & sd & Es).
  destruct (keeps_save this r sc) as [Hkm Hkh]. rewrite Es in Hkm, Hkh.
  cbn [snd] in Hkm, Hkh.
  assert (Hid' : _id p' = id) by (destruct Hup as (H & _); congruence).
  assert (Hsame : Forall (fun m => has_id (heap sd) id m = has_id (heap s) id m)
                    (mockProducts s)).
  { eapply Forall_impl; [exact Hm|]. intros m [q Hq]. unfold has_id at 2. rewrite Hq.
    destruct (Nat.eq_dec m r) as [->|Hne].
    - unfold has_id. rewrite (Hkh _ _ Hpc). rewrite Hp in Hq. injection Hq as <-.
      now rewrite Hid', Hid.
    - unfold has_id. now rewrite (Hkh _ _ (Hold _ _ Hne Hq)). }
  assert (Hmd : mocks_allocated sd).
  { unfold mocks_allocated. rewrite Hkm, Hmocks.
    eapply Forall_impl; [exact Hm|]. intros m [q Hq].
    destruct (Nat.eq_dec m r) as [->|Hne]; [exists p'; now apply Hkh|].
    exists q. now apply Hkh, Hold. }
  assert (Hfirstd : first_with_id (heap sd) id (mockProducts sd) = Some r).
  { rewrite Hkm, Hmocks. unfold first_with_id.
    rewrite (find_ext _ _ _ Hsame). exact Hfirst. }
  destruct (findIndexM_first id (mockProducts sd) 0 sd Hmd) as (o & Ei & Ho).
  assert (Esave : exists se,
            save_step (ApiProductRepository.repository this) id r sc = (Ok tt, se)
            /\ heap se = heap sd /\ mockProducts se = mockProducts sd).
  { unfold save_step. cbn [ProductRepository.save ApiProductRepository.repository].
    erewrite try_Throw by exact Es. unfold console_error.
    unfold bind at 1, ret at 1. unfold bind at 1, get_mockProducts.
    rewrite (bind_Ok _ _ _ _ _ Ei).
    destruct o as [j|]; [|eexists; split; [reflexivity|now split]].
    destruct Ho as (k & -> & Hk). rewrite Hfirstd in Hk. simpl.
    eexists. split; [reflexivity|]. split; [reflexivity|].
    cbn [mockProducts with_mockProducts]. now apply list_insert_id. }
  destruct Esave as (se & Ese & Hhe & Hme).
  rewrite (bind_Ok _ _ _ _ _ Ese). unfold ret.
  assert (Hmse : mocks_allocated se).
  { unfold mocks_allocated. now rewrite Hhe, Hme. }
  exists se, p'. split; [reflexivity|].
  split; [rewrite Hhe; now apply Hkh|]. split; [exact Hup|].
  split; [now rewrite Hme, Hkm|].
  split; [intros r' q Hne Hq; rewrite Hhe; now apply Hkh, Hold|].
  eexists. rewrite (getProductById_offline this id se Hdown Hmse).
  now rewrite Hhe, Hme, Hfirstd.
Qed.

End ServiceUpdateOffline.

(** ** The service without mock data, and the routes, when the transport is down *)

Section RoutesOffline.
Context `{RT : Runtime}.

Lemma with_world_same (s : State) : with_world s (world s) = s.
Proof. now destruct s. Qed.

Lemma plain_reads_offline (this : ApiProductRepository.t) (s : State) :
  transport_down ->
  (forall id, exists w,
     NextjsDddProductService.getProductById (ApiProductRepository.repository this) id s
     = (Ok None, with_world s w))
  /\ (exists w,
        NextjsDddProductService.getAllProducts (ApiProductRepository.repository this) s
        = (Ok [], with_world s w))
  /\ (forall name, exists w,
        NextjsDddProductService.getProductsByCategory
          (ApiProductRepository.repository this) name s
        = (Ok [], with_world s w)).
Proof.
  intros Hdown. split; [|split].
  - intros id. eexists. apply findById_failed, Hdown.
  - eexists. apply findAll_failed, Hdown.
  - intros name. unfold NextjsDddProductService.getProductsByCategory.
    destruct (ProductCategory.new name) as [category|e] eqn:Hcat.
    + eexists. erewrite bind_Ok by (apply try_Ok; reflexivity).
      cbv iota. apply findByCategory_failed, Hdown.
    + exists (world s). erewrite bind_Ok by (erewrite try_Throw; reflexivity).
      cbv iota. unfold ret. now rewrite with_world_same.
Qed.

Lemma plain_writes_offline (this : ApiProductRepository.t) (s : State) :
  transport_down ->
  (forall id dto, exists w,
     NextjsDddProductService.updateProduct (ApiProductRepository.repository this)
       id dto s
     = (Ok None, with_world s w))
  /\ (forall id, exists w,
        NextjsDddProductService.deleteProduct (ApiProductRepository.repository this) id s
        = (Ok false, with_world s w)).
Proof.
  intros Hdown. split.
  - intros id dto. eexists. unfold NextjsDddProductService.updateProduct.
    rewrite try_rethrow.
    cbn [ProductRepository.findById ApiProductRepository.repository].
    rewrite (bind_Ok _ _ _ _ _ (findById_failed this id s (Hdown _ _))). reflexivity.
  - intros id. eexists. unfold NextjsDddProductService.deleteProduct.
    rewrite try_rethrow.
    cbn [ProductRepository.findById ApiProductRepository.repository].
    rewrite (bind_Ok _ _ _ _ _ (findById_failed this id s (Hdown _ _))). reflexivity.
Qed.

(** X19. With the transport down, the service without mock data reports every
    product as absent instead of failing: [getProductById] and [updateProduct]
    return [null], [deleteProduct] returns [false], [getAllProducts] and
    [getProductsByCategory] return an empty array, for every argument (valid
    or not), and no product is changed. *)
Theorem plain_service_reports_absence_when_offline (this : ApiProductRepository.t)
    (s : State) :
  transport_down ->
  (forall id, exists w,
     NextjsDddProductService.getProductById (ApiProductRepository.repository this) id s
     = (Ok None, with_world s w))
  /\ (exists w,
        NextjsDddProductService.getAllProducts (ApiProductRepository.repository this) s
        = (Ok [], with_world s w))
  /\ (forall name, exists w,
        NextjsDddProductService.getProductsByCategory
          (ApiProductRepository.repository this) name s
        = (Ok [], with_world s w))
  /\ (forall id dto, exists w,
        NextjsDddProductService.updateProduct (ApiProductRepository.repository this)
          id dto s
        = (Ok None, with_world s w))
  /\ (forall id, exists w,
        NextjsDddProductService.deleteProduct (ApiProductRepository.repository this) id s
        = (Ok false, with_world s w)).
Proof.
  intros Hdown.
  destruct (plain_reads_offline this s Hdown) as (H1 & H2 & H3).
  destruct (plain_writes_offline this s Hdown) as (H4 & H5).
  repeat split; assumption.
Qed.

(** X20. GET /api/products answers 200 with an empty array, not an error, when
    the [category] parameter names no valid category (and then no request is
    sent: the state is unchanged), and for every query when the transport is
    down. *)
Theorem products_GET_answers_empty_list (s : State) :
  (forall c e,
     Js.truthy_string c = true -> ProductCategory.new c = Throw e ->
     ProductsRoute.GET (Some c) s
     = (Ok (Reply.json (Reply.Products []) None), s))
  /\ (transport_down ->
      forall category, exists w,
        ProductsRoute.GET category s
        = (Ok (Reply.json (Reply.Products []) None), with_world s w)).
Proof.
  split.
  - intros c e Ht Hcat. unfold ProductsRoute.GET. rewrite Ht.
    apply try_Ok. erewrite bind_Ok.
    2:{ unfold NextjsDddProductService.getProductsByCategory.
        erewrite bind_Ok.
        2:{ erewrite try_Throw by (unfold bind, lift; rewrite Hcat; reflexivity).
            reflexivity. }
        reflexivity. }
    reflexivity.
  - intros Hdown category.
    destruct (plain_reads_offline ProductsRoute.productRepository s Hdown)
      as (_ & [w1 Hall] & Hcat).
    unfold ProductsRoute.GET.
    assert (H : exists w,
              match category with
              | Some c =>
                  if Js.truthy_string c
                  then NextjsDddProductService.getProductsByCategory
                         ProductsRoute.productService c
                  else NextjsDddProductService.getAllProducts
                         ProductsRoute.productService
              | None => NextjsDddProductService.getAllProducts
                          ProductsRoute.productService
              end s = (Ok [], with_world s w)).
    { destruct category as [c|]; [destruct (Js.truthy_string c)|].
      - exact (Hcat c).
      - now exists w1.
      - now exists w1. }
    destruct H as [w H]. exists w. apply try_Ok.
    rewrite (bind_Ok _ _ _ _ _ H). reflexivity.
Qed.


(** X22. With the transport down and the service with mock data, GET
    /api/products/[id] answers 200 with the record of the first mock product
    that has the id, and 404 when there is none; DELETE answers 200 "Product
    deleted successfully" when there is one and 404 otherwise, and after it a
    GET for the id answers 404; PUT with a negative price for a product that
    exists answers 500 with the entity's message "Price cannot be negative". *)
Theorem product_routes_serve_mock_data_when_offline (this : ApiProductRepository.t)
    (id : string) (s : State) :
  transport_down -> mocks_allocated s ->
  let service := ProductIdRoute.with_mock_data (ApiProductRepository.repository this) in
  let not_found := Reply.json (Reply.Failure "Product not found" None) (Some 404%Z) in
  (first_with_id (heap s) id (mockProducts s) = None ->
   (exists w, ProductIdRoute.GET service id s = (Ok not_found, with_world s w))
   /\ (exists w, ProductIdRoute.DELETE service id s = (Ok not_found, with_world s w)))
  /\ (forall r p c u,
        first_with_id (heap s) id (mockProducts s) = Some r ->
        heap s !! r = Some p ->
        _createdAt p = TimeValue c -> _updatedAt p = TimeValue u ->
        (exists w,
           ProductIdRoute.GET service id s
           = (Ok (Reply.json (Reply.OneProduct (record_of p c u)) None),
              with_world s w))
        /\ (exists s1,
              ProductIdRoute.DELETE service id s
              = (Ok (Reply.json (Reply.Message "Product deleted successfully")
                       (Some 200%Z)), s1)
              /\ exists w, ProductIdRoute.GET service id s1
                           = (Ok not_found, with_world s1 w))
        /\ (forall price,
              Js.lt price 0%float = true ->
              exists w,
                ProductIdRoute.PUT service id
                  (Ok (ProductsRoute.mkBody None None (Some price) None None)) s
                = (Ok (Reply.json
                         (Reply.Failure "Failed to update product"
                            (Some "Price cannot be negative")) (Some 500%Z)),
                   with_world s w))).
Proof.
  intros Hdown Hm service not_found.
  pose proof (getProductById_offline this id s Hdown Hm) as Eget.
  assert (Hdel : forall s0 : State, mocks_allocated s0 -> exists s1,
            ProductService.deleteProduct (ApiProductRepository.repository this) id s0
            = (Ok match first_with_id (heap s0) id (mockProducts s0) with
                  | Some _ => true
                  | None => false
                  end, s1)
            /\ (first_with_id (heap s0) id (mockProducts s0) = None ->
                exists w, s1 = with_world s0 w)
            /\ mocks_allocated s1
            /\ first_with_id (heap s1) id (mockProducts s1) = None).
  { intros s0 Hm0.
    destruct (deleteProduct_offline this id s0 Hdown Hm0) as (w & E).
    eexists. split; [exact E|].
    split; [|split; [now apply filter_keeps_allocated|]].
    - intros Hnone. exists w. unfold first_with_id in Hnone.
      now rewrite (find_None_filter _ _ Hnone).
    - cbn [heap mockProducts with_mockProducts with_world]. apply find_filter_negb. }
  split.
  - intros Hnone. split.
    + eexists. unfold ProductIdRoute.GET. apply try_Ok. subst service.
      cbn [ProductIdRoute.getProductById ProductIdRoute.with_mock_data].
      rewrite (bind_Ok _ _ _ _ _ Eget), Hnone. reflexivity.
    + destruct (Hdel s Hm) as (s1 & E & Hw & _). rewrite Hnone in E.
      destruct (Hw Hnone) as [w ->]. exists w.
      unfold ProductIdRoute.DELETE. apply try_Ok. subst service.
      cbn [ProductIdRoute.deleteProduct ProductIdRoute.with_mock_data].
      rewrite (bind_Ok _ _ _ _ _ E). reflexivity.
  - intros r p c u Hfirst Hp Hc Hu. split; [|split].
    + eexists. unfold ProductIdRoute.GET. apply try_Ok. subst service.
      cbn [ProductIdRoute.getProductById ProductIdRoute.with_mock_data].
      rewrite (bind_Ok _ _ _ _ _ Eget), Hfirst.
      match goal with |- context [with_world s ?w0] => set (s0 := with_world s w0) end.
      assert (Hp0 : heap s0 !! r = Some p) by exact Hp.
      unfold bind at 1. rewrite (toPrimitives_run _ _ _ Hp0), Hc, Hu. reflexivity.
    + destruct (Hdel s Hm) as (s1 & E & _ & Hm1 & Hnone1). rewrite Hfirst in E.
      exists s1. split.
      * unfold ProductIdRoute.DELETE. apply try_Ok. subst service.
        cbn [ProductIdRoute.deleteProduct ProductIdRoute.with_mock_data].
        rewrite (bind_Ok _ _ _ _ _ E). reflexivity.
      * eexists. unfold ProductIdRoute.GET. apply try_Ok. subst service.
        cbn [ProductIdRoute.getProductById ProductIdRoute.with_mock_data].
        rewrite (bind_Ok _ _ _ _ _ (getProductById_offline this id s1 Hdown Hm1)),
          Hnone1.
        reflexivity.
    + intros price Hneg. eexists. unfold ProductIdRoute.PUT.
      erewrite try_Throw.
      2:{ unfold bind at 1, lift. cbv zeta. subst service.
          cbn [ProductIdRoute.updateProduct ProductIdRoute.with_mock_data
               ProductsRoute.name ProductsRoute.description ProductsRoute.price
               ProductsRoute.category ProductsRoute.stockQuantity].
          apply bind_Throw. rewrite updateProduct_steps, try_rethrow.
          rewrite (bind_Ok _ _ _ _ _ Eget), Hfirst.
          unfold details_step. cbn [UpdateProductDto.name UpdateProductDto.description
                                    UpdateProductDto.category ProductService.truthy_opt orb].
          unfold bind at 1, ret at 1. apply bind_Throw.
          unfold price_step. cbn [UpdateProductDto.price].
          unfold ProductsRoute.Number, Product.updatePrice. rewrite Hneg. reflexivity. }
      reflexivity.
Qed.

End RoutesOffline.

(** ** User: the form of an email address *)

Section EmailFormat.

Lemma append_assoc (a b c : string) : (a ++ b) ++ c = a ++ (b ++ c).
Proof. induction a as [|x a IH]; simpl; [reflexivity|now rewrite IH]. Qed.

Lemma append_eq_empty (a b : string) : a ++ b = "" -> a = "" /\ b = "".
Proof. destruct a; simpl; [now split|discriminate]. Qed.

Lemma matches_Seq_inv (a b : Regex.t) (s : string) :
  matches (Regex.Seq a b) s <->
  exists s1 s2, s = s1 ++ s2 /\ matches a s1 /\ matches b s2.
Proof.
  split.
  - intros H. inversion H; subst. now eexists _, _.
  - intros (s1 & s2 & -> & H1 & H2). now constructor.
Qed.

Lemma matches_Class_inv (f : code_unit -> bool) (s : string) :
  matches (Regex.Class f) s <-> exists c, s = String c "" /\ f c = true.
Proof.
  split.
  - intros H. inversion H; subst. now eexists.
  - intros (c & -> & H). now constructor.
Qed.

Lemma nullable_spec (r : Regex.t) : Regex.nullable r = true <-> matches r "".
Proof.
  induction r as [| |f|a IHa b IHb|a IHa b IHb|a IHa]; simpl.
  - split; [discriminate|intros H; inversion H].
  - split; [constructor|reflexivity].
  - split; [discriminate|intros H; inversion H].
  - rewrite andb_true_iff, IHa, IHb, matches_Seq_inv. split.
    + intros [H1 H2]. now exists "", "".
    + intros (s1 & s2 & E & H1 & H2). symmetry in E.
      apply append_eq_empty in E. destruct E as [-> ->]. now split.
  - rewrite orb_true_iff, IHa, IHb. split.
    + intros [H|H]; [now apply matches_Alt_l|now apply matches_Alt_r].
    + intros H. inversion H; subst; [now left|now right].
  - split; [constructor|reflexivity].
Qed.

Lemma matches_Star_cons_inv (a : Regex.t) (c : code_unit) (s : string) :
  matches (Regex.Star a) (String c s) ->
  exists s1 s2, s = s1 ++ s2 /\ matches a (String c s1) /\ matches (Regex.Star a) s2.
Proof.
  intros H. remember (Regex.Star a) as r eqn:Er.
  remember (String c s) as str eqn:Es. revert Er Es.
  induction H as [| | | | | |a' s1 s2 H1 _ H2 IH2]; intros Er Es; try discriminate.
  injection Er as ->. destruct s1 as [|x s1]; simpl in Es.
  - now apply IH2.
  - injection Es as E1 E2. subst x s. now exists s1, s2.
Qed.

Lemma derive_spec (r : Regex.t) (c : code_unit) (s : string) :
  matches (Regex.derive c r) s <-> matches r (String c s).
Proof.
  revert s. induction r as [| |f|a IHa b IHb|a IHa b IHb|a IHa]; intros s; simpl.
  - split; intros H; inversion H.
  - split; intros H; inversion H.
  - rewrite matches_Class_inv. destruct (f c) eqn:E.
    + split.
      * intros H. inversion H; subst. now exists c.
      * intros (c' & [= <- ->] & _). constructor.
    + split; [intros H; inversion H|].
      intros (c' & [= <- ->] & H). congruence.
  - assert (Hseq : matches (Regex.Seq (Regex.derive c a) b) s ->
                   matches (Regex.Seq a b) (String c s)).
    { rewrite matches_Seq_inv. intros (s1 & s2 & -> & H1 & H2).
      apply IHa in H1. change (String c (s1 ++ s2)) with (String c s1 ++ s2).
      now constructor. }
    assert (Hinv : matches (Regex.Seq a b) (String c s) ->
                   matches (Regex.Seq (Regex.derive c a) b) s
                   \/ (matches a "" /\ matches b (String c s))).
    { rewrite matches_Seq_inv. intros (s1 & s2 & E & H1 & H2).
      destruct s1 as [|x s1]; simpl in E.
      - right. subst s2. now split.
      - left. injection E as E1 E2. subst x s. apply matches_Seq_inv. exists s1, s2.
        split; [reflexivity|]. split; [now apply IHa|exact H2]. }
    destruct (Regex.nullable a) eqn:En.
    + split.
      * intros H. inversion H; subst; [now apply Hseq|].
        apply nullable_spec in En. change (String c s) with ("" ++ String c s).
        constructor; [exact En|now apply IHb].
      * intros H. destruct (Hinv H) as [H'|[_ H']];
          [now apply matches_Alt_l|apply matches_Alt_r; now apply IHb].
    + split; [exact Hseq|].
      intros H. destruct (Hinv H) as [H'|[H' _]]; [exact H'|].
      apply nullable_spec in H'. congruence.
  - split.
    + intros H. inversion H; subst;
        [apply matches_Alt_l; now apply IHa|apply matches_Alt_r; now apply IHb].
    + intros H. inversion H; subst;
        [apply matches_Alt_l; now apply IHa|apply matches_Alt_r; now apply IHb].
  - rewrite matches_Seq_inv. split.
    + intros (s1 & s2 & -> & H1 & H2). apply IHa in H1.
      change (String c (s1 ++ s2)) with (String c s1 ++ s2). now constructor.
    + intros H. destruct (matches_Star_cons_inv _ _ _ H) as (s1 & s2 & -> & H1 & H2).
      exists s1, s2. split; [reflexivity|]. split; [now apply IHa|exact H2].
Qed.

Lemma test_spec (r : Regex.t) (s : string) : Regex.test r s = true <-> matches r s.
Proof.
  revert r. induction s as [|c s IH]; intros r; simpl.
  - apply nullable_spec.
  - rewrite IH. apply derive_spec.
Qed.

Lemma matches_Star_Class (f : code_unit -> bool) (s : string) :
  matches (Regex.Star (Regex.Class f)) s <-> all_chars f s = true.
Proof.
  split.
  - intros H. remember (Regex.Star (Regex.Class f)) as r eqn:Er. revert Er.
    induction H as [| | | | | |a s1 s2 H1 _ H2 IH2]; intros Er; try discriminate.
    + reflexivity.
    + injection Er as ->. apply matches_Class_inv in H1.
      destruct H1 as (c & -> & Hc). simpl. rewrite Hc. now apply IH2.
  - induction s as [|c s IH]; simpl; [constructor|].
    intros H. apply andb_true_iff in H. destruct H as [Hc Hs].
    change (String c s) with (String c "" ++ s).
    constructor; [now constructor|now apply IH].
Qed.

Lemma matches_Plus_Class (f : code_unit -> bool) (s : string) :
  matches (Regex.Plus (Regex.Class f)) s <-> s <> "" /\ all_chars f s = true.
Proof.
  unfold Regex.Plus. rewrite matches_Seq_inv. split.
  - intros (s1 & s2 & -> & H1 & H2). apply matches_Class_inv in H1.
    destruct H1 as (c & -> & Hc). apply matches_Star_Class in H2.
    split; [discriminate|]. simpl. now rewrite Hc.
  - intros [Hne H]. destruct s as [|c s]; [contradiction|].
    simpl in H. apply andb_true_iff in H. destruct H as [Hc Hs].
    exists (String c ""), s. split; [reflexivity|].
    split; [now constructor|now apply matches_Star_Class].
Qed.

Lemma email_part_spec (s : string) :
  email_part s <-> s <> "" /\ all_chars User.not_space_or_at s = true.
Proof.
  unfold email_part.
  assert (H : all_chars User.not_space_or_at s = true
              <-> forall c, In c (code_units s) -> ~ In c spaces /\ c <> 64%N).
  { induction s as [|a s IH]; simpl.
    - split; [intros _ c []|reflexivity].
    - rewrite andb_true_iff, IH. unfold User.not_space_or_at at 1.
      rewrite negb_true_iff, orb_false_iff, N.eqb_neq, <- not_true_iff_false,
        isWhiteSpace_spec.
      fold spaces. split.
      + intros [[Ha1 Ha2] Hs] c [<-|Hc]; [now split|now apply Hs].
      + intros H. split; [apply H; now left|]. intros c Hc. apply H. now right. }
  now rewrite H.
Qed.

Lemma validateEmail_spec (email : string) :
  User.validateEmail (Some email) = true <-> email_address email.
Proof.
  unfold User.validateEmail, email_address. cbn [from_option id default].
  rewrite test_spec.
  unfold User.emailRegex. setoid_rewrite email_part_spec.
  rewrite matches_Seq_inv. split.
  - intros (a & r1 & -> & Ha & H1).
    apply matches_Seq_inv in H1. destruct H1 as (x & r2 & -> & Hx & H2).
    apply matches_Seq_inv in H2. destruct H2 as (b & r3 & -> & Hb & H3).
    apply matches_Seq_inv in H3. destruct H3 as (y & c & -> & Hy & Hc).
    apply matches_Class_inv in Hx. destruct Hx as (cx & -> & Hcx).
    apply matches_Class_inv in Hy. destruct Hy as (cy & -> & Hcy).
    apply N.eqb_eq in Hcx, Hcy. subst cx cy.
    apply matches_Plus_Class in Ha, Hb, Hc.
    exists a, b, c. split; [reflexivity|]. now repeat split.
  - intros (a & b & c & -> & Ha & Hb & Hc).
    exists a, ("@" ++ b ++ "." ++ c). split; [reflexivity|].
    split; [now apply matches_Plus_Class|].
    apply matches_Seq_inv. exists "@", (b ++ "." ++ c). split; [reflexivity|].
    split; [constructor; reflexivity|].
    apply matches_Seq_inv. exists b, ("." ++ c). split; [reflexivity|].
    split; [now apply matches_Plus_Class|].
    apply matches_Seq_inv. exists ".", c. split; [reflexivity|].
    split; [constructor; reflexivity|now apply matches_Plus_Class].
Qed.

(** X27. The constructor and [updateDetails] of [User] accept an email exactly
    when it is a local part, "@", a domain, "." and a last part, each of them
    not empty and free of white space and of "@"; so an accepted email has
    exactly one "@", and a dot after it with something on both sides. A missing
    email ([undefined]) is not accepted. For instance "ann@example.com" and
    "a@b.c.d" are accepted; "ann@example", "ann@@example.com",
    "ann smith@example.com" and an address with a no-break space (U+00A0) or
    a line separator (U+2028) in it are not. *)
Theorem email_format (email : string) :
  (User.validateEmail (Some email) = true <->
   exists local domain last,
     email = local ++ "@" ++ domain ++ "." ++ last
     /\ email_part local /\ email_part domain /\ email_part last)
  /\ User.validateEmail None = false
  /\ User.validateEmail (Some "ann@example.com") = true
  /\ User.validateEmail (Some "a@b.c.d") = true
  /\ User.validateEmail (Some "ann@example") = false
  /\ User.validateEmail (Some "ann@@example.com") = false
  /\ User.validateEmail (Some "ann smith@example.com") = false
  /\ User.validateEmail (Some ("ann" ++ String 160%N "smith@example.com")) = false
  /\ User.validateEmail (Some ("ann@example.com" ++ String 8232%N "")) = false.
Proof.
  split; [|repeat split; vm_compute; reflexivity].
  exact (validateEmail_spec email).
Qed.

End EmailFormat.

(** ** The register route *)

Section RegisterProperties.
Context `{RT : Runtime}.

Lemma User_create_run (id : string) (email name : option string) (s : State) :
  let t1 := fst (Date_now (world s)) in
  let w1 := snd (Date_now (world s)) in
  let t2 := fst (Date_now w1) in
  User.create id email name None s
  = (match User.validateUser id name email with
     | Ok _ => Ok {| user_id := id;
                     user_email := default "" email;
                     user_name := default "" name;
                     user_role := "user";
                     user_createdAt := TimeValue t1;
                     user_updatedAt := TimeValue t2 |}
     | Throw e => Throw e
     end, with_world s (snd (Date_now w1))).
Proof.
  intros t1 w1 t2. unfold User.create, User.new. cbn [Product.or_default].
  unfold bind at 1, ret at 1. unfold bind at 1. rewrite newDate_run.
  unfold bind at 1. rewrite newDate_run. cbn [world with_world].
  unfold bind at 1, lift.
  destruct (User.validateUser id name email); reflexivity.
Qed.

Lemma register_POST_run (body : RegisterRoute.Body) (s : State) :
  let id := fst (randomUUID (world s)) in
  let w0 := snd (randomUUID (world s)) in
  let t1 := fst (Date_now w0) in
  let t2 := fst (Date_now (snd (Date_now w0))) in
  let w2 := snd (Date_now (snd (Date_now w0))) in
  let user := registered_user id body t1 t2 in
  RegisterRoute.POST (Ok body) s
  = if email_taken (RegisterRoute.email body) s then
      (Ok (Http.json (Http.ErrorJson "Email already registered" None) (Some 400%Z)), s)
    else
      match User.validateUser id (RegisterRoute.name body) (RegisterRoute.email body) with
      | Throw _ =>
          (Ok (Http.json (Http.ErrorJson "Internal server error" None) (Some 500%Z)),
           with_world s w2)
      | Ok _ =>
          (Ok (Http.json (Http.UserJson (user_record user t1 t2)) (Some 201%Z)),
           with_register_mockUsers (with_world s w2) (register_mockUsers s ++ [user]))
      end.
Proof.
  intros id w0 t1 t2 w2 user. unfold RegisterRoute.POST, email_taken.
  unfold try_catch at 1. unfold bind at 1, lift at 1.
  unfold bind at 1, get_register_mockUsers at 1.
  destruct (existsb _ (register_mockUsers s)); [reflexivity|].
  unfold bind at 1, crypto_randomUUID.
  destruct (randomUUID (world s)) as [uuid w] eqn:Eu.
  subst id w0 t1 t2 w2 user. cbn [fst snd].
  unfold bind at 1. rewrite User_create_run. cbv zeta. cbn [world with_world].
  destruct (User.validateUser uuid (RegisterRoute.name body)
              (RegisterRoute.email body)); reflexivity.
Qed.

Lemma validateUser_cases (id : string) (name email : option string) :
  (Js.truthy_string id = true
   /\ (exists n, name = Some n /\ Js.blank n = false)
   /\ (exists e, email = Some e /\ email_address e)
   /\ User.validateUser id name email = Ok tt)
  \/ ((Js.truthy_string id = false
       \/ (forall n, name = Some n -> Js.blank n = true)
       \/ (forall e, email = Some e -> ~ email_address e))
      /\ exists e, User.validateUser id name email = Throw e).
Proof.
  unfold User.validateUser.
  destruct (Js.truthy_string id); [|right; split; [now left|now eexists]].
  change (negb true) with false. cbv iota.
  destruct name as [n|].
  - destruct (Js.blank n) eqn:Hn.
    + right. split; [|now eexists]. right. left. now intros n' [= <-].
    + destruct email as [e|].
      * destruct (User.validateEmail (Some e)) eqn:He.
        -- left. split; [reflexivity|]. split; [now exists n|].
           split; [|reflexivity]. exists e. split; [reflexivity|].
           now apply validateEmail_spec.
        -- right. split; [|now eexists]. right. right. intros e' [= <-] H.
           apply validateEmail_spec in H. congruence.
      * right. split; [|vm_compute; now eexists]. right. right. intros e [=].
  - right. split; [|now eexists]. right. left. intros n [=].
Qed.

(** X23. POST /api/auth/register, for a body whose [name], [email] and
    [password] are strings where it has them, answers 400 "Email already
    registered", and changes nothing, when its store holds the email;
    otherwise 201 with the record of a new user (a fresh id, the role "user")
    which it appends to the store, when the name is not blank and the email is
    an address (a local part, "@", a domain, "." and a last part, each not
    empty and without white space or "@"); otherwise, when the name is missing
    or blank or the email is missing or is no address, 500 "Internal server
    error", the store unchanged: the invalid input is reported as a server
    error. A body that is no JSON is answered with 500 as well. The password
    is not looked at. A name of no-break spaces (U+00A0) is blank. *)
Theorem register_POST_responses (body : RegisterRoute.Body) (s : State) :
  let id := fst (randomUUID (world s)) in
  (email_taken (RegisterRoute.email body) s = true ->
   RegisterRoute.POST (Ok body) s
   = (Ok (Http.json (Http.ErrorJson "Email already registered" None) (Some 400%Z)), s))
  /\ (email_taken (RegisterRoute.email body) s = false ->
      Js.truthy_string id = false
      \/ (forall n, RegisterRoute.name body = Some n -> Js.blank n = true)
      \/ (forall e, RegisterRoute.email body = Some e -> ~ email_address e) ->
      exists w,
        RegisterRoute.POST (Ok body) s
        = (Ok (Http.json (Http.ErrorJson "Internal server error" None) (Some 500%Z)),
           with_world s w)
        /\ register_mockUsers (with_world s w) = register_mockUsers s)
  /\ (forall n e,
        email_taken (RegisterRoute.email body) s = false ->
        Js.truthy_string id = true ->
        RegisterRoute.name body = Some n -> Js.blank n = false ->
        RegisterRoute.email body = Some e -> email_address e ->
        exists t1 t2 s',
          RegisterRoute.POST (Ok body) s
          = (Ok (Http.json (Http.UserJson
                              (user_record (registered_user id body t1 t2) t1 t2))
                   (Some 201%Z)), s')
          /\ register_mockUsers s'
             = (register_mockUsers s ++ [registered_user id body t1 t2])%list
          /\ user_id (registered_user id body t1 t2) = id
          /\ user_name (registered_user id body t1 t2) = n
          /\ user_email (registered_user id body t1 t2) = e
          /\ user_role (registered_user id body t1 t2) = "user")
  /\ (forall e,
        RegisterRoute.POST (Throw e) s
        = (Ok (Http.json (Http.ErrorJson "Internal server error" None) (Some 500%Z)), s))
  /\ (forall password,
        RegisterRoute.POST (Ok body) s
        = RegisterRoute.POST
            (Ok (RegisterRoute.mkBody (RegisterRoute.name body)
                   (RegisterRoute.email body) password)) s)
  /\ (forall email password,
        let blank_name := Some (String 160%N (String 160%N "")) in
        email_taken email s = false ->
        exists w,
          RegisterRoute.POST (Ok (RegisterRoute.mkBody blank_name email password)) s
          = (Ok (Http.json (Http.ErrorJson "Internal server error" None) (Some 500%Z)),
             with_world s w)).
Proof.
  intros id. pose proof (register_POST_run body s) as E. cbv zeta in E. fold id in E.
  split; [intros H; now rewrite E, H|].
  split.
  { intros H Hbad. rewrite E, H.
    destruct (validateUser_cases id (RegisterRoute.name body) (RegisterRoute.email body))
      as [(Hid & (n & Hn & Hb) & (e & He & Hform) & _)|(_ & e & ->)];
      [|eexists; split; reflexivity].
    exfalso. destruct Hbad as [Hbad|[Hbad|Hbad]].
    - congruence.
    - rewrite (Hbad n Hn) in Hb. discriminate Hb.
    - exact (Hbad e He Hform). }
  split.
  { intros n e H Hid Hn Hb He Hform. rewrite E, H.
    destruct (validateUser_cases id (RegisterRoute.name body) (RegisterRoute.email body))
      as [(_ & _ & _ & ->)|(Hbad & _)].
    - eexists _, _, _. split; [reflexivity|]. split; [reflexivity|].
      unfold registered_user. cbn [user_id user_name user_email user_role].
      rewrite Hn, He. now repeat split.
    - exfalso. destruct Hbad as [Hbad|[Hbad|Hbad]].
      + congruence.
      + rewrite (Hbad n Hn) in Hb. discriminate Hb.
      + exact (Hbad e He Hform). }
  split; [reflexivity|].
  split; [intros password; rewrite E, register_POST_run; reflexivity|].
  intros email password blank_name H.
  rewrite register_POST_run. cbv zeta. cbn [RegisterRoute.email RegisterRoute.name].
  rewrite H. subst blank_name. unfold User.validateUser.
  destruct (negb (Js.truthy_string (fst (randomUUID (world s))))); now eexists.
Qed.

Lemma validateUser_Ok (id : string) (name email : option string) :
  User.validateUser id name email = Ok tt ->
  Js.truthy_string id = true
  /\ (exists n, name = Some n /\ Js.blank n = false)
  /\ (exists e, email = Some e /\ User.validateEmail (Some e) = true).
Proof.
  unfold User.validateUser.
  destruct (Js.truthy_string id); [|discriminate].
  change (negb true) with false. cbv iota.
  destruct name as [n|]; [|discriminate].
  destruct (Js.blank n) eqn:Hn; [discriminate|].
  destruct (User.validateEmail email) eqn:He; [|discriminate].
  intros _. split; [reflexivity|]. split; [now exists n|].
  destruct email as [e|]; [now exists e|].
  vm_compute in He. discriminate He.
Qed.

Lemma email_taken_In (email : string) (s : State) :
  email_taken (Some email) s = true <-> In email (map user_email (register_mockUsers s)).
Proof.
  unfold email_taken. rewrite existsb_exists, in_map_iff. split.
  - intros (u & Hu & He). exists u. split; [|exact Hu].
    now apply String_eqb_eq in He.
  - intros (u & He & Hu). exists u. split; [exact Hu|]. simpl. rewrite He.
    apply String_eqb_refl.
Qed.

Lemma register_POST_store (request_json : Res RegisterRoute.Body) (s : State) :
  register_mockUsers (snd (RegisterRoute.POST request_json s)) = register_mockUsers s
  \/ exists body u,
       request_json = Ok body
       /\ register_mockUsers (snd (RegisterRoute.POST request_json s))
          = (register_mockUsers s ++ [u])%list
       /\ valid_user u /\ user_role u = "user"
       /\ RegisterRoute.email body = Some (user_email u)
       /\ ~ In (user_email u) (map user_email (register_mockUsers s)).
Proof.
  destruct request_json as [body|e]; [|now left].
  pose proof (register_POST_run body s) as E. cbv zeta in E. rewrite E.
  destruct (email_taken (RegisterRoute.email body) s) eqn:Ht; [now left|].
  destruct (User.validateUser (fst (randomUUID (world s))) (RegisterRoute.name body)
              (RegisterRoute.email body)) as [[]|e] eqn:Hv; [|now left].
  right. destruct (validateUser_Ok _ _ _ Hv) as (Hid & (n & Hn & Hblank) & (em & He & Hem)).
  eexists body, _. split; [reflexivity|]. split; [reflexivity|].
  unfold valid_user, registered_user. cbn [user_id user_name user_email user_role].
  rewrite Hn, He. cbn [from_option id].
  split; [now repeat split|]. split; [reflexivity|]. split; [reflexivity|].
  intros HIn. apply email_taken_In in HIn. rewrite He in Ht. congruence.
Qed.



(** X25. An email the register route has stored is refused from then on:
    after any further requests, a registration with that email is answered
    with 400 "Email already registered" and changes nothing. *)
Theorem registered_email_is_refused (requests : list (Res RegisterRoute.Body))
    (body : RegisterRoute.Body) (email : string) (s : State) :
  In email (map user_email (register_mockUsers s)) ->
  RegisterRoute.email body = Some email ->
  RegisterRoute.POST (Ok body) (register_all requests s)
  = (Ok (Http.json (Http.ErrorJson "Email already registered" None) (Some 400%Z)),
     register_all requests s).
Proof.
  intros HIn Hbody.
  assert (Hgrow : exists added,
            register_mockUsers (register_all requests s)
            = (register_mockUsers s ++ added)%list).
  { clear. revert s. induction requests as [|r rest IH]; intros s; simpl.
    - exists []. now rewrite app_nil_r.
    - destruct (IH (snd (RegisterRoute.POST r s))) as [added H].
      destruct (register_POST_store r s) as [Hsame|(_ & u & _ & Hadd & _)].
      + exists added. now rewrite H, Hsame.
      + exists (u :: added). rewrite H, Hadd, <- app_assoc. reflexivity. }
  destruct Hgrow as [added Hgrow].
  pose proof (register_POST_run body (register_all requests s)) as E. cbv zeta in E.
  rewrite E.
  replace (email_taken (RegisterRoute.email body) (register_all requests s)) with true;
    [reflexivity|].
  symmetry. rewrite Hbody. apply email_taken_In. rewrite Hgrow, map_app.
  apply in_or_app. now left.
Qed.

End RegisterProperties.

(** ** The login route *)

Section LoginProperties.
Context `{RT : Runtime}.



End LoginProperties.

(** ** User: the mutators *)

Section UserEntity.
Context `{RT : Runtime}.

Lemma user_perform_keeps_valid (c : UserCall) (this : UserObject) (s : State) :
  valid_user this ->
  valid_user (fst (user_perform c this s))
  /\ user_id (fst (user_perform c this s)) = user_id this
  /\ user_createdAt (fst (user_perform c this s)) = user_createdAt this.
Proof.
  intros Hv. unfold user_perform.
  assert (Hsame : valid_user this /\ user_id this = user_id this
                  /\ user_createdAt this = user_createdAt this)
    by (split; [exact Hv|split; reflexivity]).
  destruct Hv as (Hid & Hname & Hemail).
  destruct c as [name email|role].
  - unfold User.updateDetails.
    destruct (Js.blank name) eqn:Hn; [exact Hsame|].
    destruct (User.validateEmail (Some email)) eqn:He; [|exact Hsame].
    change (negb true) with false. cbv iota.
    unfold bind. rewrite newDate_run. unfold ret. cbn [fst].
    unfold valid_user. cbn [user_id user_name user_email user_createdAt].
    now repeat split.
  - unfold User.updateRole.
    destruct (Js.blank role) eqn:Hr; [exact Hsame|].
    unfold bind. rewrite newDate_run. unfold ret. cbn [fst].
    unfold valid_user. cbn [user_id user_name user_email user_createdAt].
    now repeat split.
Qed.

(** X28. A user the constructor returned has a non-empty id, a name that is
    not blank and an email of the form of an address, and keeps all three,
    with the same id and creation date, through any sequence of
    [updateDetails] and [updateRole] calls, the ones that throw included. *)
Theorem users_stay_valid (id : string) (email name role : option string)
    (createdAt updatedAt : option Date) (calls : list UserCall)
    (this : UserObject) (s0 s : State) :
  User.new id email name role createdAt updatedAt s0 = (Ok this, s) ->
  valid_user this
  /\ user_id this = id
  /\ valid_user (fst (user_perform_all calls this s))
  /\ user_id (fst (user_perform_all calls this s)) = id
  /\ user_createdAt (fst (user_perform_all calls this s)) = user_createdAt this.
Proof.
  intros Hnew.
  assert (Hv : valid_user this /\ user_id this = id).
  { revert Hnew. unfold User.new.
    unfold bind at 1. destruct (Product.or_default role (ret "user") s0) as [[r|e] s1];
      [|discriminate].
    unfold bind at 1. destruct (Product.or_default createdAt newDate s1) as [[c|e] s2];
      [|discriminate].
    unfold bind at 1. destruct (Product.or_default updatedAt newDate s2) as [[u|e] s3];
      [|discriminate].
    unfold bind at 1, lift.
    destruct (User.validateUser id name email) as [[]|e] eqn:Hval; [|discriminate].
    unfold ret. intros [= <- <-].
    destruct (validateUser_Ok _ _ _ Hval) as (Hid & (n & -> & Hn) & (em & -> & He)).
    unfold valid_user. cbn. now repeat split. }
  destruct Hv as [Hv Hid]. split; [exact Hv|]. split; [exact Hid|].
  rewrite <- Hid. clear Hnew Hid. revert this s Hv.
  induction calls as [|c rest IH]; intros this s Hv; simpl;
    [split; [exact Hv|split; reflexivity]|].
  destruct (user_perform_keeps_valid c this s Hv) as (Hv1 & Hid1 & Hc1).
  destruct (user_perform c this s) as [this1 s1]. cbn [fst] in Hv1, Hid1, Hc1.
  destruct (IH this1 s1 Hv1) as (H1 & H2 & H3).
  split; [exact H1|]. split; congruence.
Qed.

End UserEntity.

(** ** Review *)

Section ReviewEntity.
Context `{RT : Runtime}.
Local Open Scope float_scope.

Lemma Rating_new_cases (x : number) :
  (In x [1; 2; 3; 4; 5] /\ Rating.new x = Ok (Rating.mk x))
  \/ (Js.Number_isInteger x = false
      /\ Rating.new x = Throw (Error "Rating must be an integer"))
  \/ (Js.Number_isInteger x = true /\ ~ In x [1; 2; 3; 4; 5]
      /\ Rating.new x = Throw (Error "Rating must be between 1 and 5")).
Proof.
  assert (Hout : Js.lt x 1 = true \/ Js.gt x 5 = true -> ~ In x [1; 2; 3; 4; 5]).
  { intros H HIn. simpl in HIn.
    destruct HIn as [<-|[<-|[<-|[<-|[<-|[]]]]]]; destruct H as [H|H];
      vm_compute in H; discriminate H. }
  unfold Rating.new, Rating.validateRating, Rating.MIN_RATING, Rating.MAX_RATING.
  destruct (Js.Number_isInteger x) eqn:Hi; [|right; left; now split].
  change (negb true) with false. cbv iota.
  destruct (Js.lt x 1) eqn:H1;
    [right; right; split; [reflexivity|split; [apply Hout; now left|reflexivity]]|].
  destruct (Js.gt x 5) eqn:H5;
    [right; right; split; [reflexivity|split; [apply Hout; now right|reflexivity]]|].
  left. split; [now apply Rating_range|reflexivity].
Qed.

Lemma Review_new_run (id productId : string) (rating : Rating.t)
    (comment authorName : string) (createdAt updatedAt : option Date) (s : State) :
  exists (w : World) (c u : Date),
    let this := mkReview id productId rating comment authorName c u in
    (forall d, createdAt = Some d -> c = d)
    /\ (forall d, updatedAt = Some d -> u = d)
    /\ (createdAt <> None -> updatedAt <> None -> w = world s)
    /\ Review.new id productId rating comment authorName createdAt updatedAt s
       = (match Review.validateReview this with
          | Ok _ => Ok this
          | Throw e => Throw e
          end, with_world s w).
Proof.
  unfold Review.new.
  assert (Hd : forall (o : option Date) (s0 : State), exists w d,
     Product.or_default o newDate s0 = (Ok d, with_world s0 w)
     /\ (forall x, o = Some x -> d = x) /\ (o <> None -> w = world s0)).
  { intros [x|] s0.
    - exists (world s0), x. repeat split; [now destruct s0|congruence].
    - exists (snd (Date_now (world s0))), (TimeValue (fst (Date_now (world s0)))).
      repeat split; [apply newDate_run|discriminate|congruence]. }
  destruct (Hd createdAt s) as (w1 & c & E1 & Hc & Hw1).
  destruct (Hd updatedAt (with_world s w1)) as (w2 & u & E2 & Hu & Hw2).
  exists w2, c, u. cbv zeta. split; [exact Hc|]. split; [exact Hu|].
  split; [intros H1 H2; rewrite (Hw2 H2); simpl; now apply Hw1|].
  unfold bind at 1. rewrite E1. unfold bind at 1. rewrite E2.
  unfold bind, lift, ret.
  destruct (Review.validateReview _); reflexivity.
Qed.

(** X29. [Review.create] checks its arguments in a fixed order and throws the
    error of the first check that fails: the rating (which must be one of 1 to
    5: the [Rating] is built before the review), the review id, the product
    id, the comment (not blank, at most 1000 UTF-16 code units), the author
    name (not blank, at most 100 code units). When all pass it returns a
    review holding the arguments. The unit tests of the guide are instances: a
    rating of 6, an empty comment and an empty author name throw the errors
    they name. Length is [String.prototype.length], which counts code units:
    a comment of 501 grinning faces (U+1F600, two code units each) is too
    long and one of 500 is not; a comment of a no-break space and an
    ideographic space is blank. *)
Theorem Review_create_validates_in_order (id productId : string) (rating : number)
    (comment authorName : string) (s : State) :
  let run := Review.create id productId rating comment authorName s in
  (Js.Number_isInteger rating = false ->
   run = (Throw (Error "Rating must be an integer"), s))
  /\ (Js.Number_isInteger rating = true -> ~ In rating [1; 2; 3; 4; 5] ->
      run = (Throw (Error "Rating must be between 1 and 5"), s))
  /\ (In rating [1; 2; 3; 4; 5] ->
      (Js.truthy_string id = false ->
       fst run = Throw (Error "Review ID is required"))
      /\ (Js.truthy_string id = true -> Js.truthy_string productId = false ->
          fst run = Throw (Error "Product ID is required"))
      /\ (Js.truthy_string id = true -> Js.truthy_string productId = true ->
          Js.blank comment = true ->
          fst run = Throw (Error "Comment cannot be empty"))
      /\ (Js.truthy_string id = true -> Js.truthy_string productId = true ->
          Js.blank comment = false -> (1000 < String.length comment)%nat ->
          fst run = Throw (Error "Comment cannot exceed 1000 characters"))
      /\ (Js.truthy_string id = true -> Js.truthy_string productId = true ->
          Js.blank comment = false -> (String.length comment <= 1000)%nat ->
          Js.blank authorName = true ->
          fst run = Throw (Error "Author name cannot be empty"))
      /\ (Js.truthy_string id = true -> Js.truthy_string productId = true ->
          Js.blank comment = false -> (String.length comment <= 1000)%nat ->
          Js.blank authorName = false -> (100 < String.length authorName)%nat ->
          fst run = Throw (Error "Author name cannot exceed 100 characters"))
      /\ (Js.truthy_string id = true -> Js.truthy_string productId = true ->
          Js.blank comment = false -> (String.length comment <= 1000)%nat ->
          Js.blank authorName = false -> (String.length authorName <= 100)%nat ->
          exists review,
            fst run = Ok review
            /\ review_id review = id /\ review_productId review = productId
            /\ Rating.value (review_rating review) = rating
            /\ review_comment review = comment
            /\ review_authorName review = authorName))
  /\ fst (Review.create "123" "456" 6 "Great product!" "John Doe" s)
     = Throw (Error "Rating must be between 1 and 5")
  /\ fst (Review.create "123" "456" 4 "" "John Doe" s)
     = Throw (Error "Comment cannot be empty")
  /\ fst (Review.create "123" "456" 4 "Great product!" "" s)
     = Throw (Error "Author name cannot be empty")
  /\ fst (Review.create "123" "456" 4 (String 160%N (String 12288%N "")) "John Doe" s)
     = Throw (Error "Comment cannot be empty")
  /\ String.length (repeat_string 501 grinning_face) = 1002%nat
  /\ fst (Review.create "123" "456" 4 (repeat_string 501 grinning_face) "John Doe" s)
     = Throw (Error "Comment cannot exceed 1000 characters")
  /\ (exists review,
        fst (Review.create "123" "456" 4 (repeat_string 500 grinning_face)
               "John Doe" s) = Ok review).
Proof.
  assert (Hrun : forall i p x c a,
            In x [1; 2; 3; 4; 5] ->
            exists d1 d2,
              fst (Review.create i p x c a s)
              = match Review.validateReview (mkReview i p (Rating.mk x) c a d1 d2) with
                | Ok _ => Ok (mkReview i p (Rating.mk x) c a d1 d2)
                | Throw e => Throw e
                end).
  { intros i p x c a Hx. unfold Review.create.
    destruct (Rating_new_cases x) as [[_ E]|[[_ E]|(_ & Hn & _)]]; [| |contradiction].
    - unfold bind at 1, lift. rewrite E.
      destruct (Review_new_run i p (Rating.mk x) c a None None s)
        as (w & d1 & d2 & _ & _ & _ & En).
      cbv zeta in En. rewrite En. now exists d1, d2.
    - exfalso. simpl in Hx.
      destruct Hx as [<-|[<-|[<-|[<-|[<-|[]]]]]]; vm_compute in E; discriminate E. }
  intros run. subst run.
  split; [|split; [|split; [|split; [|split; [|split; [|split; [|split; [|split]]]]]]]].
  - intros Hi. unfold Review.create.
    destruct (Rating_new_cases rating) as [[HIn _]|[[_ E]|(Hi' & _ & _)]];
      [|unfold bind, lift; now rewrite E|congruence].
    exfalso. simpl in HIn.
    destruct HIn as [<-|[<-|[<-|[<-|[<-|[]]]]]]; vm_compute in Hi; discriminate Hi.
  - intros Hi Hn. unfold Review.create.
    destruct (Rating_new_cases rating) as [[HIn _]|[[Hi' _]|(_ & _ & E)]];
      [contradiction|congruence|unfold bind, lift; now rewrite E].
  - intros HIn. destruct (Hrun id productId rating comment authorName HIn)
      as (d1 & d2 & E).
    rewrite E. clear E.
    unfold Review.validateReview, Review.validateComment, Review.validateAuthorName,
      Review.MAX_COMMENT_LENGTH, Review.MAX_AUTHOR_NAME_LENGTH.
    cbn [review_id review_productId review_comment review_authorName].
    split; [intros ->; reflexivity|].
    split; [intros -> ->; reflexivity|].
    split; [intros -> -> ->; reflexivity|].
    split.
    { intros -> -> -> Hlen. apply Nat.ltb_lt in Hlen. now rewrite Hlen. }
    split.
    { intros -> -> -> Hlen ->. apply Nat.ltb_ge in Hlen. now rewrite Hlen. }
    split.
    { intros -> -> -> Hlen -> Hlen'. apply Nat.ltb_ge in Hlen.
      apply Nat.ltb_lt in Hlen'. now rewrite Hlen, Hlen'. }
    intros -> -> -> Hlen -> Hlen'. apply Nat.ltb_ge in Hlen, Hlen'.
    rewrite Hlen, Hlen'. eexists. split; [reflexivity|]. now repeat split.
  - unfold Review.create. unfold bind, lift.
    replace (Rating.new 6) with (Throw (A := Rating.t)
                                   (Error "Rating must be between 1 and 5"))
      by (vm_compute; reflexivity).
    reflexivity.
  - destruct (Hrun "123" "456" 4 "" "John Doe") as (d1 & d2 & E);
      [simpl; tauto|]. now rewrite E.
  - destruct (Hrun "123" "456" 4 "Great product!" "") as (d1 & d2 & E);
      [simpl; tauto|]. now rewrite E.
  - destruct (Hrun "123" "456" 4 (String 160%N (String 12288%N "")) "John Doe")
      as (d1 & d2 & E); [simpl; tauto|]. now rewrite E.
  - vm_compute; reflexivity.
  - destruct (Hrun "123" "456" 4 (repeat_string 501 grinning_face) "John Doe")
      as (d1 & d2 & E); [simpl; tauto|]. rewrite E.
    unfold Review.validateReview. cbn [review_id review_productId review_comment].
    replace (Review.validateComment (repeat_string 501 grinning_face))
      with (Throw (A := unit) (Error "Comment cannot exceed 1000 characters"))
      by (vm_compute; reflexivity).
    reflexivity.
  - destruct (Hrun "123" "456" 4 (repeat_string 500 grinning_face) "John Doe")
      as (d1 & d2 & E); [simpl; tauto|]. rewrite E.
    unfold Review.validateReview.
    cbn [review_id review_productId review_comment review_authorName].
    replace (Review.validateComment (repeat_string 500 grinning_face))
      with (Ok (A := unit) tt) by (vm_compute; reflexivity).
    eexists. reflexivity.
Qed.

Lemma Review_toPrimitives_run (this : ReviewObject) (s : State) :
  Review.toPrimitives this s
  = (match review_createdAt this, review_updatedAt this with
     | TimeValue c, TimeValue u =>
         Ok {| ReviewDto.id := review_id this;
               ReviewDto.productId := review_productId this;
               ReviewDto.rating := Rating.value (review_rating this);
               ReviewDto.comment := review_comment this;
               ReviewDto.authorName := review_authorName this;
               ReviewDto.createdAt := isoString c;
               ReviewDto.updatedAt := isoString u |}
     | _, _ => Throw (RangeError "Invalid time value")
     end, s).
Proof.
  unfold Review.toPrimitives.
  destruct (review_createdAt this); [reflexivity|].
  destruct (review_updatedAt this); reflexivity.
Qed.

(** X30. A review that passes the constructor's checks, with a rating the
    [Rating] constructor made, goes through [toPrimitives] and [fromPrimitives]
    and back to the same record, when its two dates are valid and the
    record's two timestamp strings are stable; no rating is lost on the way. *)
Theorem Review_roundtrip (this : ReviewObject) (x : number) (dto : ReviewDto.t)
    (s s' : State) :
  Rating.new x = Ok (review_rating this) ->
  Review.validateReview this = Ok tt ->
  Review.toPrimitives this s = (Ok dto, s') ->
  iso_stable (ReviewDto.createdAt dto) ->
  iso_stable (ReviewDto.updatedAt dto) ->
  exists that s1,
    Review.fromPrimitives (ReviewData.of_dto dto) s' = (Ok that, s1)
    /\ review_rating that = review_rating this
    /\ Review.toPrimitives that s1 = (Ok dto, s1).
Proof.
  intros Hrating Hvalid Hto [Hc1 (tc & Hc2 & Hc3)] [Hu1 (tu & Hu2 & Hu3)].
  rewrite Review_toPrimitives_run in Hto.
  destruct this as [i p r c a dc du]. cbn in Hto, Hrating, Hvalid.
  destruct dc as [|c0]; [discriminate Hto|]. destruct du as [|u0]; [discriminate Hto|].
  injection Hto as <- <-. cbn in Hc1, Hc2, Hc3, Hu1, Hu2, Hu3.
  destruct (Rating_new_Ok _ _ Hrating) as [_ ->].
  unfold Review.fromPrimitives, ReviewData.of_dto.
  cbn [ReviewData.rating ReviewData.createdAt ReviewData.updatedAt ReviewData.id
       ReviewData.productId ReviewData.comment ReviewData.authorName
       ReviewDto.rating ReviewDto.createdAt ReviewDto.updatedAt ReviewDto.id
       ReviewDto.productId ReviewDto.comment ReviewDto.authorName
       Rating.value Rating._value].
  unfold bind at 1, lift. rewrite Hrating.
  unfold Product.date_or_now. rewrite Hc1, Hu1, Hc2, Hu2.
  unfold bind at 1, ret at 1. unfold bind at 1, ret at 1.
  destruct (Review_new_run i p (Rating.mk x) c a (Some (TimeValue tc))
              (Some (TimeValue tu)) s)
    as (w & dc' & du' & Hdc & Hdu & Hw & E).
  cbv zeta in E. rewrite (Hdc _ eq_refl), (Hdu _ eq_refl) in E.
  change (Review.validateReview (mkReview i p (Rating.mk x) c a (TimeValue tc)
                                   (TimeValue tu)))
    with (Review.validateReview (mkReview i p (Rating.mk x) c a (TimeValue c0)
                                   (TimeValue u0))) in E.
  rewrite Hvalid in E. rewrite E.
  eexists _, _. split; [reflexivity|]. split; [reflexivity|].
  rewrite Review_toPrimitives_run. cbn. now rewrite Hc3, Hu3.
Qed.

End ReviewEntity.

(** * The further properties on concrete inputs *)

Section ValueObjectExamples.
Local Open Scope float_scope.

Lemma ProductCategory_equals_same_category_witness :
  ProductCategory.equals (ProductCategory.mk "electronics")
    (ProductCategory.mk "electronics")
  = ProductCategory.matches_ignoring_case "Electronics" "ELECTRONICS"
  /\ ProductCategory.new "electronics" = Ok (ProductCategory.mk "electronics").
Proof.
  destruct (ProductCategory_equals_same_category "Electronics" "ELECTRONICS"
              (ProductCategory.mk "electronics") (ProductCategory.mk "electronics")
              ltac:(vm_compute; reflexivity) ltac:(vm_compute; reflexivity))
    as (H1 & _ & _ & _ & H5).
  split; [exact H1|exact H5].
Defined.

Lemma Rating_equals_same_value_witness :
  (Rating.equals (Rating.mk 4) (Rating.mk 5) = true <-> Rating.mk 4 = Rating.mk 5)
  /\ Rating.equals (Rating.mk 4) (Rating.mk 5) = false.
Proof.
  split; [|vm_compute; reflexivity].
  exact (proj1 (Rating_equals_same_value 4 5 (Rating.mk 4) (Rating.mk 5)
                  ltac:(vm_compute; reflexivity) ltac:(vm_compute; reflexivity))).
Defined.

End ValueObjectExamples.

Section FurtherOfflineExamples.
Import Scenario.
Local Existing Instance Simulated.offline.

Lemma phone_is_valid :
  exists p, heap with_phone !! 0%nat = Some p
            /\ Product_check p = Ok tt /\ _id p = "1" /\ _name p = "Phone"
            /\ _stockQuantity p = 5%float.
Proof.
  eexists. split; [vm_compute; reflexivity|].
  split; [vm_compute; reflexivity|]. split; [reflexivity|]. split; reflexivity.
Qed.

Lemma valid_products_stay_valid_witness :
  exists p',
    heap (perform_all (RT := Simulated.offline) more_phone_calls with_phone) !! 0%nat
    = Some p'
    /\ Product_check p' = Ok tt /\ _id p' = "1".
Proof.
  destruct phone_is_valid as (p & Hp & Hchk & Hid & _).
  destruct (valid_products_stay_valid (RT := Simulated.offline) more_phone_calls
              with_phone 0%nat p Hp Hchk) as (p' & H1 & H2 & H3 & _).
  exists p'. split; [exact H1|]. split; [exact H2|congruence].
Defined.

Lemma updatePrice_changes_price_only_witness :
  exists s' p',
    Product.updatePrice (RT := Simulated.offline) 0%nat 899%float with_phone = (Ok tt, s')
    /\ heap s' !! 0%nat = Some p'
    /\ _price p' = 899%float /\ _name p' = "Phone" /\ _stockQuantity p' = 5%float.
Proof.
  destruct phone_is_valid as (p & Hp & _ & _ & Hname & Hstock).
  destruct (proj2 (updatePrice_changes_price_only (RT := Simulated.offline)
                     0%nat 899%float p with_phone Hp) ltac:(vm_compute; reflexivity))
    as (s' & E & Hp' & _).
  eexists s', _. split; [exact E|]. split; [exact Hp'|].
  split; [reflexivity|]. split; [exact Hname|exact Hstock].
Defined.

Lemma updateDetails_changes_details_only_witness :
  Product.updateDetails (RT := Simulated.offline) 0%nat "  " "d" electronics with_phone
  = (Throw (Error "Product name cannot be empty"), with_phone).
Proof.
  destruct phone_is_valid as (p & Hp & _).
  exact (proj1 (updateDetails_changes_details_only (RT := Simulated.offline)
                  0%nat "  " "d" electronics p with_phone Hp)
           ltac:(vm_compute; reflexivity)).
Defined.

Lemma fromPrimitives_defaults_witness :
  exists this s' p,
    Product.fromPrimitives (RT := Simulated.offline) undated_record offline_start
    = (Ok this, s')
    /\ heap s' !! this = Some p
    /\ _stockQuantity p = 0%float /\ _inStock p = false
    /\ _createdAt p = TimeValue Simulated.new_year_2024
    /\ Product.toPrimitives this s' = (Throw (RangeError "Invalid time value"), s').
Proof.
  destruct (fromPrimitives_defaults (RT := Simulated.offline) undated_record
              (ProductCategory.mk "home") offline_start
              ltac:(vm_compute; reflexivity) ltac:(vm_compute; reflexivity)
              ltac:(vm_compute; reflexivity) ltac:(vm_compute; reflexivity)
              ltac:(intros q [=]))
    as (this & s' & p & E & Hp & _ & _ & Hstock & _ & _ & _ & Hc & Hu & Hto).
  exists this, s', p. split; [exact E|]. split; [exact Hp|].
  destruct (Hstock eq_refl) as [H1 H2]. split; [exact H1|]. split; [exact H2|].
  split; [apply Hc; now left|].
  apply Hto. right. rewrite (Hu "yesterday" eq_refl eq_refl). vm_compute; reflexivity.
Defined.

Lemma repository_copies_agree_on_absolute_urls_witness :
  ApiProductRepository.repository (RT := Simulated.offline)
    (ApiProductRepository.new_with_base (Some ProductsRoute.MOCK_API_URL))
  = ApiProductRepository.repository
      (ApiProductRepository.new (Some ProductsRoute.MOCK_API_URL)).
Proof.
  apply (repository_copies_agree_on_absolute_urls (RT := Simulated.offline)).
  vm_compute; reflexivity.
Defined.

Lemma service_mocks_allocated : mocks_allocated with_service.
Proof.
  unfold mocks_allocated.
  change (mockProducts with_service) with [0; 1; 2; 3; 4]%nat.
  repeat (apply Forall_cons; split; [eexists; vm_compute; reflexivity|]).
  apply Forall_nil_2.
Qed.

Lemma service_serves_mock_data_when_offline_witness :
  (exists w, ProductService.getProductById repository "4" with_service
             = (Ok (Some 3%nat), with_world with_service w))
  /\ (exists w, ProductService.getProductsByCategory repository "CLOTHING" with_service
                = (Ok [3; 4]%nat, with_world with_service w)).
Proof.
  destruct (service_serves_mock_data_when_offline (RT := Simulated.offline)
              (ApiProductRepository.new None) with_service
              offline_transport_down service_mocks_allocated)
    as (Hid & _ & Hcat).
  unfold repository. split.
  - destruct (Hid "4") as [w E]. exists w. rewrite E. reflexivity.
  - destruct (Hcat "CLOTHING" (ProductCategory.mk "clothing")
                ltac:(vm_compute; reflexivity)) as [w E].
    exists w. rewrite E. reflexivity.
Defined.

Lemma created_product_is_found_when_offline_witness :
  exists product s1 w,
    ProductService.createProduct repository lamp with_service = (Ok product, s1)
    /\ mockProducts s1 = (mockProducts with_service ++ [product])%list
    /\ ProductService.getProductById repository "9" s1
       = (Ok (Some product), with_world s1 w).
Proof.
  destruct (created_product_is_found_when_offline (RT := Simulated.offline)
              (ApiProductRepository.new None) lamp "9" (ProductCategory.mk "home")
              with_service offline_transport_down service_mocks_allocated
              eq_refl eq_refl ltac:(vm_compute; reflexivity)
              ltac:(vm_compute; reflexivity) ltac:(vm_compute; reflexivity)
              ltac:(vm_compute; reflexivity))
    as (product & s1 & p & E & _ & _ & _ & _ & _ & _ & Hm & _ & _ & w & Eget).
  exists product, s1, w. split; [exact E|]. split; [exact Hm|].
  replace (first_with_id (heap with_service) "9" (mockProducts with_service))
    with (@None ref) in Eget by (vm_compute; reflexivity).
  exact Eget.
Defined.

Lemma deleted_product_is_gone_when_offline_witness :
  exists s1,
    ProductService.deleteProduct repository "1" with_service = (Ok true, s1)
    /\ mockProducts s1 = [1; 2; 3; 4]%nat
    /\ exists w, ProductService.getProductById repository "1" s1
                 = (Ok None, with_world s1 w).
Proof.
  destruct (deleted_product_is_gone_when_offline (RT := Simulated.offline)
              (ApiProductRepository.new None) "1" with_service
              offline_transport_down service_mocks_allocated)
    as (s1 & E & _ & Hm & Hget & _).
  exists s1. split; [|split; [|exact Hget]].
  - replace (first_with_id (heap with_service) "1" (mockProducts with_service))
      with (Some 0%nat) in E by (vm_compute; reflexivity).
    exact E.
  - rewrite Hm. vm_compute; reflexivity.
Defined.

Lemma update_is_kept_when_offline_witness :
  exists s2 p' w,
    ProductService.updateProduct repository "2"
      (UpdateProductDto.mk None None (Some 1200%float) None None) with_service
    = (Ok (Some 1%nat), s2)
    /\ heap s2 !! 1%nat = Some p' /\ _price p' = 1200%float /\ _name p' = "Laptop"
    /\ ProductService.getProductById repository "2" s2
       = (Ok (Some 1%nat), with_world s2 w).
Proof.
  assert (Hp : exists p, heap with_service !! 1%nat = Some p
                         /\ Product_check p = Ok tt /\ _name p = "Laptop").
  { eexists. split; [vm_compute; reflexivity|]. split; vm_compute; reflexivity. }
  destruct Hp as (p & Hp & Hchk & Hname).
  destruct (update_is_kept_when_offline (RT := Simulated.offline)
              (ApiProductRepository.new None) "2"
              (UpdateProductDto.mk None None (Some 1200%float) None None)
              1%nat p with_service offline_transport_down service_mocks_allocated
              ltac:(vm_compute; reflexivity) Hp Hchk
              ltac:(unfold valid_update; cbn; repeat split; intros ? [=]; subst;
                    reflexivity))
    as (s2 & p' & E & Hp' & Hup & _ & _ & w & Eget).
  exists s2, p', w. split; [exact E|]. split; [exact Hp'|].
  destruct Hup as (_ & _ & Hn & _ & _ & Hpr & _).
  split; [exact Hpr|]. split; [rewrite Hn; exact Hname|exact Eget].
Defined.

Lemma plain_service_reports_absence_when_offline_witness :
  exists w,
    NextjsDddProductService.updateProduct repository "1"
      (UpdateProductDto.mk None None (Some 10%float) None None) offline_start
    = (Ok None, with_world offline_start w).
Proof.
  exact (proj1 (proj2 (proj2 (proj2
           (plain_service_reports_absence_when_offline (RT := Simulated.offline)
              (ApiProductRepository.new None) offline_start offline_transport_down))))
           "1" (UpdateProductDto.mk None None (Some 10%float) None None)).
Defined.


Lemma product_routes_serve_mock_data_when_offline_witness :
  exists dto w,
    ProductIdRoute.GET (ProductIdRoute.with_mock_data repository) "1" with_service
    = (Ok (Reply.json (Reply.OneProduct dto) None), with_world with_service w)
    /\ ProductDto.name dto = "Smartphone" /\ ProductDto.inStock dto = true
    /\ ProductDto.createdAt dto = "2024-01-01T00:00:00.000Z".
Proof.
  assert (Hp : exists p c u, heap with_service !! 0%nat = Some p
                             /\ _createdAt p = TimeValue c /\ _updatedAt p = TimeValue u
                             /\ ProductDto.name (record_of p c u) = "Smartphone"
                             /\ ProductDto.inStock (record_of p c u) = true
                             /\ ProductDto.createdAt (record_of p c u)
                                = "2024-01-01T00:00:00.000Z").
  { eexists _, _, _. split; [vm_compute; reflexivity|].
    split; [reflexivity|]. split; [reflexivity|].
    split; [reflexivity|]. split; [reflexivity|]. vm_compute; reflexivity. }
  destruct Hp as (p & c & u & Hp & Hc & Hu & Hn & Hs & Hd).
  destruct (proj1 (proj2 (product_routes_serve_mock_data_when_offline
                            (RT := Simulated.offline)
                            (ApiProductRepository.new None) "1" with_service
                            offline_transport_down service_mocks_allocated)
                     0%nat p c u ltac:(vm_compute; reflexivity) Hp Hc Hu))
    as (w & E).
  exists (record_of p c u), w. split; [exact E|]. split; [exact Hn|].
  split; [exact Hs|exact Hd].
Defined.


Lemma registered_email_is_refused_witness :
  RegisterRoute.POST (RT := Simulated.offline)
    (Ok (RegisterRoute.mkBody (Some "Another Ann") (Some "ann@example.com") None))
    (register_all (RT := Simulated.offline) [ann] with_auth)
  = (Ok (Http.json (Http.ErrorJson "Email already registered" None) (Some 400%Z)),
     register_all (RT := Simulated.offline) [ann] with_auth).
Proof.
  apply (registered_email_is_refused (RT := Simulated.offline) []
           (RegisterRoute.mkBody (Some "Another Ann") (Some "ann@example.com") None)
           "ann@example.com"
           (register_all (RT := Simulated.offline) [ann] with_auth)).
  - vm_compute. left. reflexivity.
  - reflexivity.
Defined.

Lemma users_stay_valid_witness :
  exists this s,
    User.new (RT := Simulated.offline) "u1" (Some "ann@example.com") (Some "Ann")
      None None None offline_start = (Ok this, s)
    /\ valid_user (fst (user_perform_all user_calls this s))
    /\ user_name (fst (user_perform_all user_calls this s)) = "Ann B"
    /\ user_role (fst (user_perform_all user_calls this s)) = "admin".
Proof.
  set (this := mkUser "u1" "ann@example.com" "Ann" "user"
                 (TimeValue Simulated.new_year_2024)
                 (TimeValue (Simulated.new_year_2024 + 1))).
  set (s := with_world (RT := Simulated.offline) offline_start
              (Simulated.new_year_2024 + 2)%Z).
  assert (E : User.new (RT := Simulated.offline) "u1" (Some "ann@example.com")
                (Some "Ann") None None None offline_start = (Ok this, s))
    by (vm_compute; reflexivity).
  exists this, s. split; [exact E|].
  split; [|split; vm_compute; reflexivity].
  exact (proj1 (proj2 (proj2
           (users_stay_valid (RT := Simulated.offline) "u1" (Some "ann@example.com")
              (Some "Ann") None None None user_calls this offline_start s E)))).
Defined.

Lemma Review_roundtrip_witness :
  exists dto that s1,
    Review.toPrimitives (RT := Simulated.offline) review offline_start
    = (Ok dto, offline_start)
    /\ Review.fromPrimitives (ReviewData.of_dto dto) offline_start = (Ok that, s1)
    /\ Review.toPrimitives that s1 = (Ok dto, s1)
    /\ ReviewDto.rating dto = 4%float.
Proof.
  assert (Hto : Review.toPrimitives (RT := Simulated.offline) review offline_start
                = (Ok (ReviewDto.mk "123" "456" 4%float "Great product!" "John Doe"
                         "2024-01-01T00:00:00.000Z" "2024-01-01T00:00:00.001Z"),
                   offline_start)) by (vm_compute; reflexivity).
  destruct (Review_roundtrip (RT := Simulated.offline) review 4%float _
              offline_start offline_start
              ltac:(vm_compute; reflexivity) ltac:(vm_compute; reflexivity) Hto
              ltac:(split; [reflexivity|eexists; split; [vm_compute; reflexivity|vm_compute; reflexivity]])
              ltac:(split; [reflexivity|eexists; split; [vm_compute; reflexivity|vm_compute; reflexivity]]))
    as (that & s1 & Hfrom & _ & Hback).
  eexists _, that, s1. split; [exact Hto|]. split; [exact Hfrom|].
  split; [exact Hback|reflexivity].
Defined.

End FurtherOfflineExamples.

Section CatalogueExamples.
Import Scenario.
Local Existing Instance catalogue_server.

Lemma findAll_all_or_nothing_witness :
  exists s' ps,
    ApiProductRepository.findAll (RT := catalogue_server)
      (ApiProductRepository.new None) catalogue_start
    = (Ok [0; 1]%nat, s')
    /\ heap s' = ps
    /\ map _name ps = ["Phone"; "Kettle"]
    /\ map _inStock ps = [true; false].
Proof.
  destruct (proj1 (findAll_all_or_nothing (RT := catalogue_server)
                     (ApiProductRepository.new None) catalogue_start
                     {| Fetch.status := 200; Fetch.statusText := "OK";
                        Fetch.json := Ok (Fetch.JProducts catalogue) |} catalogue
                     ltac:(vm_compute; reflexivity) ltac:(vm_compute; reflexivity)
                     eq_refl)
              ltac:(vm_compute; reflexivity))
    as (s' & ps & E & Hheap & Hps & _).
  exists s', ps. split; [exact E|]. split; [exact Hheap|].
  unfold catalogue in Hps.
  apply Forall2_cons_inv_l in Hps as (p1 & ps1 & H1 & Hps & ->).
  apply Forall2_cons_inv_l in Hps as (p2 & ps2 & H2 & Hps & ->).
  apply Forall2_nil_inv_l in Hps as ->.
  destruct H1 as (_ & Hn1 & _ & _ & _ & _ & Hs1).
  destruct H2 as (_ & Hn2 & _ & _ & _ & _ & Hs2).
  cbn [map]. rewrite Hn1, Hn2, Hs1, Hs2. split; reflexivity.
Defined.

Lemma save_puts_or_posts_witness :
  exists s1 s2,
    ApiProductRepository.findById (RT := catalogue_server)
      (ApiProductRepository.new None) "1" catalogue_with_phone = (Ok (Some 1%nat), s1)
    /\ ApiProductRepository.save (ApiProductRepository.new None) 0%nat
         catalogue_with_phone = (Ok tt, s2)
    /\ forall response,
         fst (await_fetch (Fetch.mkRequest "PUT" "/api/products/1"
                             [("Content-Type", "application/json")]
                             (Some (ProductDto.mk "1" "Phone" "" 999.99%float
                                      "electronics" true 5%float
                                      "2024-01-01T00:00:00.000Z"
                                      "2024-01-01T00:00:00.001Z"))) s1)
         = Ok response ->
         Fetch.ok response = true.
Proof.
  set (p := mkProduct "1" "Phone" "" 999.99%float electronics true 5%float
              (TimeValue Simulated.new_year_2024)
              (TimeValue (Simulated.new_year_2024 + 1))).
  assert (Hp : heap catalogue_with_phone !! 0%nat = Some p) by (vm_compute; reflexivity).
  assert (Hfind : exists s1,
            ApiProductRepository.findById (RT := catalogue_server)
              (ApiProductRepository.new None) "1" catalogue_with_phone
            = (Ok (Some 1%nat), s1))
    by (eexists; vm_compute; reflexivity).
  destruct Hfind as (s1 & Hfind).
  pose proof (save_puts_or_posts (RT := catalogue_server)
                (ApiProductRepository.new None) 0%nat p Simulated.new_year_2024
                (Simulated.new_year_2024 + 1) (Some 1%nat)
                catalogue_with_phone s1 Hp eq_refl eq_refl Hfind) as E.
  exists s1. eexists. split; [exact Hfind|]. split.
  - rewrite E. unfold bind. rewrite await_fetch_run. reflexivity.
  - intros response. rewrite await_fetch_run. intros [= <-]. reflexivity.
Defined.

End CatalogueExamples.
